(** * rxvc: command dispatch and validation layer

    A shallow embedding of [rxvc/cli.py], the command-line front end of a
    Yamaha RX-V receiver.  Every command handler is a Python function that
    talks to one receiver object ([ctx.obj['avr']]) and writes text.  The
    handlers are embedded as computations in a small monad that threads the
    receiver, records every receiver call and every line written, and
    carries Python exceptions and early [return]s.

    Python [float] is IEEE binary64 and is modelled by Rocq's primitive
    floats; Python [int] is [Z]; [str] is [string], the UTF-8 bytes
    of the text; a [dict] is a [gmap]. *)

From Stdlib Require Import ZArith Floats Ascii.
From stdpp Require Import gmap strings list sorting.

Local Open Scope Z_scope.
Local Open Scope string_scope.

(** ** Python values and built-ins *)

Module Py.

(** The exceptions the handlers can meet.  [ResponseException] is the
    receiver library's rejection, [str(e)] is its text.  Anything else the
    transport may raise (a connection error, say) is [OtherException]. *)
Inductive exn : Type :=
| ResponseException (text : string)
| TypeError (text : string)
| ValueError (text : string)
| OverflowError (text : string)
| OtherException (text : string).

(** [bool(x)] for a float: false exactly for [0.0] and [-0.0]. *)
Definition float_bool (x : float) : bool := negb (PrimFloat.eqb x 0%float).

(** [bool(s)] for a string: false exactly for the empty string. *)
Definition str_bool (s : string) : bool :=
  match s with
  | EmptyString => false
  | String _ _ => true
  end.

(** [float(n)] for an int: the nearest double, ties to even;
    [OverflowError] when that is not finite. *)
Definition float_of_int (n : Z) : exn + float :=
  let f := SF2Prim (binary_normalize prec emax n 0 false) in
  if PrimFloat.is_infinity f
  then inl (OverflowError "int too large to convert to float")
  else inr f.

(** [n * x] for an int [n] and a float [x]. *)
Definition mul_int_float (n : Z) (x : float) : exn + float :=
  match float_of_int n with
  | inl e => inl e
  | inr f => inr (PrimFloat.mul f x)
  end.

(** [int(x)] for a float: truncation toward zero. *)
Definition int_of_float (x : float) : exn + Z :=
  match Prim2SF x with
  | S754_zero _ => inr 0
  | S754_finite s m e =>
      let a := Z.shiftl (Z.pos m) e in
      inr (if s then - a else a)
  | S754_infinity _ =>
      inl (OverflowError "cannot convert float infinity to integer")
  | S754_nan => inl (ValueError "cannot convert float NaN to integer")
  end.

(** [operator.add] and [operator.sub] on floats. *)
Definition operator_add (x y : float) : float := PrimFloat.add x y.
Definition operator_sub (x y : float) : float := PrimFloat.sub x y.

(** *** [str.lower()]

    A [str] is kept as its UTF-8 bytes.  [lower] reads the code points,
    maps each one as the interpreter does (Unicode 14.0: the lower-case
    mapping of every cased character, the two code points of U+0130, and
    the choice between the two small sigmas by what stands around a
    capital one) and writes the code points back. *)

Definition is_cont (n : N) : bool := ((128 <=? n) && (n <=? 191))%N.

(** A byte that belongs to no well-formed sequence stands for itself, as
    the code point [0xDC00 + byte]. *)
Definition escape (n : N) : N := (56320 + n)%N.

Fixpoint decode (s : string) : list N :=
  match s with
  | EmptyString => []
  | String b0 r0 =>
      let n0 := N_of_ascii b0 in
      if (n0 <? 128)%N then n0 :: decode r0
      else
        match r0 with
        | EmptyString => escape n0 :: decode r0
        | String b1 r1 =>
            let n1 := N_of_ascii b1 in
            let c2 := ((n0 - 192) * 64 + (n1 - 128))%N in
            if ((192 <=? n0) && (n0 <=? 223) && is_cont n1 && (128 <=? c2))%N
            then c2 :: decode r1
            else
              match r1 with
              | EmptyString => escape n0 :: decode r0
              | String b2 r2 =>
                  let n2 := N_of_ascii b2 in
                  let c3 := ((n0 - 224) * 4096 + (n1 - 128) * 64
                             + (n2 - 128))%N in
                  if ((224 <=? n0) && (n0 <=? 239) && is_cont n1 && is_cont n2
                      && (2048 <=? c3)
                      && negb ((55296 <=? c3) && (c3 <=? 57343)))%N
                  then c3 :: decode r2
                  else
                    match r2 with
                    | EmptyString => escape n0 :: decode r0
                    | String b3 r3 =>
                        let n3 := N_of_ascii b3 in
                        let c4 := ((n0 - 240) * 262144 + (n1 - 128) * 4096
                                   + (n2 - 128) * 64 + (n3 - 128))%N in
                        if ((240 <=? n0) && (n0 <=? 247) && is_cont n1
                            && is_cont n2 && is_cont n3
                            && (65536 <=? c4) && (c4 <=? 1114111))%N
                        then c4 :: decode r3
                        else escape n0 :: decode r0
                    end
              end
        end
  end.

Definition encode1 (c : N) : string :=
  if (c <? 128)%N then String (ascii_of_N c) ""
  else if (c <? 2048)%N then
    String (ascii_of_N (192 + c / 64))
      (String (ascii_of_N (128 + c mod 64)) "")
  else if ((56448 <=? c) && (c <=? 56575))%N then
    String (ascii_of_N (c - 56320)) ""
  else if (c <? 65536)%N then
    String (ascii_of_N (224 + c / 4096))
      (String (ascii_of_N (128 + (c / 64) mod 64))
         (String (ascii_of_N (128 + c mod 64)) ""))
  else
    String (ascii_of_N (240 + c / 262144))
      (String (ascii_of_N (128 + (c / 4096) mod 64))
         (String (ascii_of_N (128 + (c / 64) mod 64))
            (String (ascii_of_N (128 + c mod 64)) ""))).

Fixpoint encode (l : list N) : string :=
  match l with
  | [] => ""
  | c :: r => encode1 c +:+ encode r
  end.

(** The lower-case mapping of single code points, in runs: from [first]
    to [last] every [stride]-th code point is cased, and the image of
    [first + k] is [image + k]. *)
Definition lower_runs : list (N * N * N * N) := [
  (65, 90, 1, 97); (192, 214, 1, 224); (216, 222, 1, 248);
  (256, 302, 2, 257); (306, 310, 2, 307); (313, 327, 2, 314);
  (330, 374, 2, 331); (376, 376, 1, 255); (377, 381, 2, 378);
  (385, 385, 1, 595); (386, 388, 2, 387); (390, 390, 1, 596);
  (391, 391, 1, 392); (393, 394, 1, 598); (395, 395, 1, 396);
  (398, 398, 1, 477); (399, 399, 1, 601); (400, 400, 1, 603);
  (401, 401, 1, 402); (403, 403, 1, 608); (404, 404, 1, 611);
  (406, 406, 1, 617); (407, 407, 1, 616); (408, 408, 1, 409);
  (412, 412, 1, 623); (413, 413, 1, 626); (415, 415, 1, 629);
  (416, 420, 2, 417); (422, 422, 1, 640); (423, 423, 1, 424);
  (425, 425, 1, 643); (428, 428, 1, 429); (430, 430, 1, 648);
  (431, 431, 1, 432); (433, 434, 1, 650); (435, 437, 2, 436);
  (439, 439, 1, 658); (440, 440, 1, 441); (444, 444, 1, 445);
  (452, 452, 1, 454); (453, 453, 1, 454); (455, 455, 1, 457);
  (456, 456, 1, 457); (458, 458, 1, 460); (459, 475, 2, 460);
  (478, 494, 2, 479); (497, 497, 1, 499); (498, 500, 2, 499);
  (502, 502, 1, 405); (503, 503, 1, 447); (504, 542, 2, 505);
  (544, 544, 1, 414); (546, 562, 2, 547); (570, 570, 1, 11365);
  (571, 571, 1, 572); (573, 573, 1, 410); (574, 574, 1, 11366);
  (577, 577, 1, 578); (579, 579, 1, 384); (580, 580, 1, 649);
  (581, 581, 1, 652); (582, 590, 2, 583); (880, 882, 2, 881);
  (886, 886, 1, 887); (895, 895, 1, 1011); (902, 902, 1, 940);
  (904, 906, 1, 941); (908, 908, 1, 972); (910, 911, 1, 973);
  (913, 929, 1, 945); (931, 939, 1, 963); (975, 975, 1, 983);
  (984, 1006, 2, 985); (1012, 1012, 1, 952); (1015, 1015, 1, 1016);
  (1017, 1017, 1, 1010); (1018, 1018, 1, 1019); (1021, 1023, 1, 891);
  (1024, 1039, 1, 1104); (1040, 1071, 1, 1072); (1120, 1152, 2, 1121);
  (1162, 1214, 2, 1163); (1216, 1216, 1, 1231); (1217, 1229, 2, 1218);
  (1232, 1326, 2, 1233); (1329, 1366, 1, 1377); (4256, 4293, 1, 11520);
  (4295, 4295, 1, 11559); (4301, 4301, 1, 11565); (5024, 5103, 1, 43888);
  (5104, 5109, 1, 5112); (7312, 7354, 1, 4304); (7357, 7359, 1, 4349);
  (7680, 7828, 2, 7681); (7838, 7838, 1, 223); (7840, 7934, 2, 7841);
  (7944, 7951, 1, 7936); (7960, 7965, 1, 7952); (7976, 7983, 1, 7968);
  (7992, 7999, 1, 7984); (8008, 8013, 1, 8000); (8025, 8031, 2, 8017);
  (8040, 8047, 1, 8032); (8072, 8079, 1, 8064); (8088, 8095, 1, 8080);
  (8104, 8111, 1, 8096); (8120, 8121, 1, 8112); (8122, 8123, 1, 8048);
  (8124, 8124, 1, 8115); (8136, 8139, 1, 8050); (8140, 8140, 1, 8131);
  (8152, 8153, 1, 8144); (8154, 8155, 1, 8054); (8168, 8169, 1, 8160);
  (8170, 8171, 1, 8058); (8172, 8172, 1, 8165); (8184, 8185, 1, 8056);
  (8186, 8187, 1, 8060); (8188, 8188, 1, 8179); (8486, 8486, 1, 969);
  (8490, 8490, 1, 107); (8491, 8491, 1, 229); (8498, 8498, 1, 8526);
  (8544, 8559, 1, 8560); (8579, 8579, 1, 8580); (9398, 9423, 1, 9424);
  (11264, 11311, 1, 11312); (11360, 11360, 1, 11361); (11362, 11362, 1, 619);
  (11363, 11363, 1, 7549); (11364, 11364, 1, 637); (11367, 11371, 2, 11368);
  (11373, 11373, 1, 593); (11374, 11374, 1, 625); (11375, 11375, 1, 592);
  (11376, 11376, 1, 594); (11378, 11378, 1, 11379); (11381, 11381, 1, 11382);
  (11390, 11391, 1, 575); (11392, 11490, 2, 11393); (11499, 11501, 2, 11500);
  (11506, 11506, 1, 11507); (42560, 42604, 2, 42561); (42624, 42650, 2, 42625);
  (42786, 42798, 2, 42787); (42802, 42862, 2, 42803); (42873, 42875, 2, 42874);
  (42877, 42877, 1, 7545); (42878, 42886, 2, 42879); (42891, 42891, 1, 42892);
  (42893, 42893, 1, 613); (42896, 42898, 2, 42897); (42902, 42920, 2, 42903);
  (42922, 42922, 1, 614); (42923, 42923, 1, 604); (42924, 42924, 1, 609);
  (42925, 42925, 1, 620); (42926, 42926, 1, 618); (42928, 42928, 1, 670);
  (42929, 42929, 1, 647); (42930, 42930, 1, 669); (42931, 42931, 1, 43859);
  (42932, 42946, 2, 42933); (42948, 42948, 1, 42900); (42949, 42949, 1, 642);
  (42950, 42950, 1, 7566); (42951, 42953, 2, 42952); (42960, 42960, 1, 42961);
  (42966, 42968, 2, 42967); (42997, 42997, 1, 42998); (65313, 65338, 1, 65345);
  (66560, 66599, 1, 66600); (66736, 66771, 1, 66776); (66928, 66938, 1, 66967);
  (66940, 66954, 1, 66979); (66956, 66962, 1, 66995); (66964, 66965, 1, 67003);
  (68736, 68786, 1, 68800); (71840, 71871, 1, 71872); (93760, 93791, 1, 93792);
  (125184, 125217, 1, 125218) ]%N.

(** The cased code points and the case-ignorable ones, in intervals. *)
Definition cased_intervals : list (N * N) := [
  (65, 90); (97, 122); (170, 170); (181, 181); (186, 186);
  (192, 214); (216, 246); (248, 442); (444, 447); (452, 659);
  (661, 696); (704, 705); (736, 740); (837, 837); (880, 883);
  (886, 887); (890, 893); (895, 895); (902, 902); (904, 906);
  (908, 908); (910, 929); (931, 1013); (1015, 1153); (1162, 1327);
  (1329, 1366); (1376, 1416); (4256, 4293); (4295, 4295); (4301, 4301);
  (4304, 4346); (4349, 4351); (5024, 5109); (5112, 5117); (7296, 7304);
  (7312, 7354); (7357, 7359); (7424, 7615); (7680, 7957); (7960, 7965);
  (7968, 8005); (8008, 8013); (8016, 8023); (8025, 8025); (8027, 8027);
  (8029, 8029); (8031, 8061); (8064, 8116); (8118, 8124); (8126, 8126);
  (8130, 8132); (8134, 8140); (8144, 8147); (8150, 8155); (8160, 8172);
  (8178, 8180); (8182, 8188); (8305, 8305); (8319, 8319); (8336, 8348);
  (8450, 8450); (8455, 8455); (8458, 8467); (8469, 8469); (8473, 8477);
  (8484, 8484); (8486, 8486); (8488, 8488); (8490, 8493); (8495, 8500);
  (8505, 8505); (8508, 8511); (8517, 8521); (8526, 8526); (8544, 8575);
  (8579, 8580); (9398, 9449); (11264, 11492); (11499, 11502); (11506, 11507);
  (11520, 11557); (11559, 11559); (11565, 11565); (42560, 42605); (42624, 42653);
  (42786, 42887); (42891, 42894); (42896, 42954); (42960, 42961); (42963, 42963);
  (42965, 42969); (42997, 42998); (43000, 43002); (43824, 43866); (43868, 43880);
  (43888, 43967); (64256, 64262); (64275, 64279); (65313, 65338); (65345, 65370);
  (66560, 66639); (66736, 66771); (66776, 66811); (66928, 66938); (66940, 66954);
  (66956, 66962); (66964, 66965); (66967, 66977); (66979, 66993); (66995, 67001);
  (67003, 67004); (67456, 67456); (67459, 67461); (67463, 67504); (67506, 67514);
  (68736, 68786); (68800, 68850); (71840, 71903); (93760, 93823); (119808, 119892);
  (119894, 119964); (119966, 119967); (119970, 119970); (119973, 119974); (119977, 119980);
  (119982, 119993); (119995, 119995); (119997, 120003); (120005, 120069); (120071, 120074);
  (120077, 120084); (120086, 120092); (120094, 120121); (120123, 120126); (120128, 120132);
  (120134, 120134); (120138, 120144); (120146, 120485); (120488, 120512); (120514, 120538);
  (120540, 120570); (120572, 120596); (120598, 120628); (120630, 120654); (120656, 120686);
  (120688, 120712); (120714, 120744); (120746, 120770); (120772, 120779); (122624, 122633);
  (122635, 122654); (125184, 125251); (127280, 127305); (127312, 127337); (127344, 127369) ]%N.

Definition case_ignorable_intervals : list (N * N) := [
  (39, 39); (46, 46); (58, 58); (94, 94); (96, 96);
  (168, 168); (173, 173); (175, 175); (180, 180); (183, 184);
  (688, 879); (884, 885); (890, 890); (900, 901); (903, 903);
  (1155, 1161); (1369, 1369); (1375, 1375); (1425, 1469); (1471, 1471);
  (1473, 1474); (1476, 1477); (1479, 1479); (1524, 1524); (1536, 1541);
  (1552, 1562); (1564, 1564); (1600, 1600); (1611, 1631); (1648, 1648);
  (1750, 1757); (1759, 1768); (1770, 1773); (1807, 1807); (1809, 1809);
  (1840, 1866); (1958, 1968); (2027, 2037); (2042, 2042); (2045, 2045);
  (2070, 2093); (2137, 2139); (2184, 2184); (2192, 2193); (2200, 2207);
  (2249, 2306); (2362, 2362); (2364, 2364); (2369, 2376); (2381, 2381);
  (2385, 2391); (2402, 2403); (2417, 2417); (2433, 2433); (2492, 2492);
  (2497, 2500); (2509, 2509); (2530, 2531); (2558, 2558); (2561, 2562);
  (2620, 2620); (2625, 2626); (2631, 2632); (2635, 2637); (2641, 2641);
  (2672, 2673); (2677, 2677); (2689, 2690); (2748, 2748); (2753, 2757);
  (2759, 2760); (2765, 2765); (2786, 2787); (2810, 2815); (2817, 2817);
  (2876, 2876); (2879, 2879); (2881, 2884); (2893, 2893); (2901, 2902);
  (2914, 2915); (2946, 2946); (3008, 3008); (3021, 3021); (3072, 3072);
  (3076, 3076); (3132, 3132); (3134, 3136); (3142, 3144); (3146, 3149);
  (3157, 3158); (3170, 3171); (3201, 3201); (3260, 3260); (3263, 3263);
  (3270, 3270); (3276, 3277); (3298, 3299); (3328, 3329); (3387, 3388);
  (3393, 3396); (3405, 3405); (3426, 3427); (3457, 3457); (3530, 3530);
  (3538, 3540); (3542, 3542); (3633, 3633); (3636, 3642); (3654, 3662);
  (3761, 3761); (3764, 3772); (3782, 3782); (3784, 3789); (3864, 3865);
  (3893, 3893); (3895, 3895); (3897, 3897); (3953, 3966); (3968, 3972);
  (3974, 3975); (3981, 3991); (3993, 4028); (4038, 4038); (4141, 4144);
  (4146, 4151); (4153, 4154); (4157, 4158); (4184, 4185); (4190, 4192);
  (4209, 4212); (4226, 4226); (4229, 4230); (4237, 4237); (4253, 4253);
  (4348, 4348); (4957, 4959); (5906, 5908); (5938, 5939); (5970, 5971);
  (6002, 6003); (6068, 6069); (6071, 6077); (6086, 6086); (6089, 6099);
  (6103, 6103); (6109, 6109); (6155, 6159); (6211, 6211); (6277, 6278);
  (6313, 6313); (6432, 6434); (6439, 6440); (6450, 6450); (6457, 6459);
  (6679, 6680); (6683, 6683); (6742, 6742); (6744, 6750); (6752, 6752);
  (6754, 6754); (6757, 6764); (6771, 6780); (6783, 6783); (6823, 6823);
  (6832, 6862); (6912, 6915); (6964, 6964); (6966, 6970); (6972, 6972);
  (6978, 6978); (7019, 7027); (7040, 7041); (7074, 7077); (7080, 7081);
  (7083, 7085); (7142, 7142); (7144, 7145); (7149, 7149); (7151, 7153);
  (7212, 7219); (7222, 7223); (7288, 7293); (7376, 7378); (7380, 7392);
  (7394, 7400); (7405, 7405); (7412, 7412); (7416, 7417); (7468, 7530);
  (7544, 7544); (7579, 7679); (8125, 8125); (8127, 8129); (8141, 8143);
  (8157, 8159); (8173, 8175); (8189, 8190); (8203, 8207); (8216, 8217);
  (8228, 8228); (8231, 8231); (8234, 8238); (8288, 8292); (8294, 8303);
  (8305, 8305); (8319, 8319); (8336, 8348); (8400, 8432); (11388, 11389);
  (11503, 11505); (11631, 11631); (11647, 11647); (11744, 11775); (11823, 11823);
  (12293, 12293); (12330, 12333); (12337, 12341); (12347, 12347); (12441, 12446);
  (12540, 12542); (40981, 40981); (42232, 42237); (42508, 42508); (42607, 42610);
  (42612, 42621); (42623, 42623); (42652, 42655); (42736, 42737); (42752, 42785);
  (42864, 42864); (42888, 42890); (42994, 42996); (43000, 43001); (43010, 43010);
  (43014, 43014); (43019, 43019); (43045, 43046); (43052, 43052); (43204, 43205);
  (43232, 43249); (43263, 43263); (43302, 43309); (43335, 43345); (43392, 43394);
  (43443, 43443); (43446, 43449); (43452, 43453); (43471, 43471); (43493, 43494);
  (43561, 43566); (43569, 43570); (43573, 43574); (43587, 43587); (43596, 43596);
  (43632, 43632); (43644, 43644); (43696, 43696); (43698, 43700); (43703, 43704);
  (43710, 43711); (43713, 43713); (43741, 43741); (43756, 43757); (43763, 43764);
  (43766, 43766); (43867, 43871); (43881, 43883); (44005, 44005); (44008, 44008);
  (44013, 44013); (64286, 64286); (64434, 64450); (65024, 65039); (65043, 65043);
  (65056, 65071); (65106, 65106); (65109, 65109); (65279, 65279); (65287, 65287);
  (65294, 65294); (65306, 65306); (65342, 65342); (65344, 65344); (65392, 65392);
  (65438, 65439); (65507, 65507); (65529, 65531); (66045, 66045); (66272, 66272);
  (66422, 66426); (67456, 67461); (67463, 67504); (67506, 67514); (68097, 68099);
  (68101, 68102); (68108, 68111); (68152, 68154); (68159, 68159); (68325, 68326);
  (68900, 68903); (69291, 69292); (69446, 69456); (69506, 69509); (69633, 69633);
  (69688, 69702); (69744, 69744); (69747, 69748); (69759, 69761); (69811, 69814);
  (69817, 69818); (69821, 69821); (69826, 69826); (69837, 69837); (69888, 69890);
  (69927, 69931); (69933, 69940); (70003, 70003); (70016, 70017); (70070, 70078);
  (70089, 70092); (70095, 70095); (70191, 70193); (70196, 70196); (70198, 70199);
  (70206, 70206); (70367, 70367); (70371, 70378); (70400, 70401); (70459, 70460);
  (70464, 70464); (70502, 70508); (70512, 70516); (70712, 70719); (70722, 70724);
  (70726, 70726); (70750, 70750); (70835, 70840); (70842, 70842); (70847, 70848);
  (70850, 70851); (71090, 71093); (71100, 71101); (71103, 71104); (71132, 71133);
  (71219, 71226); (71229, 71229); (71231, 71232); (71339, 71339); (71341, 71341);
  (71344, 71349); (71351, 71351); (71453, 71455); (71458, 71461); (71463, 71467);
  (71727, 71735); (71737, 71738); (71995, 71996); (71998, 71998); (72003, 72003);
  (72148, 72151); (72154, 72155); (72160, 72160); (72193, 72202); (72243, 72248);
  (72251, 72254); (72263, 72263); (72273, 72278); (72281, 72283); (72330, 72342);
  (72344, 72345); (72752, 72758); (72760, 72765); (72767, 72767); (72850, 72871);
  (72874, 72880); (72882, 72883); (72885, 72886); (73009, 73014); (73018, 73018);
  (73020, 73021); (73023, 73029); (73031, 73031); (73104, 73105); (73109, 73109);
  (73111, 73111); (73459, 73460); (78896, 78904); (92912, 92916); (92976, 92982);
  (92992, 92995); (94031, 94031); (94095, 94111); (94176, 94177); (94179, 94180);
  (110576, 110579); (110581, 110587); (110589, 110590); (113821, 113822); (113824, 113827);
  (118528, 118573); (118576, 118598); (119143, 119145); (119155, 119170); (119173, 119179);
  (119210, 119213); (119362, 119364); (121344, 121398); (121403, 121452); (121461, 121461);
  (121476, 121476); (121499, 121503); (121505, 121519); (122880, 122886); (122888, 122904);
  (122907, 122913); (122915, 122916); (122918, 122922); (123184, 123197); (123566, 123566);
  (123628, 123631); (125136, 125142); (125252, 125259); (127995, 127999); (917505, 917505);
  (917536, 917631); (917760, 917999) ]%N.

Fixpoint in_intervals (c : N) (t : list (N * N)) : bool :=
  match t with
  | [] => false
  | (first, last) :: r =>
      ((first <=? c) && (c <=? last))%N || in_intervals c r
  end.

Definition cased (c : N) : bool := in_intervals c cased_intervals.
Definition case_ignorable (c : N) : bool :=
  in_intervals c case_ignorable_intervals.

Fixpoint lower_image (c : N) (t : list (N * N * N * N)) : option N :=
  match t with
  | [] => None
  | (first, last, stride, image) :: r =>
      if ((first <=? c) && (c <=? last) && ((c - first) mod stride =? 0))%N
      then Some (image + (c - first))%N
      else lower_image c r
  end.

(** One code point lowered: U+0130 gives two code points, every other
    one gives one. *)
Definition to_lower (c : N) : list N :=
  if (c =? 304)%N then [105; 775]%N
  else match lower_image c lower_runs with
       | Some x => [x]
       | None => [c]
       end.

Fixpoint skip_ignorable (l : list N) : list N :=
  match l with
  | [] => []
  | c :: r => if case_ignorable c then skip_ignorable r else l
  end.

(** A capital sigma is final when a cased code point stands before it
    and none after it, case-ignorable ones left aside.  [before] is what
    precedes, nearest first. *)
Definition final_sigma (before after : list N) : bool :=
  match skip_ignorable before with
  | c :: _ => cased c
  | [] => false
  end &&
  match skip_ignorable after with
  | c :: _ => negb (cased c)
  | [] => true
  end.

Fixpoint lower_from (before l : list N) : list N :=
  match l with
  | [] => []
  | c :: r =>
      ((if (c =? 931)%N
        then [if final_sigma before r then 962 else 963]%N
        else to_lower c)
       ++ lower_from (c :: before) r)%list
  end.

Definition lower (s : string) : string := encode (lower_from [] (decode s)).

(** [needle in hay] for strings: substring search. *)
Fixpoint starts_with (needle hay : string) : bool :=
  match needle, hay with
  | EmptyString, _ => true
  | String _ _, EmptyString => false
  | String a n, String b h => Ascii.eqb a b && starts_with n h
  end.

Fixpoint str_in (needle hay : string) : bool :=
  starts_with needle hay ||
  match hay with
  | EmptyString => false
  | String _ h => str_in needle h
  end.

(** [x in [a, b, ...]] for strings. *)
Definition in_list (x : string) (l : list string) : bool :=
  existsb (String.eqb x) l.

(** Order of [str] values and of [(str, str)] tuples, as [sorted] uses
    them: strings compare lexicographically, tuples compare their first
    components and, when these are equal, their second ones. *)
Definition str_le (a b : string) : bool :=
  match String.compare a b with
  | Gt => false
  | _ => true
  end.

Definition item_le (a b : string * string) : bool :=
  match String.compare a.1 b.1 with
  | Lt => true
  | Eq => str_le a.2 b.2
  | Gt => false
  end.

Definition items_le (a b : string * string) : Prop := item_le a b = true.

(** [sorted(l)] for a list of [(str, str)] tuples. *)
Fixpoint insert_item (x : string * string) (l : list (string * string))
  : list (string * string) :=
  match l with
  | [] => [x]
  | y :: r => if item_le x y then x :: y :: r else y :: insert_item x r
  end.

Fixpoint sorted (l : list (string * string)) : list (string * string) :=
  match l with
  | [] => []
  | x :: r => insert_item x (sorted r)
  end.

End Py.

(** ** The receiver object

    [rxv.RXV] is not part of this repository: the handlers use it through
    the attributes and methods below.  A receiver is any implementation of
    them over some hidden state [dev] (the device behind the network); each
    call returns a value or raises, and may change the state. *)

Module rxv.

Record BasicStatus : Type := {
  on : bool;
  input : string;
  volume : float;
  mute : bool
}.

Record PlayStatus : Type := {
  playing : bool;
  artist : string;
  album : string;
  song : string;
  station : string
}.

(** [current_list] maps the position of an entry to its text.  The
    positions are the keys the library gives them, strings, and [sorted]
    orders them as strings. *)
Record MenuStatus : Type := {
  ready : bool;
  layer : Z;
  name : string;
  current_line : Z;
  max_line : Z;
  current_list : gmap string string
}.

(** What a call answers. *)
Inductive reply (A : Type) : Type :=
| Returns (a : A)
| Raises (e : Py.exn).
Arguments Returns {A} a.
Arguments Raises {A} e.

(** The calls the handlers make, as they are recorded. *)
Inductive request : Type :=
| GetVolume
| SetVolume (v : float)
| VolumeFade (target : Z) (delay : float)
| GetBasicStatus
| SetMute (b : bool)
| GetOn
| SetOn (b : bool)
| GetOutputs
| EnableOutput (output : string) (b : bool)
| IsPlaybackSupported
| Play | Stop | Pause | Next | Previous
| GetPlayStatus
| GetMenuStatus
| MenuUp | MenuDown | MenuLeft | MenuRight | MenuSel | MenuReturn.

(** Reads leave the receiver as it is; every other call is a write. *)
Definition is_read (r : request) : bool :=
  match r with
  | GetVolume | GetBasicStatus | GetOn | GetOutputs
  | IsPlaybackSupported | GetPlayStatus | GetMenuStatus => true
  | _ => false
  end.

Definition is_write (r : request) : bool := negb (is_read r).

Record RXV : Type := {
  dev : Type;
  get_volume : dev -> reply float * dev;
  set_volume : float -> dev -> reply unit * dev;
  volume_fade : Z -> float -> dev -> reply unit * dev;
  basic_status : dev -> reply BasicStatus * dev;
  set_mute : bool -> dev -> reply unit * dev;
  get_on : dev -> reply bool * dev;
  set_on : bool -> dev -> reply unit * dev;
  outputs : dev -> reply (gmap string bool) * dev;
  enable_output : string -> bool -> dev -> reply unit * dev;
  is_playback_supported : dev -> reply bool * dev;
  play : dev -> reply unit * dev;
  stop : dev -> reply unit * dev;
  pause : dev -> reply unit * dev;
  next : dev -> reply unit * dev;
  previous : dev -> reply unit * dev;
  play_status : dev -> reply PlayStatus * dev;
  menu_status : dev -> reply MenuStatus * dev;
  menu_up : dev -> reply unit * dev;
  menu_down : dev -> reply unit * dev;
  menu_left : dev -> reply unit * dev;
  menu_right : dev -> reply unit * dev;
  menu_sel : dev -> reply unit * dev;
  menu_return : dev -> reply unit * dev
}.

End rxv.

(** ** What a run leaves behind, and the monad of the handlers *)

Module Run.

Inductive stream : Type := Stdout | Stderr.
Inductive style : Type := Plain | Red.

(** A printed line is kept as its pieces: literal text and the values
    that [str()] or [format] renders, so no float is turned into digits
    here. *)
Inductive piece : Type :=
| Txt (s : string)
| Flt (x : float)
| Bln (b : bool)
| Int (n : Z)
| NoneVal.

Inductive event : Type :=
| Call (r : rxv.request)
| Out (to : stream) (st : style) (line : list piece).

(** How a block of statements ends: normally, by [return], or by an
    exception. *)
Inductive outcome (A : Type) : Type :=
| Normal (a : A)
| Return
| Raise (e : Py.exn).
Arguments Normal {A} a.
Arguments Return {A}.
Arguments Raise {A} e.

Section Monad.
Context (avr : rxv.RXV).

Definition M (A : Type) : Type :=
  rxv.dev avr -> outcome A * rxv.dev avr * list event.

Definition ret {A} (a : A) : M A := fun d => (Normal a, d, []).

Definition bind {A B} (m : M A) (k : A -> M B) : M B :=
  fun d =>
    match m d with
    | (Normal a, d1, l1) =>
        match k a d1 with
        | (r, d2, l2) => (r, d2, (l1 ++ l2)%list)
        end
    | (Return, d1, l1) => (Return, d1, l1)
    | (Raise e, d1, l1) => (Raise e, d1, l1)
    end.

Definition raise {A} (e : Py.exn) : M A := fun d => (Raise e, d, []).

(** The [return] statement. *)
Definition return_ {A} : M A := fun d => (Return, d, []).

(** A function body: [return] ends the body, not the caller. *)
Definition def (body : M unit) : M unit :=
  fun d =>
    match body d with
    | (Return, d1, l1) => (Normal tt, d1, l1)
    | r => r
    end.

(** [try: body except C as e: handler].  [handler e] is [None] when
    [e] is not an instance of [C]; the exception then propagates. *)
Definition try_except (body : M unit) (handler : Py.exn -> option (M unit))
  : M unit :=
  fun d =>
    match body d with
    | (Raise e, d1, l1) =>
        match handler e with
        | Some h =>
            match h d1 with
            | (r, d2, l2) => (r, d2, (l1 ++ l2)%list)
            end
        | None => (Raise e, d1, l1)
        end
    | r => r
    end.

(** A pure built-in that may raise. *)
Definition lift {A} (x : Py.exn + A) : M A :=
  match x with
  | inl e => raise e
  | inr a => ret a
  end.

(** One line written to a stream. *)
Definition write (to : stream) (st : style) (line : list piece) : M unit :=
  fun d => (Normal tt, d, [Out to st line]).

(** One receiver call: recorded, then answered by the receiver. *)
Definition invoke {A} (r : rxv.request)
    (f : rxv.dev avr -> rxv.reply A * rxv.dev avr) : M A :=
  fun d =>
    match f d with
    | (rxv.Returns a, d1) => (Normal a, d1, [Call r])
    | (rxv.Raises e, d1) => (Raise e, d1, [Call r])
    end.

End Monad.

Arguments ret {avr A} a.
Arguments bind {avr A B} m k.
Arguments raise {avr A} e.
Arguments return_ {avr A}.
Arguments def {avr} body.
Arguments try_except {avr} body handler.
Arguments lift {avr A} x.
Arguments write {avr} to st line.
Arguments invoke {avr A} r f.

(** The trace of a run, and the parts of it the properties speak of. *)
Definition trace {avr A} (r : outcome A * rxv.dev avr * list event)
  : list event := r.2.

Definition result {avr A} (r : outcome A * rxv.dev avr * list event)
  : outcome A := r.1.1.

Definition calls (l : list event) : list rxv.request :=
  omap (fun e => match e with Call r => Some r | Out _ _ _ => None end) l.

Definition writes (l : list event) : list rxv.request :=
  filter (fun r => rxv.is_write r = true) (calls l).

(** What follows the first write in a trace. *)
Fixpoint after_write (l : list event) : list event :=
  match l with
  | [] => []
  | Call r :: rest => if rxv.is_write r then rest else after_write rest
  | Out _ _ _ :: rest => after_write rest
  end.

Definition printed (l : list event) : list (stream * style * list piece) :=
  omap (fun e => match e with
                 | Out to st line => Some (to, st, line)
                 | Call _ => None
                 end) l.

End Run.

Declare Scope py_scope.
Delimit Scope py_scope with py.
Notation "x <- m ;; k" := (Run.bind m (fun x => k))
  (at level 100, m at next level, right associativity) : py_scope.
Notation "m ;; k" := (Run.bind m (fun _ => k))
  (at level 100, right associativity) : py_scope.

(** ** The command handlers of [rxvc/cli.py] *)

Module cli.
Import Py Run.
Local Open Scope py_scope.

(** A keyword argument of a Python call: left out, or passed. *)
Inductive kwarg (A : Type) : Type :=
| Omitted
| Passed (a : A).
Arguments Omitted {A}.
Arguments Passed {A} a.

Definition newline : string := String (ascii_of_nat 10) "".

Section Handlers.
Context (avr : rxv.RXV).
Local Abbreviation M := (Run.M avr).

(** Attributes and methods of [avr]. *)
Definition avr_volume : M float := invoke rxv.GetVolume (rxv.get_volume avr).
Definition avr_set_volume (v : float) : M unit :=
  invoke (rxv.SetVolume v) (rxv.set_volume avr v).
Definition avr_volume_fade (target : Z) (delay : float) : M unit :=
  invoke (rxv.VolumeFade target delay) (rxv.volume_fade avr target delay).
Definition avr_basic_status : M rxv.BasicStatus :=
  invoke rxv.GetBasicStatus (rxv.basic_status avr).
Definition avr_set_mute (b : bool) : M unit :=
  invoke (rxv.SetMute b) (rxv.set_mute avr b).
Definition avr_on : M bool := invoke rxv.GetOn (rxv.get_on avr).
Definition avr_set_on (b : bool) : M unit :=
  invoke (rxv.SetOn b) (rxv.set_on avr b).
Definition avr_outputs : M (gmap string bool) :=
  invoke rxv.GetOutputs (rxv.outputs avr).
Definition avr_enable_output (o : string) (b : bool) : M unit :=
  invoke (rxv.EnableOutput o b) (rxv.enable_output avr o b).
Definition avr_is_playback_supported : M bool :=
  invoke rxv.IsPlaybackSupported (rxv.is_playback_supported avr).
Definition avr_play : M unit := invoke rxv.Play (rxv.play avr).
Definition avr_stop : M unit := invoke rxv.Stop (rxv.stop avr).
Definition avr_pause : M unit := invoke rxv.Pause (rxv.pause avr).
Definition avr_next : M unit := invoke rxv.Next (rxv.next avr).
Definition avr_previous : M unit := invoke rxv.Previous (rxv.previous avr).
Definition avr_play_status : M rxv.PlayStatus :=
  invoke rxv.GetPlayStatus (rxv.play_status avr).
Definition avr_menu_status : M rxv.MenuStatus :=
  invoke rxv.GetMenuStatus (rxv.menu_status avr).
Definition avr_menu_up : M unit := invoke rxv.MenuUp (rxv.menu_up avr).
Definition avr_menu_down : M unit := invoke rxv.MenuDown (rxv.menu_down avr).
Definition avr_menu_left : M unit := invoke rxv.MenuLeft (rxv.menu_left avr).
Definition avr_menu_right : M unit :=
  invoke rxv.MenuRight (rxv.menu_right avr).
Definition avr_menu_sel : M unit := invoke rxv.MenuSel (rxv.menu_sel avr).
Definition avr_menu_return : M unit :=
  invoke rxv.MenuReturn (rxv.menu_return avr).

(** [print(x)] and [click.echo(x)] write a line to standard output;
    [click.style(x, fg='red')] colours it; [err=True] sends it to
    standard error. *)
Definition print (line : list piece) : M unit := write Stdout Plain line.
Definition echo (line : list piece) : M unit := write Stdout Plain line.
Definition echo_red (line : list piece) : M unit := write Stdout Red line.
Definition echo_err_red (line : list piece) : M unit :=
  write Stderr Red line.

(** [if x: ... else: ...] on an optional float or string; in the first
    branch [x] is a value, and [float(x)] is that value. *)
Definition if_float {A} (x : option float) (then_ : float -> M A)
    (else_ : M A) : M A :=
  match x with
  | Some v => if float_bool v then then_ v else else_
  | None => else_
  end.

Definition if_str {A} (x : option string) (then_ : string -> M A)
    (else_ : M A) : M A :=
  match x with
  | Some s => if str_bool s then then_ s else else_
  | None => else_
  end.

(** [if c: stmt] *)
Definition when (c : bool) (stmt : M unit) : M unit :=
  if c then stmt else ret tt.

(** [for x in l: body] *)
Fixpoint for_ {A} (l : list A) (body : A -> M unit) : M unit :=
  match l with
  | [] => ret tt
  | x :: r => body x ;; for_ r body
  end.

(** [except ResponseException as e: h(str(e))] and the bare [except:]. *)
Definition except_ResponseException (h : string -> M unit)
  : exn -> option (M unit) :=
  fun e =>
    match e with
    | ResponseException text => Some (h text)
    | _ => None
    end.

Definition except_all (h : M unit) : exn -> option (M unit) :=
  fun _ => Some h.

(** [float(x)] and [int(x)] where [x] may be [None]. *)
Definition float_ (x : option float) : exn + float :=
  match x with
  | Some v => inr v
  | None =>
      inl (TypeError
        "float() argument must be a string or a real number, not 'NoneType'")
  end.

Definition piece_of (x : option float) : piece :=
  match x with
  | Some v => Flt v
  | None => NoneVal
  end.

Definition step_message : string :=
  "Volume must be specified in -0.5 increments.".

Definition step_line : event := Out Stderr Red [Txt step_message].

Definition invalid_output : string :=
  "That's not a valid output. Run `rxvc outputs' to" +:+
  "get a list of them.".

Definition invalid_menu_command : string :=
  "That's not a valid menu control command. Valid commands " +:+
  "include 'up', 'down', 'left', 'right', 'select' and 'return'.".

Definition fade_announcement (v : float) (delay : option float) : list piece :=
  [Txt "Fading receiver volume to "; Flt v; Txt " with delay of ";
   piece_of delay; Txt " seconds"].

Definition volume_refusal : string :=
  "Volume must be specified as a negative float in " +:+
  "steps of 0.5.".

Definition fade_refusal : string :=
  "Volume must be specified as a negative float in " +:+
  "steps of 0.5. Optionally, a delay can be " +:+
  "specified in seconds.".

(** [output(ctx, output, state)], lines 91-112. *)
Definition output (output state : string) : M unit :=
  def (
    if in_list state ["on"; "off"] then
      let outstate : option bool := None in
      let outstate := if String.eqb state "on" then Some true else outstate in
      let outstate := if String.eqb state "off" then Some false else outstate in
      outs <- avr_outputs ;;
      if bool_decide (is_Some (outs !! output)) then
        print [Txt ("Setting receiver output " +:+ output +:+ " to " +:+ state)] ;;
        match outstate with
        | Some b => avr_enable_output output b
        | None => raise (OtherException "UnboundLocalError: outstate")
        end
      else
        print [Txt invalid_output]
    else
      echo_red [Txt "State must be on or off"]).

(** [volume(ctx, vol)], lines 133-156. *)
Definition volume (vol : option float) : M unit :=
  def (
    if_float vol
      (fun vol =>
         if PrimFloat.ltb vol 0 then
           try_except
             (avr_set_volume vol ;;
              v <- avr_volume ;;
              echo [Flt v])
             (except_ResponseException (fun text =>
                if str_in "Volume" text
                then echo_err_red [Txt step_message]
                else ret tt))
         else
           print [Txt volume_refusal])
      (v <- avr_volume ;;
       echo [Flt v])).

(** [mute(ctx, mute)], lines 160-183. *)
Definition mute (mute : option string) : M unit :=
  def (
    status <- avr_basic_status ;;
    if_str mute
      (fun mute =>
         let mute := lower mute in
         try_except
           (avr_set_mute (String.eqb mute "on") ;;
            echo [Txt mute])
           (except_ResponseException (fun text =>
              if str_in "Mute" text
              then echo_err_red [Txt "Mute command failed."]
              else ret tt)))
      (print [Txt "Muted: "; Bln (rxv.mute status)])).

(** [power(ctx, state)], lines 186-219. *)
Definition power (state : option string) : M unit :=
  def (
    if_str state
      (fun state =>
         let state := lower state in
         if in_list state ["on"; "off"] then
           try_except
             (avr_set_on (String.eqb state "on") ;;
              echo [Txt ("Turned the receiver " +:+ state)])
             (except_all
                (echo_red [Txt ("Something went wrong. Make sure the Network " +:+
                                "Standby setting of your receiver is on.")]))
         else
           echo_red [Txt "State must be on or off"])
      (on <- avr_on ;;
       let state := if on then "on" else "off" in
       echo [Txt ("Power state is " +:+ state)])).

(** [fade(ctx, vol, delay=0.5)], lines 326-349.  [delay] is the keyword
    as the caller passes it; the default of the signature stands in
    only when the keyword is left out. *)
Definition fade (vol : option float) (delay : kwarg (option float))
  : M unit :=
  let delay := match delay with
               | Passed x => x
               | Omitted => Some 0.5%float
               end in
  let refuse := print [Txt fade_refusal] in
  def (
    if_float vol
      (fun v =>
         if PrimFloat.ltb v 0 then
           try_except
             (print (fade_announcement v delay) ;;
              target <- lift (int_of_float v) ;;
              d <- lift (float_ delay) ;;
              avr_volume_fade target d)
             (except_ResponseException (fun text =>
                print [Txt text] ;;
                if str_in "Volume" text
                then echo_err_red [Txt step_message]
                else ret tt))
         else refuse)
      refuse).

(** [_adjust_volume(avr, points, operation)], lines 354-374. *)
Definition _adjust_volume (points : Z) (operation : float -> float -> float)
  : M unit :=
  def (
    current_vol <- avr_volume ;;
    step <- lift (mul_int_float points 0.5%float) ;;
    let new_vol := operation current_vol step in
    try_except
      (avr_set_volume new_vol ;;
       echo [Flt new_vol])
      (except_ResponseException (fun _ =>
         echo_red [Txt "New volume must be out of range."]))).

(** [up(ctx, points)] and [down(ctx, points)], lines 377-410. *)
Definition up (points : Z) : M unit :=
  def (_adjust_volume points operator_add).

Definition down (points : Z) : M unit :=
  def (_adjust_volume points operator_sub).

(** [playback(ctx, command)], lines 413-447. *)
Definition playback (command : option string) : M unit :=
  def (
    supported <- avr_is_playback_supported ;;
    when (negb supported)
      (print [Txt "Playback controls are not available for the active input."] ;;
       return_) ;;
    if_str command
      (fun command =>
         if in_list command ["play"; "stop"; "pause"; "next"; "previous"] then
           print [Txt ("Sending command " +:+ command +:+ " to receiver")] ;;
           when (String.eqb command "play") avr_play ;;
           when (String.eqb command "stop") avr_stop ;;
           when (String.eqb command "pause") avr_pause ;;
           when (String.eqb command "next") avr_next ;;
           when (String.eqb command "previous") avr_previous
         else
           print [Txt ("That's not a valid playback control command. Valid commands" +:+
                       "include 'play', 'stop', 'pause', 'next' and 'previous'.")])
      (status <- avr_play_status ;;
       print [Txt (newline +:+ "Playing: "); Bln (rxv.playing status);
              Txt (newline +:+ "Artist: " +:+ rxv.artist status +:+
                   newline +:+ "Album: " +:+ rxv.album status +:+
                   newline +:+ "Track: " +:+ rxv.song status +:+
                   newline +:+ "Station: " +:+ rxv.station status +:+
                   newline)])).

(** The header and the entry lines of the menu listing, lines 476-488. *)
Definition menu_header (status : rxv.MenuStatus) : list piece :=
  [Txt (newline +:+ "Ready: "); Bln (rxv.ready status);
   Txt (newline +:+ "Layer: "); Int (rxv.layer status);
   Txt (newline +:+ "Name: " +:+ rxv.name status +:+ newline +:+ newline +:+
        "Total lines: "); Int (rxv.max_line status);
   Txt newline].

Definition menu_entry (item : string * string) : list piece :=
  [Txt ("*  " +:+ item.2)].

(** The lines the loop over the entries writes. *)
Definition entry_lines (l : list (string * string)) : list event :=
  map (fun item => Out Stdout Plain (menu_entry item)) l.

(** [menu(ctx, command)], lines 449-488. *)
Definition menu (command : option string) : M unit :=
  def (
    status <- avr_menu_status ;;
    when (negb (rxv.ready status))
      (print [Txt "Menu is currently not available."] ;;
       return_) ;;
    if_str command
      (fun command =>
         if in_list command ["up"; "down"; "left"; "right"; "select"; "return"] then
           print [Txt ("Sending menu command " +:+ command +:+ " to receiver")] ;;
           when (String.eqb command "up") avr_menu_up ;;
           when (String.eqb command "down") avr_menu_down ;;
           when (String.eqb command "left") avr_menu_left ;;
           when (String.eqb command "right") avr_menu_right ;;
           when (String.eqb command "select") avr_menu_sel ;;
           when (String.eqb command "return") avr_menu_return
         else
           print [Txt invalid_menu_command] ;;
           return_)
      (ret tt) ;;
    status <- avr_menu_status ;;
    print (menu_header status) ;;
    for_ (sorted (map_to_list (rxv.current_list status)))
      (fun item => print (menu_entry item))).

(** *** The commands as click runs them

    click parses the command line and calls the handler with one
    keyword per declared parameter: the value given, else the default
    declared in the decorator, else [None]. *)

(** [rxvc volume [-v FLOAT]] *)
Definition volume_command (vol : option float) : M unit := volume vol.

(** [rxvc fade [-v FLOAT] [DELAY]]: [delay] is declared without a
    default, so the handler receives [delay=None] when it is absent. *)
Definition fade_command (vol : option float) (delay : option float)
  : M unit :=
  fade vol (Passed delay).

(** [rxvc up [POINTS]] and [rxvc down [POINTS]]: [points] is declared
    with [default=2]. *)
Definition up_command (points : option Z) : M unit :=
  up (default 2 points).

Definition down_command (points : option Z) : M unit :=
  down (default 2 points).

End Handlers.
End cli.

(** ** A simulated receiver

    A receiver with a volume, a mute and a power flag, a table of outputs,
    a menu, and a list of calls it rejects.  It serves to run the handlers
    on concrete command lines. *)

Module Sim.
Import rxv.

Record state : Type := {
  s_volume : float;
  s_mute : bool;
  s_on : bool;
  s_outputs : gmap string bool;
  s_playback : bool;
  s_menu : MenuStatus;
  s_rejects : request -> option Py.exn
}.

Definition answer {A} (r : request) (a : A) (after : state -> state)
    (s : state) : reply A * state :=
  match s_rejects s r with
  | Some e => (Raises e, s)
  | None => (Returns a, after s)
  end.

Definition with_volume (v : float) (s : state) : state :=
  {| s_volume := v; s_mute := s_mute s; s_on := s_on s;
     s_outputs := s_outputs s; s_playback := s_playback s;
     s_menu := s_menu s; s_rejects := s_rejects s |}.

Definition with_mute (b : bool) (s : state) : state :=
  {| s_volume := s_volume s; s_mute := b; s_on := s_on s;
     s_outputs := s_outputs s; s_playback := s_playback s;
     s_menu := s_menu s; s_rejects := s_rejects s |}.

Definition with_on (b : bool) (s : state) : state :=
  {| s_volume := s_volume s; s_mute := s_mute s; s_on := b;
     s_outputs := s_outputs s; s_playback := s_playback s;
     s_menu := s_menu s; s_rejects := s_rejects s |}.

Definition with_output (o : string) (b : bool) (s : state) : state :=
  {| s_volume := s_volume s; s_mute := s_mute s; s_on := s_on s;
     s_outputs := <[o := b]> (s_outputs s); s_playback := s_playback s;
     s_menu := s_menu s; s_rejects := s_rejects s |}.

Definition fade_to (target : Z) (s : state) : state :=
  match Py.float_of_int target with
  | inr v => with_volume v s
  | inl _ => s
  end.

Definition no_play : PlayStatus :=
  {| playing := false; artist := ""; album := ""; song := ""; station := "" |}.

Definition receiver : RXV := {|
  dev := state;
  get_volume := fun s => answer GetVolume (s_volume s) id s;
  set_volume := fun v => answer (SetVolume v) tt (with_volume v);
  volume_fade := fun t d => answer (VolumeFade t d) tt (fade_to t);
  basic_status := fun s =>
    answer GetBasicStatus
      {| on := s_on s; input := "HDMI1"; volume := s_volume s;
         mute := s_mute s |} id s;
  set_mute := fun b => answer (SetMute b) tt (with_mute b);
  get_on := fun s => answer GetOn (s_on s) id s;
  set_on := fun b => answer (SetOn b) tt (with_on b);
  outputs := fun s => answer GetOutputs (s_outputs s) id s;
  enable_output := fun o b => answer (EnableOutput o b) tt (with_output o b);
  is_playback_supported := fun s => answer IsPlaybackSupported (s_playback s) id s;
  play := answer Play tt id;
  stop := answer Stop tt id;
  pause := answer Pause tt id;
  next := answer Next tt id;
  previous := answer Previous tt id;
  play_status := answer GetPlayStatus no_play id;
  menu_status := fun s => answer GetMenuStatus (s_menu s) id s;
  menu_up := answer MenuUp tt id;
  menu_down := answer MenuDown tt id;
  menu_left := answer MenuLeft tt id;
  menu_right := answer MenuRight tt id;
  menu_sel := answer MenuSel tt id;
  menu_return := answer MenuReturn tt id
|}.

Definition net_radio (is_ready : bool) : MenuStatus :=
  {| ready := is_ready; layer := 1; name := "NET RADIO";
     current_line := 1; max_line := 3;
     current_list := {[ "Line_2" := "Podcasts"; "Line_1" := "Bookmarks";
                        "Line_3" := "Radio" ]} |}.

(** A receiver at -20.0 dB that accepts every call. *)
Definition idle : state :=
  {| s_volume := (-20)%float; s_mute := true; s_on := true;
     s_outputs := {[ "zoneB" := false; "hdmi1" := true ]};
     s_playback := true; s_menu := net_radio true;
     s_rejects := fun _ => None |}.

(** The same receiver with playback unsupported and the menu not ready. *)
Definition busy : state :=
  {| s_volume := (-20)%float; s_mute := true; s_on := true;
     s_outputs := {[ "zoneB" := false; "hdmi1" := true ]};
     s_playback := false; s_menu := net_radio false;
     s_rejects := fun _ => None |}.

(** The same receiver rejecting every volume write with the given text. *)
Definition rejecting (text : string) : state :=
  {| s_volume := (-20)%float; s_mute := true; s_on := true;
     s_outputs := {[ "zoneB" := false; "hdmi1" := true ]};
     s_playback := true; s_menu := net_radio true;
     s_rejects := fun r =>
       match r with
       | SetVolume _ | VolumeFade _ _ => Some (Py.ResponseException text)
       | _ => None
       end |}.

End Sim.

(** ** The menu commands as the specification lists them

    "A recognized token ([up], [down], [left], [right], [select],
    [return]) is mapped one-to-one to a Device Control Client navigation
    operation": each token with the call it stands for and the method of
    the receiver that answers it. *)

Module Spec.

Definition menu_operations (avr : rxv.RXV)
  : list (string * (rxv.request *
                    (rxv.dev avr -> rxv.reply unit * rxv.dev avr))) :=
  [ ("up", (rxv.MenuUp, rxv.menu_up avr));
    ("down", (rxv.MenuDown, rxv.menu_down avr));
    ("left", (rxv.MenuLeft, rxv.menu_left avr));
    ("right", (rxv.MenuRight, rxv.menu_right avr));
    ("select", (rxv.MenuSel, rxv.menu_sel avr));
    ("return", (rxv.MenuReturn, rxv.menu_return avr)) ].

(** "Sorted by position": from one entry to the next the key grows. *)
Definition by_position (a b : string * string) : Prop :=
  String.compare a.1 b.1 = Lt.

End Spec.

(** ** The playback commands, as the chain of tests in [playback] pairs them

    Each token with the call it leads to and the method of the receiver
    that answers it. *)

Module Transport.

Definition operations (avr : rxv.RXV)
  : list (string * (rxv.request *
                    (rxv.dev avr -> rxv.reply unit * rxv.dev avr))) :=
  [ ("play", (rxv.Play, rxv.play avr));
    ("stop", (rxv.Stop, rxv.stop avr));
    ("pause", (rxv.Pause, rxv.pause avr));
    ("next", (rxv.Next, rxv.next avr));
    ("previous", (rxv.Previous, rxv.previous avr)) ].

Definition invalid_command : string :=
  "That's not a valid playback control command. Valid commands" +:+
  "include 'play', 'stop', 'pause', 'next' and 'previous'.".

Definition standby_hint : string :=
  "Something went wrong. Make sure the Network " +:+
  "Standby setting of your receiver is on.".

End Transport.

(** ** More of Python: [sorted] over any order *)

Module PyMore.

(** [sorted(l)], [le] being the order of the values: a stable insertion
    from the right. *)
Fixpoint insert_by {A : Type} (le : A -> A -> bool) (x : A) (l : list A)
  : list A :=
  match l with
  | [] => [x]
  | y :: r => if le x y then x :: y :: r else y :: insert_by le x r
  end.

Fixpoint sorted_by {A : Type} (le : A -> A -> bool) (l : list A) : list A :=
  match l with
  | [] => []
  | x :: r => insert_by le x (sorted_by le r)
  end.

(** The relation of a boolean order. *)
Definition ascending {A : Type} (le : A -> A -> bool) : relation A :=
  fun a b => le a b = true.

(** Order of [bool]: [False < True]. *)
Definition bool_le (a b : bool) : bool := implb a b.

(** Order of [(str, bool)] tuples: first components, then second ones. *)
Definition output_le (a b : string * bool) : bool :=
  match String.compare a.1 b.1 with
  | Lt => true
  | Eq => bool_le a.2 b.2
  | Gt => false
  end.

End PyMore.

(** ** Effects over any state and any kind of event

    The monad of [Run], for handlers whose calls are not among
    [rxv.request]. *)

Module Eff.

Section Eff.
Context {S E : Type}.

Definition M (A : Type) : Type := S -> Run.outcome A * S * list E.

Definition ret {A} (a : A) : M A := fun s => (Run.Normal a, s, []).

Definition bind {A B} (m : M A) (k : A -> M B) : M B :=
  fun s =>
    match m s with
    | (Run.Normal a, s1, l1) =>
        match k a s1 with
        | (r, s2, l2) => (r, s2, (l1 ++ l2)%list)
        end
    | (Run.Return, s1, l1) => (Run.Return, s1, l1)
    | (Run.Raise e, s1, l1) => (Run.Raise e, s1, l1)
    end.

(** A function body: [return] ends it. *)
Definition def (body : M unit) : M unit :=
  fun s =>
    match body s with
    | (Run.Return, s1, l1) => (Run.Normal tt, s1, l1)
    | r => r
    end.

(** One event that is no call. *)
Definition emit (e : E) : M unit := fun s => (Run.Normal tt, s, [e]).

(** One call: recorded as [e], then answered. *)
Definition invoke {A} (e : E) (f : S -> rxv.reply A * S) : M A :=
  fun s =>
    match f s with
    | (rxv.Returns a, s1) => (Run.Normal a, s1, [e])
    | (rxv.Raises x, s1) => (Run.Raise x, s1, [e])
    end.

End Eff.

(** How a handler ends when its last statement is a call outside any
    [try]: normally, or with what the call raised. *)
Definition ends {A} (r : rxv.reply A) : Run.outcome unit :=
  match r with
  | rxv.Returns _ => Run.Normal tt
  | rxv.Raises e => Run.Raise e
  end.

End Eff.

Declare Scope eff_scope.
Delimit Scope eff_scope with eff.
Notation "x <- m ;; k" := (Eff.bind m (fun x => k))
  (at level 100, m at next level, right associativity) : eff_scope.
Notation "m ;; k" := (Eff.bind m (fun _ => k))
  (at level 100, right associativity) : eff_scope.

(** ** The handlers that only read: [status] and [outputs] *)

Module cli_read.
Import Py PyMore Run.
Local Open Scope py_scope.

Section Handlers.
Context (avr : rxv.RXV).

(** [status(ctx)], lines 42-54. *)
Definition status : Run.M avr unit :=
  def (
    status <- cli.avr_basic_status avr ;;
    cli.print avr
      [Txt (cli.newline +:+ "Power: "); Bln (rxv.on status);
       Txt (cli.newline +:+ "Input: " +:+ rxv.input status +:+
            cli.newline +:+ "Volume: "); Flt (rxv.volume status);
       Txt (cli.newline +:+ "Muted: "); Bln (rxv.mute status);
       Txt cli.newline]).

Definition output_line (output : string * bool) : list piece :=
  [Txt ("* " +:+ output.1 +:+ ": "); Bln output.2].

(** [outputs(ctx)], lines 114-125. *)
Definition outputs : Run.M avr unit :=
  def (
    outs <- cli.avr_outputs avr ;;
    cli.for_ avr (sorted_by output_le (map_to_list outs))
      (fun output => cli.print avr (output_line output))).

End Handlers.
End cli_read.

(** ** The named settings of the receiver: input, surround program, zone,
    scene

    More of the receiver object: for each setting the names the receiver
    takes ([avr.inputs()] and the like, kept as the names in the order
    the object yields them), the attribute read and the attribute
    written. *)

Module rxv_names.

Inductive request : Type :=
| GetInputs | GetInput | SetInput (name : string)
| GetSurroundPrograms | GetSurroundProgram | SetSurroundProgram (name : string)
| GetZones | GetZone | SetZone (name : string)
| GetScenes | GetScene | SetScene (name : string).

Definition is_write (r : request) : bool :=
  match r with
  | SetInput _ | SetSurroundProgram _ | SetZone _ | SetScene _ => true
  | _ => false
  end.

Inductive event : Type :=
| Call (r : request)
| Out (to : Run.stream) (st : Run.style) (line : list Run.piece).

Record Receiver : Type := {
  dev : Type;
  inputs : dev -> rxv.reply (list string) * dev;
  get_input : dev -> rxv.reply string * dev;
  set_input : string -> dev -> rxv.reply unit * dev;
  surround_programs : dev -> rxv.reply (list string) * dev;
  get_surround_program : dev -> rxv.reply string * dev;
  set_surround_program : string -> dev -> rxv.reply unit * dev;
  zones : dev -> rxv.reply (list string) * dev;
  get_zone : dev -> rxv.reply string * dev;
  set_zone : string -> dev -> rxv.reply unit * dev;
  scenes : dev -> rxv.reply (list string) * dev;
  get_scene : dev -> rxv.reply string * dev;
  set_scene : string -> dev -> rxv.reply unit * dev
}.

Definition calls (l : list event) : list request :=
  omap (fun e => match e with Call r => Some r | Out _ _ _ => None end) l.

Definition writes (l : list event) : list request :=
  filter (fun r => is_write r = true) (calls l).

Definition lines (l : list event) : list (list Run.piece) :=
  omap (fun e => match e with Out _ _ line => Some line | Call _ => None end) l.

End rxv_names.

Module cli_names.
Import Py PyMore Run rxv_names.
Local Open Scope eff_scope.

Section Handlers.
Context (avr : Receiver).
Local Abbreviation M := (@Eff.M (dev avr) event).

Definition avr_inputs : M (list string) :=
  Eff.invoke (Call GetInputs) (inputs avr).
Definition avr_input : M string := Eff.invoke (Call GetInput) (get_input avr).
Definition avr_set_input (name : string) : M unit :=
  Eff.invoke (Call (SetInput name)) (set_input avr name).
Definition avr_surround_programs : M (list string) :=
  Eff.invoke (Call GetSurroundPrograms) (surround_programs avr).
Definition avr_surround_program : M string :=
  Eff.invoke (Call GetSurroundProgram) (get_surround_program avr).
Definition avr_set_surround_program (name : string) : M unit :=
  Eff.invoke (Call (SetSurroundProgram name)) (set_surround_program avr name).
Definition avr_zones : M (list string) := Eff.invoke (Call GetZones) (zones avr).
Definition avr_zone : M string := Eff.invoke (Call GetZone) (get_zone avr).
Definition avr_set_zone (name : string) : M unit :=
  Eff.invoke (Call (SetZone name)) (set_zone avr name).
Definition avr_scenes : M (list string) :=
  Eff.invoke (Call GetScenes) (scenes avr).
Definition avr_scene : M string := Eff.invoke (Call GetScene) (get_scene avr).
Definition avr_set_scene (name : string) : M unit :=
  Eff.invoke (Call (SetScene name)) (set_scene avr name).

(** [print(x)]: one line on standard output. *)
Definition print (text : string) : M unit :=
  Eff.emit (Out Stdout Plain [Txt text]).

(** [print(a, b)]: the two values with a space between them. *)
Definition print2 (a b : string) : M unit := print (a +:+ " " +:+ b).

(** [for x in l: body] *)
Fixpoint for_ {A} (l : list A) (body : A -> M unit) : M unit :=
  match l with
  | [] => Eff.ret tt
  | x :: r => body x ;; for_ r body
  end.

(** [if x: ... else: ...] on an optional string. *)
Definition if_str {A} (x : option string) (then_ : string -> M A)
    (else_ : M A) : M A :=
  match x with
  | Some s => if str_bool s then then_ s else else_
  | None => else_
  end.

Definition invalid_input : string :=
  "That's not a valid input. Run `rxvc inputs' to" +:+
  "get a list of them.".

Definition invalid_sp : string :=
  "That's not a valid surround program. Run `rxvc sps'" +:+
  "to get a list of them.".

Definition invalid_zone : string :=
  "That's not a valid zone. Run `rxvc zones'" +:+
  "to get a list of them.".

Definition invalid_scene : string :=
  "That's not a valid scene. Run `rxvc scenes'" +:+
  "to get a list of them.".

(** [inputs(ctx)], lines 56-66. *)
Definition inputs : M unit :=
  Eff.def (
    names <- avr_inputs ;;
    for_ (sorted_by str_le names) (fun input => print2 "* " input)).

(** [input(ctx, input)], lines 69-88.  [input] is declared with
    [nargs=-1]: the handler receives the tuple of all the arguments. *)
Definition input (input : list string) : M unit :=
  Eff.def (
    match input with
    | first :: _ =>
        names <- avr_inputs ;;
        if in_list first names then
          print ("Setting receiver input to " +:+ first) ;;
          avr_set_input first
        else
          print invalid_input
    | [] =>
        current <- avr_input ;;
        print2 "Current input is" current
    end).

(** [sp(ctx, sp)], lines 222-241. *)
Definition sp (sp : option string) : M unit :=
  Eff.def (
    if_str sp
      (fun sp =>
         names <- avr_surround_programs ;;
         if in_list sp names then
           print ("Setting receiver surround program to " +:+ sp) ;;
           avr_set_surround_program sp
         else
           print invalid_sp)
      (current <- avr_surround_program ;;
       print current)).

(** [sps(ctx)], lines 244-255. *)
Definition sps : M unit :=
  Eff.def (
    print "Valid surround programs for this receiver are:" ;;
    names <- avr_surround_programs ;;
    for_ (sorted_by str_le names) (fun sp => print2 "* " sp)).

(** [zone(ctx, zone)], lines 258-277. *)
Definition zone (zone : option string) : M unit :=
  Eff.def (
    if_str zone
      (fun zone =>
         names <- avr_zones ;;
         if in_list zone names then
           print ("Setting receiver zone to " +:+ zone) ;;
           avr_set_zone zone
         else
           print invalid_zone)
      (current <- avr_zone ;;
       print current)).

(** [zones(ctx)], lines 280-288. *)
Definition zones : M unit :=
  Eff.def (
    print "Configured zones for this receiver are:" ;;
    names <- avr_zones ;;
    for_ (sorted_by str_le names) (fun zone => print2 "* " zone)).

(** [scene(ctx, scene)], lines 291-309. *)
Definition scene (scene : option string) : M unit :=
  Eff.def (
    if_str scene
      (fun scene =>
         names <- avr_scenes ;;
         if in_list scene names then
           print ("Setting receiver scene to " +:+ scene) ;;
           avr_set_scene scene
         else
           print invalid_scene)
      (current <- avr_scene ;;
       print current)).

(** [scenes(ctx)], lines 312-323. *)
Definition scenes : M unit :=
  Eff.def (
    print "Valid scenes for this receiver are:" ;;
    names <- avr_scenes ;;
    for_ (sorted_by str_le names) (fun scene => print2 "* " scene)).

(** The lines a listing writes for the names [l]. *)
Definition name_lines (l : list string) : list event :=
  map (fun name => Out Stdout Plain [Txt ("* " +:+ " " +:+ name)]) l.

End Handlers.
End cli_names.

(** ** The receiver cache and the command group

    [rxvc.cache] is used through four functions; a cache is any
    implementation of them over some store (the cache file and the
    network), handing out receivers of some type. *)

Module cache.

Inductive request (R : Type) : Type :=
| Clear
| CachedReceiver
| FindReceiver
| CacheReceiver (r : R).
Arguments Clear {R}.
Arguments CachedReceiver {R}.
Arguments FindReceiver {R}.
Arguments CacheReceiver {R} r.

Inductive event (R : Type) : Type :=
| Call (r : request R)
| Out (to : Run.stream) (st : Run.style) (line : list Run.piece).
Arguments Call {R} r.
Arguments Out {R} to st line.

Record Cache : Type := {
  store : Type;
  receiver : Type;
  clear : store -> rxv.reply unit * store;
  cached_receiver : store -> rxv.reply (option receiver) * store;
  find_receiver : store -> rxv.reply receiver * store;
  cache_receiver : receiver -> store -> rxv.reply unit * store
}.

Definition calls {R} (l : list (event R)) : list (request R) :=
  omap (fun e => match e with Call r => Some r | Out _ _ _ => None end) l.

End cache.

Module cli_group.
Import Run.
Local Open Scope eff_scope.

Section Group.
Context (cache : cache.Cache).
Local Abbreviation R := (cache.receiver cache).
Local Abbreviation M := (@Eff.M (cache.store cache) (cache.event R)).

Definition cache_clear : M unit :=
  Eff.invoke (cache.Call cache.Clear) (cache.clear cache).
Definition cache_cached_receiver : M (option R) :=
  Eff.invoke (cache.Call cache.CachedReceiver) (cache.cached_receiver cache).
Definition cache_find_receiver : M R :=
  Eff.invoke (cache.Call cache.FindReceiver) (cache.find_receiver cache).
Definition cache_cache_receiver (r : R) : M unit :=
  Eff.invoke (cache.Call (cache.CacheReceiver r)) (cache.cache_receiver cache r).

Definition clearing : cache.event R :=
  cache.Out Stdout Plain [Txt "Clearing receiver cache as requested..."].

(** [cli(ctx, clear)], lines 11-39.  The value is the receiver the
    handler leaves in [ctx.obj['avr']] for the commands. *)
Definition cli (clear : bool) : M R :=
  (if clear
   then Eff.emit clearing ;; cache_clear
   else Eff.ret tt) ;;
  receiver <- cache_cached_receiver ;;
  receiver <- match receiver with
              | None =>
                  receiver <- cache_find_receiver ;;
                  cache_cache_receiver receiver ;;
                  Eff.ret receiver
              | Some receiver => Eff.ret receiver
              end ;;
  Eff.ret receiver.

End Group.
End cli_group.

(** ** Simulated settings and a simulated cache *)

Module SimNames.
Import rxv_names.

Record state : Type := {
  s_names : list string;
  s_current : string;
  s_rejects : request -> option Py.exn
}.

Definition answer {A} (r : request) (a : A) (after : state -> state)
    (s : state) : rxv.reply A * state :=
  match s_rejects s r with
  | Some e => (rxv.Raises e, s)
  | None => (rxv.Returns a, after s)
  end.

Definition select (name : string) (s : state) : state :=
  {| s_names := s_names s; s_current := name; s_rejects := s_rejects s |}.

(** One list of names and one current name serve all four settings. *)
Definition receiver : Receiver := {|
  dev := state;
  inputs := fun s => answer GetInputs (s_names s) id s;
  get_input := fun s => answer GetInput (s_current s) id s;
  set_input := fun n => answer (SetInput n) tt (select n);
  surround_programs := fun s => answer GetSurroundPrograms (s_names s) id s;
  get_surround_program := fun s => answer GetSurroundProgram (s_current s) id s;
  set_surround_program := fun n => answer (SetSurroundProgram n) tt (select n);
  zones := fun s => answer GetZones (s_names s) id s;
  get_zone := fun s => answer GetZone (s_current s) id s;
  set_zone := fun n => answer (SetZone n) tt (select n);
  scenes := fun s => answer GetScenes (s_names s) id s;
  get_scene := fun s => answer GetScene (s_current s) id s;
  set_scene := fun n => answer (SetScene n) tt (select n)
|}.

Definition idle : state :=
  {| s_names := ["HDMI2"; "AV1"; "HDMI1"]; s_current := "HDMI1";
     s_rejects := fun _ => None |}.

End SimNames.

Module SimCache.

(** The store is the cached receiver, if any; discovery finds receiver
    [7]. *)
Definition cache : cache.Cache := {|
  cache.store := option nat;
  cache.receiver := nat;
  cache.clear := fun _ => (rxv.Returns tt, None);
  cache.cached_receiver := fun s => (rxv.Returns s, s);
  cache.find_receiver := fun s => (rxv.Returns 7%nat, s);
  cache.cache_receiver := fun r _ => (rxv.Returns tt, Some r)
|}.

End SimCache.

Module SimFaults.

(** A receiver that cannot be reached: every call ends in an exception
    of the transport. *)
Definition unplugged : Sim.state :=
  {| Sim.s_volume := (-20)%float; Sim.s_mute := true; Sim.s_on := false;
     Sim.s_outputs := ∅; Sim.s_playback := false;
     Sim.s_menu := Sim.net_radio false;
     Sim.s_rejects := fun _ => Some (Py.OtherException "Connection refused") |}.

(** A receiver that takes every call but the mute write, which it rejects
    with the given text. *)
Definition mute_rejecting (text : string) : Sim.state :=
  {| Sim.s_volume := (-20)%float; Sim.s_mute := true; Sim.s_on := true;
     Sim.s_outputs := ∅; Sim.s_playback := true;
     Sim.s_menu := Sim.net_radio true;
     Sim.s_rejects := fun r =>
       match r with
       | rxv.SetMute _ => Some (Py.ResponseException text)
       | _ => None
       end |}.

(** A receiver that moves in whole decibels: a volume written is kept
    without its fraction. *)
Definition whole_steps : rxv.RXV := {|
  rxv.dev := float;
  rxv.get_volume := fun v => (rxv.Returns v, v);
  rxv.set_volume := fun v _ =>
    (rxv.Returns tt,
     match Py.int_of_float v with
     | inr n =>
         match Py.float_of_int n with
         | inr w => w
         | inl _ => v
         end
     | inl _ => v
     end);
  rxv.volume_fade := fun _ _ v => (rxv.Returns tt, v);
  rxv.basic_status := fun v =>
    (rxv.Returns {| rxv.on := true; rxv.input := "HDMI1"; rxv.volume := v;
                    rxv.mute := false |}, v);
  rxv.set_mute := fun _ v => (rxv.Returns tt, v);
  rxv.get_on := fun v => (rxv.Returns true, v);
  rxv.set_on := fun _ v => (rxv.Returns tt, v);
  rxv.outputs := fun v => (rxv.Returns ∅, v);
  rxv.enable_output := fun _ _ v => (rxv.Returns tt, v);
  rxv.is_playback_supported := fun v => (rxv.Returns false, v);
  rxv.play := fun v => (rxv.Returns tt, v);
  rxv.stop := fun v => (rxv.Returns tt, v);
  rxv.pause := fun v => (rxv.Returns tt, v);
  rxv.next := fun v => (rxv.Returns tt, v);
  rxv.previous := fun v => (rxv.Returns tt, v);
  rxv.play_status := fun v => (rxv.Returns Sim.no_play, v);
  rxv.menu_status := fun v => (rxv.Returns (Sim.net_radio false), v);
  rxv.menu_up := fun v => (rxv.Returns tt, v);
  rxv.menu_down := fun v => (rxv.Returns tt, v);
  rxv.menu_left := fun v => (rxv.Returns tt, v);
  rxv.menu_right := fun v => (rxv.Returns tt, v);
  rxv.menu_sel := fun v => (rxv.Returns tt, v);
  rxv.menu_return := fun v => (rxv.Returns tt, v)
|}.

End SimFaults.

(** ** Properties of the handlers *)

Import Py Run.

(** Unfolding the monad down to the receiver's answers. *)
Ltac unfold_run :=
  unfold cli.up_command, cli.down_command, cli.fade_command,
    cli.volume_command, cli.up, cli.down, cli._adjust_volume,
    cli.volume, cli.fade, cli.mute, cli.power, cli.output, cli.playback,
    cli.menu, cli.if_float, cli.if_str, cli.when,
    cli.except_ResponseException, cli.except_all,
    cli.print, cli.echo, cli.echo_red, cli.echo_err_red,
    cli.avr_volume, cli.avr_set_volume, cli.avr_volume_fade,
    cli.avr_basic_status, cli.avr_set_mute, cli.avr_on, cli.avr_set_on,
    cli.avr_outputs, cli.avr_enable_output, cli.avr_is_playback_supported,
    cli.avr_play, cli.avr_stop, cli.avr_pause, cli.avr_next,
    cli.avr_previous, cli.avr_play_status, cli.avr_menu_status,
    cli.avr_menu_up, cli.avr_menu_down, cli.avr_menu_left,
    cli.avr_menu_right, cli.avr_menu_sel, cli.avr_menu_return,
    Run.def, Run.try_except, Run.bind, Run.invoke, Run.write, Run.lift,
    Run.ret, Run.raise, Run.return_.

Section Gates.
Context (avr : rxv.RXV).

Lemma playback_unsupported (command : option string) (d d' : rxv.dev avr) :
  rxv.is_playback_supported avr d = (rxv.Returns false, d') ->
  cli.playback avr command d =
    (Normal tt, d',
     [Call rxv.IsPlaybackSupported;
      Out Stdout Plain
        [Txt "Playback controls are not available for the active input."]]).
Proof.
  intros Hgate. unfold_run. rewrite Hgate. reflexivity.
Qed.

Lemma menu_not_ready (command : option string) (d d' : rxv.dev avr)
    (status : rxv.MenuStatus) :
  rxv.menu_status avr d = (rxv.Returns status, d') ->
  rxv.ready status = false ->
  cli.menu avr command d =
    (Normal tt, d',
     [Call rxv.GetMenuStatus;
      Out Stdout Plain [Txt "Menu is currently not available."]]).
Proof.
  intros Hgate Hready. unfold_run. rewrite Hgate, Hready. reflexivity.
Qed.

End Gates.

(** C6. Availability gates.  Whatever argument is supplied: when the
    receiver answers that playback is not supported for the active input,
    [playback] prints the fixed unavailability message and makes no other
    receiver call, read or write; when the menu status has [ready] false,
    [menu] prints its fixed unavailability message and makes no receiver
    call besides that status read, so no write.  Both end normally and
    leave the receiver as the gate query left it. *)
Theorem availability_gates (avr : rxv.RXV) (command : option string)
    (d d' : rxv.dev avr) :
  (rxv.is_playback_supported avr d = (rxv.Returns false, d') ->
   cli.playback avr command d =
     (Normal tt, d',
      [Call rxv.IsPlaybackSupported;
       Out Stdout Plain
         [Txt "Playback controls are not available for the active input."]]))
  /\
  (forall status,
     rxv.menu_status avr d = (rxv.Returns status, d') ->
     rxv.ready status = false ->
     cli.menu avr command d =
       (Normal tt, d',
        [Call rxv.GetMenuStatus;
         Out Stdout Plain [Txt "Menu is currently not available."]])
     /\ writes (trace (cli.menu avr command d)) = []).
Proof.
  split.
  - apply playback_unsupported.
  - intros status Hgate Hready.
    rewrite (menu_not_ready avr command d d' status Hgate Hready).
    split; reflexivity.
Qed.

Lemma availability_gates_witness :
  (rxv.is_playback_supported Sim.receiver Sim.busy = (rxv.Returns false, Sim.busy)
   /\ rxv.menu_status Sim.receiver Sim.busy
        = (rxv.Returns (Sim.net_radio false), Sim.busy)
   /\ rxv.ready (Sim.net_radio false) = false)
  /\ cli.playback Sim.receiver (Some "play") Sim.busy =
       (Normal tt, Sim.busy,
        [Call rxv.IsPlaybackSupported;
         Out Stdout Plain
           [Txt "Playback controls are not available for the active input."]])
  /\ cli.menu Sim.receiver (Some "select") Sim.busy =
       (Normal tt, Sim.busy,
        [Call rxv.GetMenuStatus;
         Out Stdout Plain [Txt "Menu is currently not available."]]).
Proof.
  pose proof (availability_gates Sim.receiver (Some "play") Sim.busy Sim.busy)
    as [Hplay _].
  pose proof (availability_gates Sim.receiver (Some "select") Sim.busy Sim.busy)
    as [_ Hmenu].
  split; [repeat split; reflexivity |].
  split.
  - apply Hplay. reflexivity.
  - apply (Hmenu (Sim.net_radio false)); reflexivity.
Defined.

(** *** Signs of floats *)

Section FloatSign.

Lemma Prim2SF_zero : Prim2SF 0%float = S754_zero false.
Proof. reflexivity. Qed.

(** A float below zero is not zero, hence true in a condition. *)
Lemma negative_is_truthy (v : float) :
  PrimFloat.ltb v 0 = true -> float_bool v = true.
Proof.
  unfold float_bool. rewrite ltb_spec, FloatAxioms.eqb_spec, Prim2SF_zero.
  unfold SFltb, SFeqb.
  destruct (Prim2SF v) as [s | s | | s m e]; simpl; try discriminate;
    destruct s; simpl; intros H; try discriminate; reflexivity.
Qed.

(** [0 <= v] and [v < 0] exclude each other. *)
Lemma nonnegative_not_negative (v : float) :
  PrimFloat.leb 0 v = true -> PrimFloat.ltb v 0 = false.
Proof.
  rewrite ltb_spec, leb_spec, Prim2SF_zero. unfold SFltb, SFleb.
  destruct (Prim2SF v) as [s | s | | s m e]; simpl; try reflexivity;
    destruct s; simpl; intros H; try discriminate; reflexivity.
Qed.

(** Above zero: not zero, and not below zero. *)
Lemma positive_is_truthy (v : float) :
  PrimFloat.ltb 0 v = true -> float_bool v = true.
Proof.
  unfold float_bool. rewrite ltb_spec, FloatAxioms.eqb_spec, Prim2SF_zero.
  unfold SFltb, SFeqb.
  destruct (Prim2SF v) as [s | s | | s m e]; simpl; try discriminate;
    destruct s; simpl; intros H; try discriminate; reflexivity.
Qed.

Lemma positive_not_negative (v : float) :
  PrimFloat.ltb 0 v = true -> PrimFloat.ltb v 0 = false.
Proof.
  rewrite !ltb_spec, Prim2SF_zero. unfold SFltb.
  destruct (Prim2SF v) as [s | s | | s m e]; simpl; try reflexivity;
    destruct s; simpl; intros H; try discriminate; reflexivity.
Qed.

End FloatSign.

(** *** Absolute volume *)

Section Volume.
Context (avr : rxv.RXV).

(** A request that is not below zero never reaches the volume setter, nor
    any other write. *)
Lemma volume_nonnegative_never_set (v : float) (d : rxv.dev avr) :
  PrimFloat.leb 0 v = true ->
  writes (trace (cli.volume_command avr (Some v) d)) = [].
Proof.
  intros Hv. apply nonnegative_not_negative in Hv.
  unfold_run. rewrite Hv.
  destruct (float_bool v); [reflexivity |].
  destruct (rxv.get_volume avr d) as [[x | e] d1]; reflexivity.
Qed.

(** A request of zero, of either sign, is handled as no request. *)
Lemma volume_zero_is_no_option (v : float) (d : rxv.dev avr) :
  PrimFloat.eqb v 0 = true ->
  cli.volume_command avr (Some v) d = cli.volume_command avr None d.
Proof.
  intros Hv. unfold cli.volume_command, cli.volume, cli.if_float, float_bool.
  rewrite Hv. reflexivity.
Qed.

(** A request above zero is refused with the fixed message, and the
    receiver is not called at all. *)
Lemma volume_positive_refused (v : float) (d : rxv.dev avr) :
  PrimFloat.ltb 0 v = true ->
  cli.volume_command avr (Some v) d =
    (Normal tt, d, [Out Stdout Plain [Txt cli.volume_refusal]]).
Proof.
  intros Hv. unfold_run.
  rewrite (positive_is_truthy v Hv), (positive_not_negative v Hv).
  reflexivity.
Qed.

(** A request below zero goes to the setter as it is, before anything
    else happens. *)
Lemma volume_negative_set_verbatim (v : float) (d : rxv.dev avr) :
  PrimFloat.ltb v 0 = true ->
  exists rest,
    trace (cli.volume_command avr (Some v) d) = Call (rxv.SetVolume v) :: rest
    /\ writes rest = [].
Proof.
  intros Hv. unfold_run. rewrite (negative_is_truthy v Hv), Hv.
  destruct (rxv.set_volume avr v d) as [[[] | e] d1]; simpl.
  - destruct (rxv.get_volume avr d1) as [[x | e] d2]; simpl.
    + eexists; split; reflexivity.
    + destruct e; simpl; try (eexists; split; reflexivity).
      destruct (str_in "Volume" text); eexists; split; reflexivity.
  - destruct e; simpl; try (eexists; split; reflexivity).
    destruct (str_in "Volume" text); eexists; split; reflexivity.
Qed.

End Volume.

(** C1 (the code departs from it at zero).  [rxvc volume -v 0] asks for
    0.0, which is not below zero, yet no instructional message is
    written: the handler tests [if vol:], 0.0 is false there, and the
    command behaves as if no option had been given: it reads the current
    volume and prints it.  The setter is not called. *)
Theorem volume_zero_prints_current_volume :
  PrimFloat.leb 0 0 = true /\
  cli.volume_command Sim.receiver (Some 0%float) Sim.idle =
    (Normal tt, Sim.idle,
     [Call rxv.GetVolume; Out Stdout Plain [Flt (-20)%float]])
  /\ cli.volume_command Sim.receiver (Some 0%float) Sim.idle =
     cli.volume_command Sim.receiver None Sim.idle.
Proof. repeat split; reflexivity. Qed.

(** *** On/off tokens *)

Section Tokens.

Lemma in_on_off (s : string) :
  in_list s ["on"; "off"] = true <-> s = "on" \/ s = "off".
Proof.
  unfold in_list. simpl. rewrite !orb_true_iff, !String.eqb_eq.
  intuition discriminate.
Qed.

Lemma not_in_on_off (s : string) :
  s <> "on" -> s <> "off" -> in_list s ["on"; "off"] = false.
Proof.
  intros Hon Hoff. apply not_true_is_false. rewrite in_on_off. tauto.
Qed.

(** A token whose lower-case form is not empty is not empty itself. *)
Lemma lower_nonempty (t : string) :
  lower t <> "" -> str_bool t = true.
Proof. destruct t; [intros H; contradiction H |]; reflexivity. Qed.

Lemma lower_on_off_nonempty (t : string) :
  lower t = "on" \/ lower t = "off" -> str_bool t = true.
Proof. intros [H | H]; apply lower_nonempty; rewrite H; discriminate. Qed.

(** What [lower] is made of never yields an empty text from a token
    that has a first byte. *)
Lemma decode_cons (b : ascii) (r : string) :
  exists c l, decode (String b r) = c :: l.
Proof. cbn [decode]. repeat case_match; eauto. Qed.

Lemma to_lower_cons (c : N) : exists x l, to_lower c = x :: l.
Proof.
  unfold to_lower. destruct (c =? 304)%N; [eauto |].
  destruct (lower_image c lower_runs); eauto.
Qed.

Lemma encode1_cons (c : N) : exists a r, encode1 c = String a r.
Proof. unfold encode1. repeat case_match; eauto. Qed.

Lemma lower_from_cons (before : list N) (b : ascii) (r : string) :
  exists a out, encode (lower_from before (decode (String b r))) = String a out.
Proof.
  destruct (decode_cons b r) as (c & l & ->).
  cbn [lower_from].
  assert (exists x k,
    ((if (c =? 931)%N then [if final_sigma before l then 962 else 963]%N
      else to_lower c) ++ lower_from (c :: before) l)%list = x :: k)
    as (x & k & ->).
  { destruct (c =? 931)%N; [eauto |].
    destruct (to_lower_cons c) as (x & k & ->). eauto. }
  cbn [encode]. destruct (encode1_cons x) as (a & q & ->). eauto.
Qed.

Lemma lower_str_bool (s : string) : str_bool (lower s) = str_bool s.
Proof.
  destruct s as [| b r]; [reflexivity |].
  unfold lower. destruct (lower_from_cons [] b r) as (a & out & ->).
  reflexivity.
Qed.

(** Which tokens read [on] and [off] once lowered.  A byte below 128 in
    the lowered text comes from a byte below 128 of the token, but for
    the [k] of the Kelvin sign and the [i] of U+0130. *)
Ltac byte_bounds :=
  repeat match goal with
         | x : ascii |- _ =>
             lazymatch goal with
             | _ : (N_of_ascii x < 256)%N |- _ => fail
             | _ => pose proof (N_ascii_bounded x)
             end
         end.

Lemma decode_head_bound (b : ascii) (r : string) (c : N) (l : list N) :
  decode (String b r) = c :: l -> (c < 4194304)%N.
Proof.
  cbn [decode]. cbv zeta. intros H.
  repeat case_match; injection H as <- <-; unfold escape;
    repeat match goal with
           | Hx : _ && _ = true |- _ => apply andb_prop in Hx; destruct Hx
           | Hx : (_ <=? _)%N = true |- _ => apply N.leb_le in Hx
           | Hx : (_ <? _)%N = true |- _ => apply N.ltb_lt in Hx
           end; byte_bounds; lia.
Qed.

Lemma decode_head (b : ascii) (r : string) (c : N) (l : list N) :
  decode (String b r) = c :: l -> (c < 128)%N ->
  b = ascii_of_N c /\ l = decode r.
Proof.
  cbn [decode]. cbv zeta. intros H Hc.
  destruct (N_of_ascii b <? 128)%N eqn:Hb.
  - injection H as <- <-. rewrite ascii_N_embedding. auto.
  - exfalso. apply N.ltb_ge in Hb.
    repeat case_match; injection H as <- <-; unfold escape in Hc;
      repeat match goal with
             | Hx : _ && _ = true |- _ => apply andb_prop in Hx; destruct Hx
             | Hx : (_ <=? _)%N = true |- _ => apply N.leb_le in Hx
             end; lia.
Qed.

Ltac div_lia := zify; Z.to_euclidean_division_equations; lia.

Lemma encode1_head (x : N) (a : ascii) (s : string) :
  (x < 4194304)%N -> encode1 x = String a s -> (N_of_ascii a < 128)%N ->
  (x < 128)%N /\ a = ascii_of_N x /\ s = "".
Proof.
  intros Hx. unfold encode1.
  destruct (x <? 128)%N eqn:H1.
  { apply N.ltb_lt in H1. intros [= <- <-]. auto. }
  apply N.ltb_ge in H1.
  destruct (x <? 2048)%N eqn:H2.
  { apply N.ltb_lt in H2. intros [= <- _] Ha.
    rewrite N_ascii_embedding in Ha by div_lia. div_lia. }
  apply N.ltb_ge in H2.
  destruct ((56448 <=? x) && (x <=? 56575))%N eqn:H3.
  { apply andb_prop in H3 as [H3 H4]. apply N.leb_le in H3, H4.
    intros [= <- _] Ha. rewrite N_ascii_embedding in Ha by lia. lia. }
  destruct (x <? 65536)%N eqn:H4.
  { apply N.ltb_lt in H4. intros [= <- _] Ha.
    rewrite N_ascii_embedding in Ha by div_lia. div_lia. }
  apply N.ltb_ge in H4.
  intros [= <- _] Ha. rewrite N_ascii_embedding in Ha by div_lia. div_lia.
Qed.

Lemma lower_image_In (c x : N) (t : list (N * N * N * N)) :
  lower_image c t = Some x ->
  exists r, In r t /\ (r.1.1.1 <= c)%N /\ (c <= r.1.1.2)%N
            /\ x = (r.2 + (c - r.1.1.1))%N.
Proof.
  induction t as [| [[[first last] stride] image] t IH]; [discriminate |].
  cbn [lower_image].
  destruct ((first <=? c) && (c <=? last)
            && ((c - first) mod stride =? 0))%N eqn:Hc.
  - intros [= <-]. exists (first, last, stride, image).
    apply andb_prop in Hc as [Hc _]. apply andb_prop in Hc as [H1 H2].
    apply N.leb_le in H1, H2. simpl. auto.
  - intros H. destruct (IH H) as (r & Hin & Hr).
    exists r. split; [right; exact Hin | exact Hr].
Qed.

Lemma lower_runs_images :
  Forall (fun r : N * N * N * N =>
            (r.2 + (r.1.1.2 - r.1.1.1) < 4194304)%N
            /\ ((128 <= r.2)%N
                \/ r = (65, 90, 1, 97)%N \/ r = (8490, 8490, 1, 107)%N))
         lower_runs.
Proof. apply (bool_decide_unpack _). vm_compute. exact I. Qed.

Lemma to_lower_head (c x : N) (k : list N) :
  to_lower c = x :: k -> (c < 4194304)%N ->
  (x < 4194304)%N
  /\ ((x < 128)%N -> x <> 105%N -> x <> 107%N ->
      k = [] /\ (x = c \/ x = (c + 32)%N)).
Proof.
  unfold to_lower. intros H Hc.
  destruct (c =? 304)%N.
  { injection H as <- <-. split; [lia |]. intros _ Hi. contradiction Hi.
    reflexivity. }
  destruct (lower_image c lower_runs) as [y |] eqn:Hy; injection H as <- <-.
  - destruct (lower_image_In c y lower_runs Hy) as (r & Hin & H1 & H2 & ->).
    pose proof (proj1 (List.Forall_forall _ _) lower_runs_images r Hin)
      as [Hb Hr].
    split; [lia |].
    intros Hx _ Hk. split; [reflexivity |].
    destruct Hr as [Hr | [-> | ->]]; simpl in *; lia.
  - split; [exact Hc |]. auto.
Qed.

Lemma lower_from_head (before : list N) (s : string) (a : ascii)
    (out : string) :
  encode (lower_from before (decode s)) = String a out ->
  In a ["o"; "n"; "f"]%char ->
  exists b r,
    s = String b r
    /\ (b = a \/ (N_of_ascii b + 32)%N = N_of_ascii a)
    /\ encode (lower_from (N_of_ascii b :: before) (decode r)) = out.
Proof.
  intros H Ha.
  assert (Hcode : (N_of_ascii a < 128)%N /\ N_of_ascii a <> 105%N
                  /\ N_of_ascii a <> 107%N).
  { simpl in Ha. destruct Ha as [<- | [<- | [<- | []]]]; vm_compute;
      repeat split; discriminate. }
  destruct Hcode as (Hlt & Hi & Hk).
  destruct s as [| b r]; [discriminate H |].
  destruct (decode_cons b r) as (c & l & Hd).
  pose proof (decode_head_bound b r c l Hd) as Hc.
  rewrite Hd in H. cbn [lower_from] in H.
  assert (Hpiece : exists x k,
    (if (c =? 931)%N then [if final_sigma before l then 962 else 963]%N
     else to_lower c) = x :: k
    /\ (x < 4194304)%N
    /\ ((x < 128)%N -> x <> 105%N -> x <> 107%N ->
        k = [] /\ (x = c \/ x = (c + 32)%N))).
  { destruct (c =? 931)%N.
    - destruct (final_sigma before l); eexists _, _;
        (split; [reflexivity | split; [lia | intros Hx; lia]]).
    - destruct (to_lower_cons c) as (x & k & Hx).
      exists x, k. split; [exact Hx |].
      apply (to_lower_head c x k Hx Hc). }
  destruct Hpiece as (x & k & Hpiece & Hx & Hsmall).
  rewrite Hpiece in H. cbn [app encode] in H.
  destruct (encode1_cons x) as (a' & s' & He). rewrite He in H.
  injection H as -> Hout.
  destruct (encode1_head x a s' Hx He Hlt) as (Hx128 & -> & ->).
  rewrite N_ascii_embedding in Hi, Hk by lia.
  destruct (Hsmall Hx128 Hi Hk) as (-> & Hcx).
  assert (Hc128 : (c < 128)%N) by lia.
  destruct (decode_head b r c l Hd Hc128) as (-> & ->).
  exists (ascii_of_N c), r. split; [reflexivity |].
  rewrite !N_ascii_embedding by lia. split.
  - destruct Hcx as [-> | ->]; [left; reflexivity | right; reflexivity].
  - exact Hout.
Qed.

Lemma lower_from_nil (before : list N) (s : string) :
  encode (lower_from before (decode s)) = "" -> s = "".
Proof.
  destruct s as [| b r]; [reflexivity |].
  destruct (lower_from_cons before b r) as (a & out & ->). discriminate.
Qed.

Lemma upper_of (b : ascii) (n : N) :
  (n < 256)%N -> (N_of_ascii b + 32)%N = (n + 32)%N -> b = ascii_of_N n.
Proof.
  intros _ H. rewrite <- (ascii_N_embedding b). f_equal. lia.
Qed.

Lemma lower_on_iff (t : string) :
  lower t = "on" <-> In t ["on"; "oN"; "On"; "ON"].
Proof.
  split.
  - unfold lower. intros H.
    apply lower_from_head in H as (b1 & r1 & -> & H1 & H);
      [| simpl; tauto].
    apply lower_from_head in H as (b2 & r2 & -> & H2 & H);
      [| simpl; tauto].
    apply lower_from_nil in H as ->.
    destruct H1 as [-> | H1], H2 as [-> | H2];
      try apply (upper_of b1 79) in H1; try apply (upper_of b2 78) in H2;
      try lia; try reflexivity; subst; simpl; tauto.
  - simpl. intros [<- | [<- | [<- | [<- | []]]]]; reflexivity.
Qed.

Lemma lower_off_iff (t : string) :
  lower t = "off" <->
  In t ["off"; "ofF"; "oFf"; "oFF"; "Off"; "OfF"; "OFf"; "OFF"].
Proof.
  split.
  - unfold lower. intros H.
    apply lower_from_head in H as (b1 & r1 & -> & H1 & H);
      [| simpl; tauto].
    apply lower_from_head in H as (b2 & r2 & -> & H2 & H);
      [| simpl; tauto].
    apply lower_from_head in H as (b3 & r3 & -> & H3 & H);
      [| simpl; tauto].
    apply lower_from_nil in H as ->.
    destruct H1 as [-> | H1], H2 as [-> | H2], H3 as [-> | H3];
      try apply (upper_of b1 79) in H1; try apply (upper_of b2 70) in H2;
      try apply (upper_of b3 70) in H3;
      try lia; try reflexivity; subst; simpl; tauto.
  - simpl. intros H.
    repeat (destruct H as [<- | H]; [reflexivity |]). contradiction.
Qed.

(** ASCII letters, and letters beyond ASCII. *)
Example lower_ascii : lower "oFf" = "off" /\ lower "ON" = "on".
Proof. split; reflexivity. Qed.

Example lower_beyond_ascii :
  decode (lower (encode [214; 78]%N)) = [246; 110]%N
  /\ decode (lower (encode [304]%N)) = [105; 775]%N
  /\ decode (lower (encode [913; 931]%N)) = [945; 962]%N
  /\ decode (lower (encode [931; 913]%N)) = [963; 945]%N
  /\ decode (lower (encode [8490]%N)) = [107]%N.
Proof. repeat split; vm_compute; reflexivity. Qed.

End Tokens.

(** *** The output command *)

Section Output.
Context (avr : rxv.RXV).

Lemma output_bad_state (name state : string) (d : rxv.dev avr) :
  state <> "on" -> state <> "off" ->
  cli.output avr name state d =
    (Normal tt, d, [Out Stdout Red [Txt "State must be on or off"]]).
Proof.
  intros Hon Hoff. unfold_run.
  rewrite (not_in_on_off state Hon Hoff). reflexivity.
Qed.



End Output.



(** *** Power and mute *)

Section PowerMute.
Context (avr : rxv.RXV).

(** [power] with a token that is [on] or [off] once lowered: one call,
    the power setter, whatever the receiver answers. *)
Lemma power_on_off_calls (t : string) (d : rxv.dev avr) :
  lower t = "on" \/ lower t = "off" ->
  calls (trace (cli.power avr (Some t) d)) =
    [rxv.SetOn (String.eqb (lower t) "on")].
Proof.
  intros Ht. unfold_run.
  rewrite (lower_on_off_nonempty t Ht), (proj2 (in_on_off (lower t)) Ht).
  destruct (rxv.set_on avr _ d) as [[[] | e] d1]; reflexivity.
Qed.

(** When the receiver accepts, [power] confirms with the lowered token. *)
Lemma power_on_off_accepted (t : string) (d d1 : rxv.dev avr) :
  lower t = "on" \/ lower t = "off" ->
  rxv.set_on avr (String.eqb (lower t) "on") d = (rxv.Returns tt, d1) ->
  cli.power avr (Some t) d =
    (Normal tt, d1,
     [Call (rxv.SetOn (String.eqb (lower t) "on"));
      Out Stdout Plain [Txt ("Turned the receiver " +:+ lower t)]]).
Proof.
  intros Ht Hset. unfold_run.
  rewrite (lower_on_off_nonempty t Ht), (proj2 (in_on_off (lower t)) Ht), Hset.
  reflexivity.
Qed.

(** [mute] with any non-empty token: the status read, then the mute
    setter with "the lowered token is [on]"; no token is turned away. *)
Lemma mute_token_calls (t : string) (d d1 : rxv.dev avr)
    (status : rxv.BasicStatus) :
  str_bool t = true ->
  rxv.basic_status avr d = (rxv.Returns status, d1) ->
  calls (trace (cli.mute avr (Some t) d)) =
    [rxv.GetBasicStatus; rxv.SetMute (String.eqb (lower t) "on")].
Proof.
  intros Ht Hstatus. unfold_run. rewrite Hstatus, Ht.
  destruct (rxv.set_mute avr _ d1) as [[[] | e] d2]; simpl; [reflexivity |].
  destruct e; simpl; try reflexivity.
  destruct (str_in "Mute" text); reflexivity.
Qed.

(** When the receiver accepts, [mute] echoes the lowered token. *)
Lemma mute_token_accepted (t : string) (d d1 d2 : rxv.dev avr)
    (status : rxv.BasicStatus) :
  str_bool t = true ->
  rxv.basic_status avr d = (rxv.Returns status, d1) ->
  rxv.set_mute avr (String.eqb (lower t) "on") d1 = (rxv.Returns tt, d2) ->
  cli.mute avr (Some t) d =
    (Normal tt, d2,
     [Call rxv.GetBasicStatus;
      Call (rxv.SetMute (String.eqb (lower t) "on"));
      Out Stdout Plain [Txt (lower t)]]).
Proof.
  intros Ht Hstatus Hset. unfold_run. rewrite Hstatus, Ht, Hset. reflexivity.
Qed.

End PowerMute.

(** C4 (the code departs from it).  [mute] does not check its token.
    [rxvc mute banana] is not turned away with an invalid-value message:
    the mute setter is called with [False] and the token is echoed.  The
    last lines are the part of the claim that holds: [mute off] calls the
    setter with [False] and prints [off]. *)
Theorem mute_accepts_any_token :
  in_list (lower "banana") ["on"; "off"] = false
  /\ cli.mute Sim.receiver (Some "banana") Sim.idle =
       (Normal tt, Sim.with_mute false Sim.idle,
        [Call rxv.GetBasicStatus; Call (rxv.SetMute false);
         Out Stdout Plain [Txt "banana"]])
  /\ cli.mute Sim.receiver (Some "off") Sim.idle =
       (Normal tt, Sim.with_mute false Sim.idle,
        [Call rxv.GetBasicStatus; Call (rxv.SetMute false);
         Out Stdout Plain [Txt "off"]]).
Proof. repeat split; reflexivity. Qed.

(** C9. [power] and [mute] lower their argument before they read it, so a
    token such as [ON], [On] or [OFF] acts as [on] or [off]: [power] calls
    the power setter, and [mute] the mute setter, with [True] exactly when
    the lowered token is [on], and each echoes the lowered token when the
    receiver accepts.  [output] compares its state as it is written: [ON]
    and [OFF] get the "State must be on or off" line and no receiver
    call. *)
Theorem on_off_case_handling (avr : rxv.RXV) (t : string)
    (d : rxv.dev avr) :
  lower t = "on" \/ lower t = "off" ->
  calls (trace (cli.power avr (Some t) d)) =
    [rxv.SetOn (String.eqb (lower t) "on")]
  /\ (forall d1,
        rxv.set_on avr (String.eqb (lower t) "on") d = (rxv.Returns tt, d1) ->
        cli.power avr (Some t) d =
          (Normal tt, d1,
           [Call (rxv.SetOn (String.eqb (lower t) "on"));
            Out Stdout Plain [Txt ("Turned the receiver " +:+ lower t)]]))
  /\ (forall status d1,
        rxv.basic_status avr d = (rxv.Returns status, d1) ->
        calls (trace (cli.mute avr (Some t) d)) =
          [rxv.GetBasicStatus; rxv.SetMute (String.eqb (lower t) "on")]
        /\ forall d2,
             rxv.set_mute avr (String.eqb (lower t) "on") d1
               = (rxv.Returns tt, d2) ->
             printed (trace (cli.mute avr (Some t) d)) =
               [(Stdout, Plain, [Txt (lower t)])])
  /\ (lower "ON" = "on" /\ lower "On" = "on" /\ lower "OFF" = "off")
  /\ (forall name,
        cli.output avr name "ON" d =
          (Normal tt, d, [Out Stdout Red [Txt "State must be on or off"]])
        /\ cli.output avr name "OFF" d =
          (Normal tt, d, [Out Stdout Red [Txt "State must be on or off"]])).
Proof.
  intros Ht.
  pose proof (lower_on_off_nonempty t Ht) as Hne.
  split; [apply power_on_off_calls; exact Ht |].
  split; [intros d1; apply power_on_off_accepted; exact Ht |].
  split.
  { intros status d1 Hstatus. split.
    - apply (mute_token_calls avr t d d1 status Hne Hstatus).
    - intros d2 Hset.
      rewrite (mute_token_accepted avr t d d1 d2 status Hne Hstatus Hset).
      reflexivity. }
  split; [repeat split; reflexivity |].
  intros name. split; apply output_bad_state; discriminate.
Qed.

Lemma on_off_case_handling_witness :
  lower "ON" = "on"
  /\ calls (trace (cli.power Sim.receiver (Some "ON") Sim.idle)) =
       [rxv.SetOn true]
  /\ calls (trace (cli.mute Sim.receiver (Some "ON") Sim.idle)) =
       [rxv.GetBasicStatus; rxv.SetMute true]
  /\ cli.output Sim.receiver "zoneB" "ON" Sim.idle =
       (Normal tt, Sim.idle, [Out Stdout Red [Txt "State must be on or off"]]).
Proof.
  pose proof (on_off_case_handling Sim.receiver "ON" Sim.idle
                (or_introl eq_refl)) as (Hpower & _ & Hmute & _ & Hout).
  split; [reflexivity |].
  split; [exact Hpower |].
  split.
  - destruct (Hmute (rxv.Build_BasicStatus true "HDMI1" (-20)%float true)
                Sim.idle eq_refl) as [Hcalls _].
    exact Hcalls.
  - apply (Hout "zoneB").
Defined.

(** *** Substring search *)

Section Substring.

Lemma starts_with_spec (needle hay : string) :
  starts_with needle hay = true <-> exists post, hay = needle +:+ post.
Proof.
  revert hay. induction needle as [| a n IH]; intros hay; simpl.
  - split; [intros _; exists hay; reflexivity | reflexivity].
  - destruct hay as [| b h].
    + split; [discriminate | intros [post H]; discriminate H].
    + rewrite andb_true_iff, Ascii.eqb_eq, IH. split.
      * intros [-> [post ->]]. exists post. reflexivity.
      * intros [post H]. injection H as -> ->. split; [reflexivity |].
        exists post. reflexivity.
Qed.

(** [str_in needle hay] holds exactly when [needle] occurs in [hay]. *)
Lemma str_in_spec (needle hay : string) :
  str_in needle hay = true <->
  exists pre post, hay = pre +:+ needle +:+ post.
Proof.
  induction hay as [| b h IH].
  - simpl. rewrite orb_false_r, starts_with_spec. split.
    + intros [post H]. exists "", post. exact H.
    + intros [pre [post H]]. destruct pre; [exists post; exact H |].
      discriminate H.
  - simpl. rewrite orb_true_iff, starts_with_spec, IH. split.
    + intros [[post H] | [pre [post H]]].
      * exists "", post. exact H.
      * exists (String b pre), post. simpl. rewrite H. reflexivity.
    + intros [pre [post H]]. destruct pre as [| c pre].
      * left. exists post. exact H.
      * right. simpl in H. injection H as -> ->. exists pre, post.
        reflexivity.
Qed.

End Substring.

(** *** Fade *)

Section Fade.
Context (avr : rxv.RXV).

(** [int] drops the fraction, towards zero. *)
Lemma int_of_float_truncates :
  int_of_float (-30.5)%float = inr (-30)
  /\ int_of_float (-30)%float = inr (-30)
  /\ int_of_float (-0.75)%float = inr 0
  /\ int_of_float 2.75%float = inr 2
  /\ int_of_float neg_infinity
     = inl (OverflowError "cannot convert float infinity to integer").
Proof. repeat split; reflexivity. Qed.

(** A target that is not below zero is refused on the spot. *)
Lemma fade_nonnegative_refused (v : float) (delay : option float)
    (d : rxv.dev avr) :
  PrimFloat.leb 0 v = true ->
  cli.fade_command avr (Some v) delay d =
    (Normal tt, d, [Out Stdout Plain [Txt cli.fade_refusal]]).
Proof.
  intros Hv. apply nonnegative_not_negative in Hv.
  unfold_run. rewrite Hv. destruct (float_bool v); reflexivity.
Qed.

(** A target below zero with a delay on the command line: one call,
    [volume_fade] with the truncated target and that delay. *)
Lemma fade_negative_with_delay (v delay : float) (target : Z)
    (d : rxv.dev avr) :
  PrimFloat.ltb v 0 = true ->
  int_of_float v = inr target ->
  calls (trace (cli.fade_command avr (Some v) (Some delay) d)) =
    [rxv.VolumeFade target delay].
Proof.
  intros Hv Hint. unfold_run. rewrite (negative_is_truthy v Hv), Hv, Hint.
  simpl.
  destruct (rxv.volume_fade avr target delay d) as [[[] | e] d1]; simpl;
    [reflexivity |].
  destruct e; simpl; try reflexivity.
  destruct (str_in "Volume" text); reflexivity.
Qed.

(** A target below zero without a delay on the command line: the handler
    is entered with [delay=None], and [float(None)] raises before
    [volume_fade] is reached. *)
Lemma fade_negative_without_delay (v : float) (target : Z)
    (d : rxv.dev avr) :
  PrimFloat.ltb v 0 = true ->
  int_of_float v = inr target ->
  cli.fade_command avr (Some v) None d =
    (Raise (TypeError
       "float() argument must be a string or a real number, not 'NoneType'"),
     d, [Out Stdout Plain (cli.fade_announcement v None)]).
Proof.
  intros Hv Hint. unfold_run. rewrite (negative_is_truthy v Hv), Hv, Hint.
  reflexivity.
Qed.

(** The default of the signature counts only for a caller that leaves the
    keyword out, which the command line never does. *)
Lemma fade_signature_default (vol : option float) :
  cli.fade avr vol cli.Omitted = cli.fade avr vol (cli.Passed (Some 0.5%float)).
Proof. reflexivity. Qed.

End Fade.

(** C3 (the code departs from it when no delay is given).
    [rxvc fade -v -30] announces a fade "with delay of None seconds" and
    stops on a [TypeError]: [volume_fade] is not called, with 0.5 or with
    anything else.  With a delay on the command line the call is made
    once, with the truncated target and that delay. *)
Theorem fade_without_delay_raises :
  PrimFloat.ltb (-30)%float 0 = true
  /\ cli.fade_command Sim.receiver (Some (-30)%float) None Sim.idle =
       (Raise (TypeError
          "float() argument must be a string or a real number, not 'NoneType'"),
        Sim.idle,
        [Out Stdout Plain
           [Txt "Fading receiver volume to "; Flt (-30)%float;
            Txt " with delay of "; NoneVal; Txt " seconds"]])
  /\ calls (trace (cli.fade_command Sim.receiver (Some (-30.5)%float)
                     (Some 2%float) Sim.idle)) =
       [rxv.VolumeFade (-30) 2%float].
Proof. repeat split; reflexivity. Qed.

(** *** Rejected volume writes *)

Section Rejection.
Context (avr : rxv.RXV).

(** [volume]: a rejected write is answered by the step message when the
    text holds "Volume", and by nothing otherwise. *)
Lemma volume_rejected (v : float) (text : string) (d d1 : rxv.dev avr) :
  PrimFloat.ltb v 0 = true ->
  rxv.set_volume avr v d = (rxv.Raises (ResponseException text), d1) ->
  cli.volume_command avr (Some v) d =
    (Normal tt, d1,
     Call (rxv.SetVolume v) ::
       (if str_in "Volume" text then [cli.step_line] else [])).
Proof.
  intros Hv Hset. unfold_run. rewrite (negative_is_truthy v Hv), Hv, Hset.
  simpl. destruct (str_in "Volume" text); reflexivity.
Qed.

(** [fade]: a rejected call has its text printed, and is then answered
    by the step message when the text holds "Volume". *)
Lemma fade_rejected (v delay : float) (target : Z) (text : string)
    (d d1 : rxv.dev avr) :
  PrimFloat.ltb v 0 = true ->
  int_of_float v = inr target ->
  rxv.volume_fade avr target delay d
    = (rxv.Raises (ResponseException text), d1) ->
  cli.fade_command avr (Some v) (Some delay) d =
    (Normal tt, d1,
     Out Stdout Plain (cli.fade_announcement v (Some delay)) ::
     Call (rxv.VolumeFade target delay) ::
     Out Stdout Plain [Txt text] ::
       (if str_in "Volume" text then [cli.step_line] else [])).
Proof.
  intros Hv Hint Hfade. unfold_run.
  rewrite (negative_is_truthy v Hv), Hv, Hint. simpl. rewrite Hfade. simpl.
  destruct (str_in "Volume" text); reflexivity.
Qed.

End Rejection.

(** C5 as stated fails for [fade]: the receiver rejects the fade with the
    text "Busy", which does not hold "Volume", and the handler still
    writes a line after the rejected call, the text itself. *)
Lemma fade_prints_unmatched_rejection :
  str_in "Volume" "Busy" = false
  /\ after_write
       (trace (cli.fade_command Sim.receiver (Some (-30)%float)
                 (Some 1%float) (Sim.rejecting "Busy")))
     = [Out Stdout Plain [Txt "Busy"]]
  /\ after_write
       (trace (cli.fade_command Sim.receiver (Some (-30)%float)
                 (Some 1%float) (Sim.rejecting "Busy")))
     <> [].
Proof. repeat split; [reflexivity .. | discriminate]. Qed.

(** C5, amended.  When the receiver rejects the volume write of [volume]
    or the fade call of [fade] with a [ResponseException], the handler
    ends normally, and the line "Volume must be specified in -0.5
    increments." is written (to standard error, in red) exactly when the
    text of the rejection contains "Volume".  When it does not, [volume]
    writes nothing at all after the rejected call.  [fade] first prints
    the text of the rejection on standard output, in either case. *)
Theorem volume_rejection_classified (avr : rxv.RXV) (v : float)
    (text : string) (d d1 : rxv.dev avr) :
  PrimFloat.ltb v 0 = true ->
  (rxv.set_volume avr v d = (rxv.Raises (ResponseException text), d1) ->
   result (cli.volume_command avr (Some v) d) = Normal tt
   /\ after_write (trace (cli.volume_command avr (Some v) d)) =
        (if str_in "Volume" text then [cli.step_line] else []))
  /\
  (forall target delay,
     int_of_float v = inr target ->
     rxv.volume_fade avr target delay d
       = (rxv.Raises (ResponseException text), d1) ->
     result (cli.fade_command avr (Some v) (Some delay) d) = Normal tt
     /\ after_write (trace (cli.fade_command avr (Some v) (Some delay) d)) =
          Out Stdout Plain [Txt text] ::
            (if str_in "Volume" text then [cli.step_line] else []))
  /\
  (str_in "Volume" text = true <->
   exists pre post, text = pre +:+ "Volume" +:+ post).
Proof.
  intros Hv. split; [| split].
  - intros Hset. rewrite (volume_rejected avr v text d d1 Hv Hset).
    split; reflexivity.
  - intros target delay Hint Hfade.
    rewrite (fade_rejected avr v delay target text d d1 Hv Hint Hfade).
    split; reflexivity.
  - apply str_in_spec.
Qed.

Lemma volume_rejection_classified_witness :
  PrimFloat.ltb (-30)%float 0 = true
  /\ after_write
       (trace (cli.volume_command Sim.receiver (Some (-30)%float)
                 (Sim.rejecting "Volume out of range")))
     = [cli.step_line]
  /\ after_write
       (trace (cli.volume_command Sim.receiver (Some (-30)%float)
                 (Sim.rejecting "Busy")))
     = []
  /\ after_write
       (trace (cli.fade_command Sim.receiver (Some (-30)%float)
                 (Some 1%float) (Sim.rejecting "Volume out of range")))
     = [Out Stdout Plain [Txt "Volume out of range"]; cli.step_line].
Proof.
  pose proof (volume_rejection_classified Sim.receiver (-30)%float
                "Volume out of range" (Sim.rejecting "Volume out of range")
                (Sim.rejecting "Volume out of range") eq_refl)
    as (Hvol & Hfade & _).
  pose proof (volume_rejection_classified Sim.receiver (-30)%float
                "Busy" (Sim.rejecting "Busy") (Sim.rejecting "Busy") eq_refl)
    as (Hbusy & _ & _).
  split; [reflexivity |].
  split; [apply Hvol; reflexivity |].
  split; [apply Hbusy; reflexivity |].
  apply (Hfade (-30) 1%float); reflexivity.
Defined.

(** *** Negation of floats *)

Section FloatNegation.

Lemma SFopp_involutive (x : spec_float) : SFopp (SFopp x) = x.
Proof. destruct x as [s | s | | s m e]; simpl; rewrite ?negb_involutive; reflexivity. Qed.

Lemma opp_involutive (f : float) : (- - f)%float = f.
Proof.
  apply Prim2SF_inj. rewrite !opp_spec. apply SFopp_involutive.
Qed.

Lemma SF2Prim_opp (x : spec_float) : SF2Prim (SFopp x) = (- SF2Prim x)%float.
Proof.
  destruct x as [[] | [] | | [] m e]; simpl; try reflexivity.
  symmetry. apply opp_involutive.
Qed.

Lemma binary_round_aux_opp (s : bool) (m e : Z) (l : location) :
  binary_round_aux prec emax (negb s) m e l
  = SFopp (binary_round_aux prec emax s m e l).
Proof.
  unfold binary_round_aux.
  destruct (shr_fexp prec emax m e l) as [mrs e1].
  destruct (shr_fexp prec emax _ e1 loc_Exact) as [mrs2 e2].
  destruct (shr_m mrs2); try reflexivity.
  destruct (e2 <=? emax - prec)%Z; reflexivity.
Qed.

Lemma binary_normalize_opp (n : Z) :
  n <> 0 ->
  binary_normalize prec emax (- n) 0 false
  = SFopp (binary_normalize prec emax n 0 false).
Proof.
  destruct n as [| p | p]; [contradiction | |]; intros _; simpl;
    unfold binary_round;
    destruct (shl_align p 0 _) as [mz ez].
  - apply (binary_round_aux_opp false).
  - apply (binary_round_aux_opp true).
Qed.

Lemma is_infinity_opp (f : float) :
  PrimFloat.is_infinity (- f) = PrimFloat.is_infinity f.
Proof.
  unfold PrimFloat.is_infinity. f_equal.
  apply Prim2SF_inj. rewrite !abs_spec, opp_spec.
  destruct (Prim2SF f); reflexivity.
Qed.

Lemma mul_opp_l (x y : float) : (- x * y)%float = (- (x * y))%float.
Proof.
  apply Prim2SF_inj. rewrite opp_spec, !mul_spec, opp_spec.
  unfold SF64mul.
  destruct (Prim2SF x) as [sx | sx | | sx mx ex],
           (Prim2SF y) as [sy | sy | | sy my ey]; simpl;
    rewrite <- ?negb_xorb_l; try reflexivity.
  apply binary_round_aux_opp.
Qed.

Lemma add_opp_r (x y : float) : (x + - y)%float = (x - y)%float.
Proof.
  apply Prim2SF_inj. rewrite add_spec, sub_spec, opp_spec.
  unfold SF64add, SF64sub.
  destruct (Prim2SF x) as [sx | sx | | sx mx ex],
           (Prim2SF y) as [sy | sy | | sy my ey]; simpl; try reflexivity;
    destruct sx, sy; reflexivity.
Qed.

Lemma sub_opp_r (x y : float) : (x - - y)%float = (x + y)%float.
Proof.
  rewrite <- add_opp_r, opp_involutive. reflexivity.
Qed.

Lemma float_of_int_opp (n : Z) :
  n <> 0 ->
  float_of_int (- n) =
    match float_of_int n with
    | inl e => inl e
    | inr f => inr (- f)%float
    end.
Proof.
  intros Hn. unfold float_of_int.
  rewrite (binary_normalize_opp n Hn), SF2Prim_opp, is_infinity_opp.
  destruct (PrimFloat.is_infinity _); reflexivity.
Qed.

End FloatNegation.

(** *** Relative volume *)

Section Adjust.
Context (avr : rxv.RXV).

(** The write of [_adjust_volume]: the current volume combined with
    [points * 0.5], whatever the receiver then answers. *)
Lemma adjust_volume_calls (points : Z) (operation : float -> float -> float)
    (v x : float) (d d1 : rxv.dev avr) :
  rxv.get_volume avr d = (rxv.Returns v, d1) ->
  float_of_int points = inr x ->
  calls (trace (cli._adjust_volume avr points operation d)) =
    [rxv.GetVolume; rxv.SetVolume (operation v (x * 0.5)%float)].
Proof.
  intros Hget Hx. unfold_run. unfold mul_int_float. rewrite Hget, Hx. simpl.
  destruct (rxv.set_volume avr _ d1) as [[[] | e] d2]; simpl; [reflexivity |].
  destruct e; reflexivity.
Qed.

(** When the receiver accepts the write, the new volume is echoed. *)
Lemma adjust_volume_accepted (points : Z)
    (operation : float -> float -> float) (v x : float)
    (d d1 d2 : rxv.dev avr) :
  rxv.get_volume avr d = (rxv.Returns v, d1) ->
  float_of_int points = inr x ->
  rxv.set_volume avr (operation v (x * 0.5)%float) d1 = (rxv.Returns tt, d2) ->
  cli._adjust_volume avr points operation d =
    (Normal tt, d2,
     [Call rxv.GetVolume;
      Call (rxv.SetVolume (operation v (x * 0.5)%float));
      Out Stdout Plain [Flt (operation v (x * 0.5)%float)]]).
Proof.
  intros Hget Hx Hset. unfold_run. unfold mul_int_float.
  rewrite Hget, Hx. simpl. rewrite Hset. reflexivity.
Qed.

(** When the receiver rejects it, the out-of-range line is written. *)
Lemma adjust_volume_rejected (points : Z)
    (operation : float -> float -> float) (v x : float) (text : string)
    (d d1 d2 : rxv.dev avr) :
  rxv.get_volume avr d = (rxv.Returns v, d1) ->
  float_of_int points = inr x ->
  rxv.set_volume avr (operation v (x * 0.5)%float) d1
    = (rxv.Raises (ResponseException text), d2) ->
  cli._adjust_volume avr points operation d =
    (Normal tt, d2,
     [Call rxv.GetVolume;
      Call (rxv.SetVolume (operation v (x * 0.5)%float));
      Out Stdout Red [Txt "New volume must be out of range."]]).
Proof.
  intros Hget Hx Hset. unfold_run. unfold mul_int_float.
  rewrite Hget, Hx. simpl. rewrite Hset. reflexivity.
Qed.

(** Any other exception of the write is not caught. *)
Lemma adjust_volume_failed (points : Z)
    (operation : float -> float -> float) (v x : float) (e : exn)
    (d d1 d2 : rxv.dev avr) :
  rxv.get_volume avr d = (rxv.Returns v, d1) ->
  float_of_int points = inr x ->
  (forall text, e <> ResponseException text) ->
  rxv.set_volume avr (operation v (x * 0.5)%float) d1 = (rxv.Raises e, d2) ->
  cli._adjust_volume avr points operation d =
    (Raise e, d2,
     [Call rxv.GetVolume;
      Call (rxv.SetVolume (operation v (x * 0.5)%float))]).
Proof.
  intros Hget Hx He Hset. unfold_run. unfold mul_int_float.
  rewrite Hget, Hx. simpl. rewrite Hset. simpl.
  destruct e; try reflexivity. contradiction (He text). reflexivity.
Qed.

(** Points that have no float: the error comes before the write. *)
Lemma adjust_volume_overflow (points : Z)
    (operation : float -> float -> float) (v : float) (e : exn)
    (d d1 : rxv.dev avr) :
  rxv.get_volume avr d = (rxv.Returns v, d1) ->
  float_of_int points = inl e ->
  cli._adjust_volume avr points operation d =
    (Raise e, d1, [Call rxv.GetVolume]).
Proof.
  intros Hget Hx. unfold_run. unfold mul_int_float.
  rewrite Hget, Hx. reflexivity.
Qed.

(** [def] around a body that is already a [def] changes nothing. *)
Lemma def_def (body : Run.M avr unit) (d : rxv.dev avr) :
  Run.def (Run.def body) d = Run.def body d.
Proof.
  unfold Run.def. destruct (body d) as [[[[] | | e] d1] l]; reflexivity.
Qed.

Lemma up_unfold (points : Z) (d : rxv.dev avr) :
  cli.up avr points d = cli._adjust_volume avr points operator_add d.
Proof. unfold cli.up, cli._adjust_volume. apply def_def. Qed.

Lemma down_unfold (points : Z) (d : rxv.dev avr) :
  cli.down avr points d = cli._adjust_volume avr points operator_sub d.
Proof. unfold cli.down, cli._adjust_volume. apply def_def. Qed.

(** A step of [-n] points is the opposite of a step of [n] points. *)
Lemma step_opp (n : Z) :
  n <> 0 ->
  mul_int_float (- n) 0.5%float =
    match mul_int_float n 0.5%float with
    | inl e => inl e
    | inr s => inr (- s)%float
    end.
Proof.
  intros Hn. unfold mul_int_float. rewrite (float_of_int_opp n Hn).
  destruct (float_of_int n) as [e | f]; [reflexivity |].
  rewrite mul_opp_l. reflexivity.
Qed.

(** Turning up by [-n] points is turning down by [n] points, and the
    other way round: same calls, same output, same end. *)
Lemma up_negative_is_down (n : Z) (d : rxv.dev avr) :
  n <> 0 -> cli.up avr (- n) d = cli.down avr n d.
Proof.
  intros Hn. rewrite up_unfold, down_unfold.
  unfold cli._adjust_volume, Run.def, Run.bind, Run.lift.
  rewrite (step_opp n Hn).
  destruct (cli.avr_volume avr d) as [[[v | | e] d1] l1]; try reflexivity.
  destruct (mul_int_float n 0.5%float) as [e | s]; [reflexivity |].
  unfold operator_add, operator_sub, Run.ret. cbv beta iota zeta.
  rewrite add_opp_r.
  reflexivity.
Qed.

Lemma down_negative_is_up (n : Z) (d : rxv.dev avr) :
  n <> 0 -> cli.down avr (- n) d = cli.up avr n d.
Proof.
  intros Hn. rewrite up_unfold, down_unfold.
  unfold cli._adjust_volume, Run.def, Run.bind, Run.lift.
  rewrite (step_opp n Hn).
  destruct (cli.avr_volume avr d) as [[[v | | e] d1] l1]; try reflexivity.
  destruct (mul_int_float n 0.5%float) as [e | s]; [reflexivity |].
  unfold operator_add, operator_sub, Run.ret. cbv beta iota zeta.
  rewrite sub_opp_r.
  reflexivity.
Qed.

End Adjust.

(** C2 as stated fails for a count of points that has no float: [up]
    with [2 ^ 1024] points reads the volume and ends with Python's
    [OverflowError]; no volume is sent to the receiver and none is
    printed. *)
Lemma up_huge_count_sends_nothing :
  cli.up_command Sim.receiver (Some (2 ^ 1024)) Sim.idle =
    (Raise (OverflowError "int too large to convert to float"), Sim.idle,
     [Call rxv.GetVolume])
  /\ writes (trace (cli.up_command Sim.receiver (Some (2 ^ 1024)) Sim.idle))
     = []
  /\ printed (trace (cli.up_command Sim.receiver (Some (2 ^ 1024)) Sim.idle))
     = [].
Proof. repeat split; vm_compute; reflexivity. Qed.

(** C2, amended.  Relative volume.  With the current volume [v] and [n]
    points (2 when the command line gives none): when [n] converts to a
    float [x], [up] sends the receiver the absolute volume [v + x * 0.5]
    and [down] sends [v - x * 0.5], in floating point; the new value is
    printed when the receiver accepts the write, and the red line "New
    volume must be out of range." is printed in its place when the
    receiver rejects it.  When [n] does not convert to a float, both
    commands end with the error of the conversion after reading the
    volume: nothing is sent and nothing is printed.  In particular [up]
    without argument at -20.0 sends -19.0 and prints -19.0. *)
Theorem relative_volume :
  (forall (avr : rxv.RXV) (points : option Z) (v : float)
          (d d1 : rxv.dev avr),
     rxv.get_volume avr d = (rxv.Returns v, d1) ->
     (forall x,
        float_of_int (default 2 points) = inr x ->
        (calls (trace (cli.up_command avr points d)) =
           [rxv.GetVolume; rxv.SetVolume (v + x * 0.5)%float]
         /\ (forall d2,
               rxv.set_volume avr (v + x * 0.5)%float d1
                 = (rxv.Returns tt, d2) ->
               cli.up_command avr points d =
                 (Normal tt, d2,
                  [Call rxv.GetVolume;
                   Call (rxv.SetVolume (v + x * 0.5)%float);
                   Out Stdout Plain [Flt (v + x * 0.5)%float]]))
         /\ (forall text d2,
               rxv.set_volume avr (v + x * 0.5)%float d1
                 = (rxv.Raises (ResponseException text), d2) ->
               cli.up_command avr points d =
                 (Normal tt, d2,
                  [Call rxv.GetVolume;
                   Call (rxv.SetVolume (v + x * 0.5)%float);
                   Out Stdout Red [Txt "New volume must be out of range."]])))
        /\
        (calls (trace (cli.down_command avr points d)) =
           [rxv.GetVolume; rxv.SetVolume (v - x * 0.5)%float]
         /\ (forall d2,
               rxv.set_volume avr (v - x * 0.5)%float d1
                 = (rxv.Returns tt, d2) ->
               cli.down_command avr points d =
                 (Normal tt, d2,
                  [Call rxv.GetVolume;
                   Call (rxv.SetVolume (v - x * 0.5)%float);
                   Out Stdout Plain [Flt (v - x * 0.5)%float]]))
         /\ (forall text d2,
               rxv.set_volume avr (v - x * 0.5)%float d1
                 = (rxv.Raises (ResponseException text), d2) ->
               cli.down_command avr points d =
                 (Normal tt, d2,
                  [Call rxv.GetVolume;
                   Call (rxv.SetVolume (v - x * 0.5)%float);
                   Out Stdout Red [Txt "New volume must be out of range."]]))))
     /\
     (forall e,
        float_of_int (default 2 points) = inl e ->
        cli.up_command avr points d = (Raise e, d1, [Call rxv.GetVolume])
        /\ cli.down_command avr points d = (Raise e, d1, [Call rxv.GetVolume])))
  /\ float_of_int (default 2 None) = inr 2%float
  /\ cli.up_command Sim.receiver None Sim.idle =
       (Normal tt, Sim.with_volume (-19)%float Sim.idle,
        [Call rxv.GetVolume; Call (rxv.SetVolume (-19)%float);
         Out Stdout Plain [Flt (-19)%float]]).
Proof.
  split; [| split; reflexivity].
  intros avr points v d d1 Hget.
  unfold cli.up_command, cli.down_command.
  split.
  - intros x Hx. repeat split.
    + rewrite up_unfold.
      apply (adjust_volume_calls avr _ operator_add v x d d1 Hget Hx).
    + intros d2 Hset. rewrite up_unfold.
      apply (adjust_volume_accepted avr _ operator_add v x d d1 d2
               Hget Hx Hset).
    + intros text d2 Hset. rewrite up_unfold.
      apply (adjust_volume_rejected avr _ operator_add v x text d d1 d2
               Hget Hx Hset).
    + rewrite down_unfold.
      apply (adjust_volume_calls avr _ operator_sub v x d d1 Hget Hx).
    + intros d2 Hset. rewrite down_unfold.
      apply (adjust_volume_accepted avr _ operator_sub v x d d1 d2
               Hget Hx Hset).
    + intros text d2 Hset. rewrite down_unfold.
      apply (adjust_volume_rejected avr _ operator_sub v x text d d1 d2
               Hget Hx Hset).
  - intros e He. split.
    + rewrite up_unfold.
      apply (adjust_volume_overflow avr _ operator_add v e d d1 Hget He).
    + rewrite down_unfold.
      apply (adjust_volume_overflow avr _ operator_sub v e d d1 Hget He).
Qed.

Lemma relative_volume_witness :
  (rxv.get_volume Sim.receiver Sim.idle = (rxv.Returns (-20)%float, Sim.idle)
   /\ float_of_int (default 2 (Some 3)) = inr 3%float
   /\ rxv.get_volume Sim.receiver (Sim.rejecting "Busy")
      = (rxv.Returns (-20)%float, Sim.rejecting "Busy")
   /\ float_of_int (default 2 (Some (2 ^ 1024)))
      = inl (OverflowError "int too large to convert to float"))
  /\ calls (trace (cli.up_command Sim.receiver (Some 3) Sim.idle)) =
       [rxv.GetVolume; rxv.SetVolume (-18.5)%float]
  /\ cli.down_command Sim.receiver (Some 3) Sim.idle =
       (Normal tt, Sim.with_volume (-21.5)%float Sim.idle,
        [Call rxv.GetVolume; Call (rxv.SetVolume (-21.5)%float);
         Out Stdout Plain [Flt (-21.5)%float]])
  /\ cli.down_command Sim.receiver (Some 3) (Sim.rejecting "Busy") =
       (Normal tt, Sim.rejecting "Busy",
        [Call rxv.GetVolume; Call (rxv.SetVolume (-21.5)%float);
         Out Stdout Red [Txt "New volume must be out of range."]])
  /\ cli.down_command Sim.receiver (Some (2 ^ 1024)) Sim.idle =
       (Raise (OverflowError "int too large to convert to float"), Sim.idle,
        [Call rxv.GetVolume]).
Proof.
  assert (Hbig : float_of_int (default 2 (Some (2 ^ 1024)))
                 = inl (OverflowError "int too large to convert to float")).
  { vm_compute. reflexivity. }
  destruct relative_volume as [Hgen _].
  destruct (Hgen Sim.receiver (Some 3) (-20)%float Sim.idle Sim.idle eq_refl)
    as [Hfits _].
  destruct (Hfits 3%float eq_refl) as [[Hup _] [_ [Hdown _]]].
  destruct (Hgen Sim.receiver (Some 3) (-20)%float (Sim.rejecting "Busy")
              (Sim.rejecting "Busy") eq_refl) as [Hfits' _].
  destruct (Hfits' 3%float eq_refl) as [_ [_ [_ Hrejected]]].
  destruct (Hgen Sim.receiver (Some (2 ^ 1024)) (-20)%float Sim.idle Sim.idle
              eq_refl) as [_ Hover].
  destruct (Hover _ Hbig) as [_ Hdown_over].
  split; [repeat split; try reflexivity; exact Hbig |].
  split; [exact Hup |].
  split; [apply (Hdown (Sim.with_volume (-21.5)%float Sim.idle)); reflexivity |].
  split; [apply (Hrejected "Busy" (Sim.rejecting "Busy")); reflexivity |].
  exact Hdown_over.
Defined.

(** C10 as stated fails at the far end of "every integer": with
    [- 2 ^ 1024] points neither [up] nor [down] sends the receiver any
    volume; both read the volume and end with [OverflowError]. *)
Lemma huge_negative_count_sends_nothing :
  cli.up Sim.receiver (- 2 ^ 1024) Sim.idle =
    (Raise (OverflowError "int too large to convert to float"), Sim.idle,
     [Call rxv.GetVolume])
  /\ cli.down Sim.receiver (- 2 ^ 1024) Sim.idle =
    (Raise (OverflowError "int too large to convert to float"), Sim.idle,
     [Call rxv.GetVolume])
  /\ writes (trace (cli.up Sim.receiver (- 2 ^ 1024) Sim.idle)) = []
  /\ writes (trace (cli.down Sim.receiver (- 2 ^ 1024) Sim.idle)) = [].
Proof. repeat split; vm_compute; reflexivity. Qed.

(** C10, amended.  The points of [up] and [down] are not checked for
    their sign.  For every integer [n] that converts to a float [x],
    zero and negative ones too, [up] sends [v + x * 0.5] and [down]
    sends [v - x * 0.5] for the current volume [v]; an [n] that does not
    convert ends both commands with the error of the conversion after
    the volume is read, nothing sent.  There is no path on which the
    count is refused for its sign: for every [n] other than zero, [up]
    with [-n] runs exactly as [down] with [n], and [down] with [-n] as
    [up] with [n], so a negative count turns the adjustment round. *)
Theorem points_not_validated (avr : rxv.RXV) (n : Z) (v : float)
    (d d1 : rxv.dev avr) :
  rxv.get_volume avr d = (rxv.Returns v, d1) ->
  match float_of_int n with
  | inr x =>
      calls (trace (cli.up avr n d)) =
        [rxv.GetVolume; rxv.SetVolume (v + x * 0.5)%float]
      /\ calls (trace (cli.down avr n d)) =
        [rxv.GetVolume; rxv.SetVolume (v - x * 0.5)%float]
  | inl e =>
      cli.up avr n d = (Raise e, d1, [Call rxv.GetVolume])
      /\ cli.down avr n d = (Raise e, d1, [Call rxv.GetVolume])
  end
  /\ (n <> 0 ->
      cli.up avr (- n) d = cli.down avr n d
      /\ cli.down avr (- n) d = cli.up avr n d).
Proof.
  intros Hget. split.
  - destruct (float_of_int n) as [e | x] eqn:Hx; split.
    + rewrite up_unfold.
      apply (adjust_volume_overflow avr n operator_add v e d d1 Hget Hx).
    + rewrite down_unfold.
      apply (adjust_volume_overflow avr n operator_sub v e d d1 Hget Hx).
    + rewrite up_unfold.
      apply (adjust_volume_calls avr n operator_add v x d d1 Hget Hx).
    + rewrite down_unfold.
      apply (adjust_volume_calls avr n operator_sub v x d d1 Hget Hx).
  - intros Hn. split.
    + apply up_negative_is_down. assumption.
    + apply down_negative_is_up. assumption.
Qed.

Lemma points_not_validated_witness :
  rxv.get_volume Sim.receiver Sim.idle = (rxv.Returns (-20)%float, Sim.idle)
  /\ calls (trace (cli.up Sim.receiver (-2) Sim.idle)) =
       [rxv.GetVolume; rxv.SetVolume (-21)%float]
  /\ calls (trace (cli.down Sim.receiver (-2) Sim.idle)) =
       [rxv.GetVolume; rxv.SetVolume (-19)%float]
  /\ calls (trace (cli.up Sim.receiver 0 Sim.idle)) =
       [rxv.GetVolume; rxv.SetVolume (-20)%float]
  /\ cli.up Sim.receiver (- -2) Sim.idle = cli.down Sim.receiver (-2) Sim.idle
  /\ cli.down Sim.receiver (2 ^ 1024) Sim.idle =
       (Raise (OverflowError "int too large to convert to float"), Sim.idle,
        [Call rxv.GetVolume]).
Proof.
  assert (Hminus : float_of_int (-2) = inr (-2)%float) by reflexivity.
  assert (Hzero : float_of_int 0 = inr 0%float) by reflexivity.
  assert (Hbig : float_of_int (2 ^ 1024)
                 = inl (OverflowError "int too large to convert to float")).
  { vm_compute. reflexivity. }
  pose proof (points_not_validated Sim.receiver (-2) (-20)%float
                Sim.idle Sim.idle eq_refl) as [Hsent Hinv].
  pose proof (points_not_validated Sim.receiver 0 (-20)%float
                Sim.idle Sim.idle eq_refl) as [Hnone _].
  pose proof (points_not_validated Sim.receiver (2 ^ 1024) (-20)%float
                Sim.idle Sim.idle eq_refl) as [Hover _].
  rewrite Hminus in Hsent. rewrite Hzero in Hnone. rewrite Hbig in Hover.
  destruct Hsent as [Hup Hdown]. destruct Hnone as [Hup0 _].
  destruct Hover as [_ Hdown_over].
  split; [reflexivity |].
  split; [exact Hup |].
  split; [exact Hdown |].
  split; [exact Hup0 |].
  split; [apply Hinv; discriminate |].
  exact Hdown_over.
Defined.

(** *** Sorting the menu entries *)

Section Sorting.

Lemma item_le_total (a b : string * string) :
  item_le a b = false -> item_le b a = true.
Proof.
  unfold item_le, str_le.
  rewrite (String.compare_antisym b.1 a.1), (String.compare_antisym b.2 a.2).
  destruct (String.compare a.1 b.1); simpl; try discriminate; try reflexivity.
  destruct (String.compare a.2 b.2); simpl; try discriminate; reflexivity.
Qed.

Lemma insert_item_perm (x : string * string) (l : list (string * string)) :
  insert_item x l ≡ₚ x :: l.
Proof.
  induction l as [| y r IH]; simpl; [reflexivity |].
  destruct (item_le x y); [reflexivity |].
  rewrite IH. apply Permutation_swap.
Qed.

Lemma sorted_perm (l : list (string * string)) : sorted l ≡ₚ l.
Proof.
  induction l as [| x r IH]; simpl; [reflexivity |].
  rewrite insert_item_perm, IH. reflexivity.
Qed.

Lemma insert_item_hd (x a : string * string) (l : list (string * string)) :
  items_le a x -> HdRel items_le a l -> HdRel items_le a (insert_item x l).
Proof.
  intros Hax Hal. destruct l as [| y r]; simpl.
  - constructor. exact Hax.
  - destruct (item_le x y); constructor; [exact Hax |].
    inversion Hal; assumption.
Qed.

Lemma insert_item_sorted (x : string * string) (l : list (string * string)) :
  Sorted items_le l -> Sorted items_le (insert_item x l).
Proof.
  induction 1 as [| y r Hr IH Hhd]; simpl.
  - repeat constructor.
  - destruct (item_le x y) eqn:Hxy.
    + constructor; [constructor; assumption |]. constructor. exact Hxy.
    + constructor; [exact IH |].
      apply insert_item_hd; [| exact Hhd].
      apply item_le_total. exact Hxy.
Qed.

Lemma sorted_sorted (l : list (string * string)) : Sorted items_le (sorted l).
Proof.
  induction l as [| x r IH]; simpl; [constructor |].
  apply insert_item_sorted. exact IH.
Qed.

(** With keys that are all different, tuple order is key order. *)
Lemma sorted_by_key (l : list (string * string)) :
  NoDup l.*1 -> Sorted items_le l -> Sorted Spec.by_position l.
Proof.
  intros Hnd Hs. induction Hs as [| a r Hr IH Hhd]; [constructor |].
  simpl in Hnd. apply NoDup_cons in Hnd as [Ha Hnd].
  constructor; [apply IH; exact Hnd |].
  destruct Hhd as [| b r' Hab]; constructor.
  unfold Spec.by_position. unfold items_le, item_le in Hab.
  destruct (String.compare a.1 b.1) eqn:Hc; [| reflexivity | discriminate].
  apply String.compare_eq_iff in Hc. exfalso. apply Ha.
  rewrite Hc. simpl. left.
Qed.

(** The listing of a menu: every entry once, in the order of the keys. *)
Lemma menu_listing_sorted (m : gmap string string) :
  sorted (map_to_list m) ≡ₚ map_to_list m
  /\ Sorted Spec.by_position (sorted (map_to_list m)).
Proof.
  split; [apply sorted_perm |].
  apply sorted_by_key; [| apply sorted_sorted].
  rewrite sorted_perm. apply NoDup_fst_map_to_list.
Qed.

End Sorting.

(** *** The menu command *)

Section Menu.
Context (avr : rxv.RXV).

(** The loop over the entries prints one line for each, in order. *)
Lemma for_entries (l : list (string * string)) (d : rxv.dev avr) :
  cli.for_ avr l (fun item => cli.print avr (cli.menu_entry item)) d =
    (Normal tt, d, cli.entry_lines l).
Proof.
  induction l as [| x r IH]; [reflexivity |].
  simpl. unfold Run.bind at 1. unfold cli.print at 1, Run.write at 1.
  rewrite IH. reflexivity.
Qed.

Lemma not_menu_operation (command : string) :
  (forall r op, ~ In (command, (r, op)) (Spec.menu_operations avr)) ->
  in_list command ["up"; "down"; "left"; "right"; "select"; "return"] = false.
Proof.
  intros Hnot. apply not_true_is_false. intros Hin.
  unfold in_list in Hin. simpl in Hin.
  rewrite !orb_true_iff, !String.eqb_eq in Hin.
  destruct Hin as [-> | [-> | [-> | [-> | [-> | [-> | Hf]]]]]];
    [ apply (Hnot rxv.MenuUp (rxv.menu_up avr))
    | apply (Hnot rxv.MenuDown (rxv.menu_down avr))
    | apply (Hnot rxv.MenuLeft (rxv.menu_left avr))
    | apply (Hnot rxv.MenuRight (rxv.menu_right avr))
    | apply (Hnot rxv.MenuSel (rxv.menu_sel avr))
    | apply (Hnot rxv.MenuReturn (rxv.menu_return avr))
    | discriminate Hf ];
    simpl; tauto.
Qed.

(** Ready menu, token that is no menu command: the fixed line, and the
    status is not read again. *)
Lemma menu_unrecognized (command : string) (status : rxv.MenuStatus)
    (d d1 : rxv.dev avr) :
  rxv.menu_status avr d = (rxv.Returns status, d1) ->
  rxv.ready status = true ->
  str_bool command = true ->
  (forall r op, ~ In (command, (r, op)) (Spec.menu_operations avr)) ->
  cli.menu avr (Some command) d =
    (Normal tt, d1,
     [Call rxv.GetMenuStatus;
      Out Stdout Plain [Txt cli.invalid_menu_command]]).
Proof.
  intros Hstatus Hready Hne Hnot. apply not_menu_operation in Hnot.
  unfold_run. rewrite Hstatus, Hready, Hne, Hnot. reflexivity.
Qed.

(** Ready menu, menu command: its one navigation call, then the status
    read afresh and listed. *)
Lemma menu_recognized (command : string) (r : rxv.request)
    (op : rxv.dev avr -> rxv.reply unit * rxv.dev avr)
    (status status2 : rxv.MenuStatus) (d d1 d2 d3 : rxv.dev avr) :
  rxv.menu_status avr d = (rxv.Returns status, d1) ->
  rxv.ready status = true ->
  In (command, (r, op)) (Spec.menu_operations avr) ->
  op d1 = (rxv.Returns tt, d2) ->
  rxv.menu_status avr d2 = (rxv.Returns status2, d3) ->
  cli.menu avr (Some command) d =
    (Normal tt, d3,
     [Call rxv.GetMenuStatus;
      Out Stdout Plain
        [Txt ("Sending menu command " +:+ command +:+ " to receiver")];
      Call r;
      Call rxv.GetMenuStatus;
      Out Stdout Plain (cli.menu_header status2)]
     ++ cli.entry_lines (sorted (map_to_list (rxv.current_list status2))))%list.
Proof.
  intros Hstatus Hready Hin Hop Hstatus2.
  simpl in Hin.
  destruct Hin as [H | [H | [H | [H | [H | [H | []]]]]]];
    injection H as <- <- <-;
    unfold_run; rewrite Hstatus, Hready; simpl; rewrite Hop; simpl;
    rewrite Hstatus2; simpl;
    rewrite (for_entries _ d3); reflexivity.
Qed.

End Menu.

(** C8. The empty token.  [rxvc menu ''] supplies a token that is none
    of [up], [down], [left], [right], [select], [return]; the menu being
    ready, it is to get the fixed "not a valid menu control command"
    line, and the status is not to be read or listed again.  The handler
    does otherwise: [if command:] takes the empty string for no token at
    all, so [menu] runs exactly as without argument, on every receiver:
    the status is read a second time and listed, header and entries, and
    the fixed line is not written.  Any other token that is not of the
    six gets the fixed line, as [sideways] does here. *)
Theorem menu_empty_token_lists_status :
  rxv.ready (Sim.net_radio true) = true
  /\ (forall r op, ~ In ("", (r, op)) (Spec.menu_operations Sim.receiver))
  /\ cli.menu Sim.receiver (Some "") Sim.idle =
       (Normal tt, Sim.idle,
        [Call rxv.GetMenuStatus;
         Call rxv.GetMenuStatus;
         Out Stdout Plain
           [Txt (String "010"%char "Ready: "); Bln true;
            Txt (String "010"%char "Layer: "); Int 1;
            Txt (String "010"%char "Name: NET RADIO" +:+
                 String "010"%char (String "010"%char "Total lines: "));
            Int 3;
            Txt (String "010"%char "")];
         Out Stdout Plain [Txt "*  Bookmarks"];
         Out Stdout Plain [Txt "*  Podcasts"];
         Out Stdout Plain [Txt "*  Radio"]])
  /\ ~ In (Out Stdout Plain
             [Txt ("That's not a valid menu control command. Valid commands "
                   +:+ "include 'up', 'down', 'left', 'right', 'select' and "
                   +:+ "'return'.")])
          (trace (cli.menu Sim.receiver (Some "") Sim.idle))
  /\ cli.menu Sim.receiver (Some "sideways") Sim.idle =
       (Normal tt, Sim.idle,
        [Call rxv.GetMenuStatus;
         Out Stdout Plain
           [Txt ("That's not a valid menu control command. Valid commands "
                 +:+ "include 'up', 'down', 'left', 'right', 'select' and "
                 +:+ "'return'.")]])
  /\ (forall (avr : rxv.RXV) (d : rxv.dev avr),
        cli.menu avr (Some "") d = cli.menu avr None d).
Proof.
  split; [reflexivity |].
  split.
  { intros r op Hin. simpl in Hin.
    destruct Hin as [H | [H | [H | [H | [H | [H | []]]]]]]; discriminate H. }
  split; [vm_compute; reflexivity |].
  split.
  { vm_compute. intros Hin.
    repeat (destruct Hin as [Hin | Hin]; [discriminate Hin |]).
    exact Hin. }
  split; [vm_compute; reflexivity |].
  intros avr d. reflexivity.
Qed.

(** X23. Menu dispatch for a token that is not empty, the menu being
    ready.  A token that is none of [up], [down], [left], [right],
    [select], [return] gets the fixed "not a valid menu control command"
    line and the handler returns: the status is neither read nor listed
    again.  A token of the table makes exactly its own navigation call;
    after it the status is read afresh and listed: the header with the
    fields of the fresh status, then one line for each entry of its
    list, every entry once, in the order of the positions. *)
Theorem menu_dispatch (avr : rxv.RXV) (command : string)
    (status : rxv.MenuStatus) (d d1 : rxv.dev avr) :
  rxv.menu_status avr d = (rxv.Returns status, d1) ->
  rxv.ready status = true ->
  str_bool command = true ->
  ((forall r op, ~ In (command, (r, op)) (Spec.menu_operations avr)) ->
   cli.menu avr (Some command) d =
     (Normal tt, d1,
      [Call rxv.GetMenuStatus;
       Out Stdout Plain
         [Txt ("That's not a valid menu control command. Valid commands "
               +:+ "include 'up', 'down', 'left', 'right', 'select' and "
               +:+ "'return'.")]]))
  /\
  (forall r op status2 d2 d3,
     In (command, (r, op)) (Spec.menu_operations avr) ->
     op d1 = (rxv.Returns tt, d2) ->
     rxv.menu_status avr d2 = (rxv.Returns status2, d3) ->
     let listing := sorted (map_to_list (rxv.current_list status2)) in
     let nl := String "010"%char "" in
     cli.menu avr (Some command) d =
       (Normal tt, d3,
        [Call rxv.GetMenuStatus;
         Out Stdout Plain
           [Txt ("Sending menu command " +:+ command +:+ " to receiver")];
         Call r;
         Call rxv.GetMenuStatus;
         Out Stdout Plain
           [Txt (nl +:+ "Ready: "); Bln (rxv.ready status2);
            Txt (nl +:+ "Layer: "); Int (rxv.layer status2);
            Txt (nl +:+ "Name: " +:+ rxv.name status2 +:+ nl +:+ nl +:+
                 "Total lines: ");
            Int (rxv.max_line status2);
            Txt nl]]
        ++ map (fun item => Out Stdout Plain [Txt ("*  " +:+ item.2)]) listing)%list
     /\ writes (trace (cli.menu avr (Some command) d)) = [r]
     /\ listing ≡ₚ map_to_list (rxv.current_list status2)
     /\ Sorted Spec.by_position listing).
Proof.
  intros Hstatus Hready Hne. split.
  - apply (menu_unrecognized avr command status d d1 Hstatus Hready Hne).
  - intros r op status2 d2 d3 Hin Hop Hstatus2 listing nl.
    pose proof (menu_recognized avr command r op status status2 d d1 d2 d3
                  Hstatus Hready Hin Hop Hstatus2) as Hrun.
    fold listing in Hrun. rewrite Hrun.
    split; [reflexivity |].
    split.
    + unfold trace, writes, calls. simpl.
      assert (Hlines : forall l,
                 omap (fun e => match e with
                                | Call r0 => Some r0
                                | Out _ _ _ => None
                                end) (cli.entry_lines l) = []).
      { induction l as [| x l IH]; [reflexivity | exact IH]. }
      rewrite Hlines.
      simpl in Hin.
      destruct Hin as [H | [H | [H | [H | [H | [H | []]]]]]];
        injection H as <- <- <-; reflexivity.
    + apply menu_listing_sorted.
Qed.

Lemma menu_dispatch_witness :
  (rxv.menu_status Sim.receiver Sim.idle
     = (rxv.Returns (Sim.net_radio true), Sim.idle)
   /\ rxv.ready (Sim.net_radio true) = true
   /\ str_bool "select" = true
   /\ In ("select", (rxv.MenuSel, rxv.menu_sel Sim.receiver))
        (Spec.menu_operations Sim.receiver))
  /\ cli.menu Sim.receiver (Some "sideways") Sim.idle =
       (Normal tt, Sim.idle,
        [Call rxv.GetMenuStatus;
         Out Stdout Plain [Txt cli.invalid_menu_command]])
  /\ cli.menu Sim.receiver (Some "select") Sim.idle =
       (Normal tt, Sim.idle,
        [Call rxv.GetMenuStatus;
         Out Stdout Plain [Txt "Sending menu command select to receiver"];
         Call rxv.MenuSel;
         Call rxv.GetMenuStatus;
         Out Stdout Plain
           [Txt (String "010"%char "Ready: "); Bln true;
            Txt (String "010"%char "Layer: "); Int 1;
            Txt (String "010"%char "Name: NET RADIO" +:+
                 String "010"%char (String "010"%char "Total lines: "));
            Int 3;
            Txt (String "010"%char "")];
         Out Stdout Plain [Txt "*  Bookmarks"];
         Out Stdout Plain [Txt "*  Podcasts"];
         Out Stdout Plain [Txt "*  Radio"]]).
Proof.
  pose proof (menu_dispatch Sim.receiver "sideways" (Sim.net_radio true)
                Sim.idle Sim.idle eq_refl eq_refl eq_refl) as [Hbad _].
  pose proof (menu_dispatch Sim.receiver "select" (Sim.net_radio true)
                Sim.idle Sim.idle eq_refl eq_refl eq_refl) as [_ Hgood].
  split.
  { repeat split; try reflexivity. simpl. tauto. }
  split.
  { apply Hbad. intros r op Hin. simpl in Hin.
    destruct Hin as [H | [H | [H | [H | [H | [H | []]]]]]]; discriminate H. }
  destruct (Hgood rxv.MenuSel (rxv.menu_sel Sim.receiver) (Sim.net_radio true)
              Sim.idle Sim.idle) as [Hrun _].
  - simpl. tauto.
  - reflexivity.
  - reflexivity.
  - rewrite Hrun. vm_compute. reflexivity.
Defined.

(** ** Beyond the claims: the rest of the handlers *)

Import PyMore.

(** *** Sorting *)

Section SortedBy.
Context {A : Type} (le : A -> A -> bool).

Lemma insert_by_perm (x : A) (l : list A) : insert_by le x l ≡ₚ x :: l.
Proof.
  induction l as [| y r IH]; simpl; [reflexivity |].
  destruct (le x y); [reflexivity |].
  rewrite IH. apply Permutation_swap.
Qed.

Lemma sorted_by_perm (l : list A) : sorted_by le l ≡ₚ l.
Proof.
  induction l as [| x r IH]; simpl; [reflexivity |].
  rewrite insert_by_perm, IH. reflexivity.
Qed.

Hypothesis le_total : forall a b, le a b = false -> le b a = true.
Hypothesis le_trans :
  forall a b c, le a b = true -> le b c = true -> le a c = true.

Lemma insert_by_sorted (x : A) (l : list A) :
  StronglySorted (ascending le) l ->
  StronglySorted (ascending le) (insert_by le x l).
Proof.
  induction 1 as [| y r Hr IH Hall]; simpl.
  - repeat constructor.
  - destruct (le x y) eqn:Hxy.
    + constructor; [constructor; assumption |].
      constructor; [exact Hxy |].
      eapply Forall_impl; [exact Hall |].
      intros z Hyz. exact (le_trans x y z Hxy Hyz).
    + constructor; [exact IH |].
      rewrite insert_by_perm. constructor; [| exact Hall].
      apply le_total. exact Hxy.
Qed.

Lemma sorted_by_sorted (l : list A) :
  StronglySorted (ascending le) (sorted_by le l).
Proof.
  induction l as [| x r IH]; simpl; [constructor |].
  apply insert_by_sorted. exact IH.
Qed.

End SortedBy.

Section StringOrder.

Lemma str_compare_trans (a b c : string) :
  String.compare a b <> Gt -> String.compare b c <> Gt ->
  String.compare a c <> Gt.
Proof.
  revert b c. induction a as [| x a IH]; intros [| y b] [| z c]; simpl;
    try congruence.
  unfold Ascii.compare.
  destruct (N.compare_spec (N_of_ascii x) (N_of_ascii y)) as [Hxy | Hxy | Hxy],
           (N.compare_spec (N_of_ascii y) (N_of_ascii z)) as [Hyz | Hyz | Hyz],
           (N.compare_spec (N_of_ascii x) (N_of_ascii z)) as [Hxz | Hxz | Hxz];
    try congruence; try lia.
  apply IH.
Qed.

Lemma str_le_total (a b : string) : str_le a b = false -> str_le b a = true.
Proof.
  unfold str_le. rewrite (String.compare_antisym b a).
  destruct (String.compare a b); simpl; try discriminate; reflexivity.
Qed.

Lemma str_le_trans (a b c : string) :
  str_le a b = true -> str_le b c = true -> str_le a c = true.
Proof.
  unfold str_le. intros Hab Hbc.
  pose proof (str_compare_trans a b c) as H.
  destruct (String.compare a b), (String.compare b c),
    (String.compare a c); try discriminate; try reflexivity;
    exfalso; apply H; congruence.
Qed.

Lemma output_le_total (a b : string * bool) :
  output_le a b = false -> output_le b a = true.
Proof.
  unfold output_le, bool_le. rewrite (String.compare_antisym b.1 a.1).
  destruct (String.compare a.1 b.1); simpl; try discriminate;
    try reflexivity.
  destruct a.2, b.2; simpl; try discriminate; reflexivity.
Qed.

(** Sorted names: the same names, each as often as before, and every
    name at most the names after it. *)
Lemma sorted_names (names : list string) :
  sorted_by str_le names ≡ₚ names
  /\ StronglySorted (ascending str_le) (sorted_by str_le names).
Proof.
  split; [apply sorted_by_perm |].
  apply sorted_by_sorted; [exact str_le_total | exact str_le_trans].
Qed.

End StringOrder.

Section OutputOrder.

Lemma str_compare_refl (a : string) : String.compare a a = Eq.
Proof.
  pose proof (String.compare_antisym a a) as H.
  destruct (String.compare a a); try reflexivity; discriminate H.
Qed.

Lemma str_compare_lt_trans (a b c : string) :
  String.compare a b = Lt -> String.compare b c = Lt ->
  String.compare a c = Lt.
Proof.
  intros Hab Hbc.
  pose proof (str_compare_trans a b c) as Hle.
  destruct (String.compare a c) eqn:Hac; [| reflexivity |].
  - apply String.compare_eq_iff in Hac. subst c.
    rewrite (String.compare_antisym b a), Hab in Hbc. discriminate Hbc.
  - exfalso. apply Hle; congruence.
Qed.

Lemma output_le_trans (a b c : string * bool) :
  output_le a b = true -> output_le b c = true -> output_le a c = true.
Proof.
  destruct a as [a1 a2], b as [b1 b2], c as [c1 c2].
  unfold output_le, bool_le. simpl.
  destruct (String.compare a1 b1) eqn:Hab; try discriminate;
    destruct (String.compare b1 c1) eqn:Hbc; try discriminate.
  - apply String.compare_eq_iff in Hab, Hbc. subst b1 c1.
    rewrite str_compare_refl. destruct a2, b2, c2; simpl; congruence.
  - apply String.compare_eq_iff in Hab. subst b1. rewrite Hbc. reflexivity.
  - apply String.compare_eq_iff in Hbc. subst c1. rewrite Hab. reflexivity.
  - rewrite (str_compare_lt_trans a1 b1 c1 Hab Hbc). reflexivity.
Qed.

End OutputOrder.

(** *** [status] and [outputs] *)

Section ReadOnly.
Context (avr : rxv.RXV).

Lemma for_output_lines (l : list (string * bool)) (d : rxv.dev avr) :
  cli.for_ avr l (fun output => cli.print avr (cli_read.output_line output)) d
  = (Normal tt, d,
     map (fun output => Out Stdout Plain (cli_read.output_line output)) l).
Proof.
  induction l as [| x r IH]; [reflexivity |].
  simpl. unfold Run.bind at 1. unfold cli.print at 1, Run.write at 1.
  rewrite IH. reflexivity.
Qed.

End ReadOnly.

(** X1. [outputs] asks the receiver once for its outputs and prints one
    line for each, "* name: state": every output of the mapping once,
    ordered as Python orders the [(name, state)] tuples, which for a
    mapping is the order of the names.  It writes nothing to the
    receiver. *)
Theorem outputs_listing (avr : rxv.RXV) (outs : gmap string bool)
    (d d1 : rxv.dev avr) :
  rxv.outputs avr d = (rxv.Returns outs, d1) ->
  let listing := sorted_by output_le (map_to_list outs) in
  cli_read.outputs avr d =
    (Normal tt, d1,
     Call rxv.GetOutputs ::
       map (fun output => Out Stdout Plain (cli_read.output_line output))
         listing)
  /\ listing ≡ₚ map_to_list outs
  /\ StronglySorted (ascending output_le) listing
  /\ (forall name state,
        In (name, state) listing <-> outs !! name = Some state).
Proof.
  intros Houts listing. split; [| split; [| split]].
  - unfold cli_read.outputs, Run.def, Run.bind, cli.avr_outputs, Run.invoke.
    rewrite Houts. fold listing. rewrite for_output_lines. reflexivity.
  - apply sorted_by_perm.
  - apply sorted_by_sorted; [exact output_le_total | exact output_le_trans].
  - intros name state. rewrite <- list_elem_of_In.
    unfold listing. rewrite sorted_by_perm.
    apply elem_of_map_to_list.
Qed.

Lemma outputs_listing_witness :
  rxv.outputs Sim.receiver Sim.idle
    = (rxv.Returns (Sim.s_outputs Sim.idle), Sim.idle)
  /\ cli_read.outputs Sim.receiver Sim.idle =
       (Normal tt, Sim.idle,
        [Call rxv.GetOutputs;
         Out Stdout Plain [Txt "* hdmi1: "; Bln true];
         Out Stdout Plain [Txt "* zoneB: "; Bln false]]).
Proof.
  split; [reflexivity |].
  destruct (outputs_listing Sim.receiver (Sim.s_outputs Sim.idle)
              Sim.idle Sim.idle eq_refl) as [Hrun _].
  rewrite Hrun. vm_compute. reflexivity.
Defined.

(** *** The named settings *)

Ltac unfold_names :=
  unfold cli_names.inputs, cli_names.input, cli_names.sps, cli_names.sp,
    cli_names.zones, cli_names.zone, cli_names.scenes, cli_names.scene,
    cli_names.if_str, cli_names.print,
    cli_names.avr_inputs, cli_names.avr_input, cli_names.avr_set_input,
    cli_names.avr_surround_programs, cli_names.avr_surround_program,
    cli_names.avr_set_surround_program, cli_names.avr_zones,
    cli_names.avr_zone, cli_names.avr_set_zone, cli_names.avr_scenes,
    cli_names.avr_scene, cli_names.avr_set_scene,
    Eff.def, Eff.bind, Eff.invoke, Eff.emit, Eff.ret.

Section Names.
Import rxv_names.
Context (avr : Receiver).

Lemma in_list_In (x : string) (l : list string) :
  in_list x l = true <-> In x l.
Proof.
  unfold in_list. rewrite existsb_exists. split.
  - intros [y [Hy Heq]]. apply String.eqb_eq in Heq. subst y. exact Hy.
  - intros Hx. exists x. split; [exact Hx | apply String.eqb_refl].
Qed.

Lemma in_list_not_In (x : string) (l : list string) :
  ~ In x l -> in_list x l = false.
Proof. intros H. apply not_true_is_false. rewrite in_list_In. exact H. Qed.

Lemma for_name_lines (l : list string) (d : dev avr) :
  cli_names.for_ avr l (fun name => cli_names.print2 avr "* " name) d
  = (Normal tt, d, cli_names.name_lines l).
Proof.
  induction l as [| x r IH]; [reflexivity |].
  simpl. unfold Eff.bind at 1.
  unfold cli_names.print2 at 1, cli_names.print at 1, Eff.emit at 1.
  rewrite IH. reflexivity.
Qed.

Lemma name_lines_calls (l : list string) : calls (cli_names.name_lines l) = [].
Proof. induction l as [| x r IH]; [reflexivity | exact IH]. Qed.

(** A name is on a line of the listing exactly when it is one of the
    names listed. *)
Lemma name_line_In (name : string) (l : list string) :
  In (Out Stdout Plain [Txt ("* " +:+ " " +:+ name)]) (cli_names.name_lines l)
  <-> In name l.
Proof.
  unfold cli_names.name_lines. rewrite in_map_iff. split.
  - intros [x [Heq Hx]]. simpl in Heq. injection Heq as Heq.
    change (x = name) in Heq. subst x. exact Hx.
  - intros Hx. exists name. split; [reflexivity | exact Hx].
Qed.

End Names.

(** X2. [inputs] asks the receiver once for its input names and prints
    them, one "*  name" line each: the same names, each as often as the
    receiver gave it, in ascending order of Python's string comparison.
    It writes nothing to the receiver. *)
Theorem inputs_listing (avr : rxv_names.Receiver) (names : list string)
    (d d1 : rxv_names.dev avr) :
  rxv_names.inputs avr d = (rxv.Returns names, d1) ->
  let listing := sorted_by str_le names in
  cli_names.inputs avr d =
    (Normal tt, d1,
     rxv_names.Call rxv_names.GetInputs :: cli_names.name_lines listing)
  /\ listing ≡ₚ names
  /\ StronglySorted (ascending str_le) listing
  /\ rxv_names.writes (cli_names.inputs avr d).2 = [].
Proof.
  intros Hnames listing.
  assert (Hrun : cli_names.inputs avr d =
            (Normal tt, d1,
             rxv_names.Call rxv_names.GetInputs ::
               cli_names.name_lines listing)).
  { unfold_names. rewrite Hnames. fold listing.
    rewrite (for_name_lines avr listing d1). reflexivity. }
  split; [exact Hrun |].
  split; [apply sorted_by_perm |].
  split; [apply sorted_names |].
  rewrite Hrun. unfold rxv_names.writes. simpl.
  rewrite name_lines_calls. reflexivity.
Qed.

Lemma inputs_listing_witness :
  rxv_names.inputs SimNames.receiver SimNames.idle
    = (rxv.Returns ["HDMI2"; "AV1"; "HDMI1"], SimNames.idle)
  /\ cli_names.inputs SimNames.receiver SimNames.idle =
       (Normal tt, SimNames.idle,
        [rxv_names.Call rxv_names.GetInputs;
         rxv_names.Out Stdout Plain [Txt "*  AV1"];
         rxv_names.Out Stdout Plain [Txt "*  HDMI1"];
         rxv_names.Out Stdout Plain [Txt "*  HDMI2"]]).
Proof.
  split; [reflexivity |].
  destruct (inputs_listing SimNames.receiver ["HDMI2"; "AV1"; "HDMI1"]
              SimNames.idle SimNames.idle eq_refl) as [Hrun _].
  exact Hrun.
Defined.

(** X3. [sps], [zones] and [scenes] print their heading before they ask
    the receiver for the names.  When the receiver answers, the names
    follow, sorted, one "*  name" line each; when the call fails, the
    heading is already out and the failure leaves the handler. *)
Theorem headed_listings (avr : rxv_names.Receiver)
    (d d1 : rxv_names.dev avr) :
  (forall names,
     rxv_names.surround_programs avr d = (rxv.Returns names, d1) ->
     cli_names.sps avr d =
       (Normal tt, d1,
        rxv_names.Out Stdout Plain
          [Txt "Valid surround programs for this receiver are:"] ::
        rxv_names.Call rxv_names.GetSurroundPrograms ::
        cli_names.name_lines (sorted_by str_le names)))
  /\ (forall e,
        rxv_names.surround_programs avr d = (rxv.Raises e, d1) ->
        cli_names.sps avr d =
          (Raise e, d1,
           [rxv_names.Out Stdout Plain
              [Txt "Valid surround programs for this receiver are:"];
            rxv_names.Call rxv_names.GetSurroundPrograms]))
  /\ (forall names,
        rxv_names.zones avr d = (rxv.Returns names, d1) ->
        cli_names.zones avr d =
          (Normal tt, d1,
           rxv_names.Out Stdout Plain
             [Txt "Configured zones for this receiver are:"] ::
           rxv_names.Call rxv_names.GetZones ::
           cli_names.name_lines (sorted_by str_le names)))
  /\ (forall e,
        rxv_names.zones avr d = (rxv.Raises e, d1) ->
        cli_names.zones avr d =
          (Raise e, d1,
           [rxv_names.Out Stdout Plain
              [Txt "Configured zones for this receiver are:"];
            rxv_names.Call rxv_names.GetZones]))
  /\ (forall names,
        rxv_names.scenes avr d = (rxv.Returns names, d1) ->
        cli_names.scenes avr d =
          (Normal tt, d1,
           rxv_names.Out Stdout Plain
             [Txt "Valid scenes for this receiver are:"] ::
           rxv_names.Call rxv_names.GetScenes ::
           cli_names.name_lines (sorted_by str_le names)))
  /\ (forall e,
        rxv_names.scenes avr d = (rxv.Raises e, d1) ->
        cli_names.scenes avr d =
          (Raise e, d1,
           [rxv_names.Out Stdout Plain
              [Txt "Valid scenes for this receiver are:"];
            rxv_names.Call rxv_names.GetScenes])).
Proof.
  repeat split; intros x Hx; unfold_names; rewrite Hx;
    try reflexivity;
    rewrite (for_name_lines avr _ d1); reflexivity.
Qed.

Lemma headed_listings_witness :
  rxv_names.zones SimNames.receiver SimNames.idle
    = (rxv.Returns ["HDMI2"; "AV1"; "HDMI1"], SimNames.idle)
  /\ cli_names.zones SimNames.receiver SimNames.idle =
       (Normal tt, SimNames.idle,
        [rxv_names.Out Stdout Plain
           [Txt "Configured zones for this receiver are:"];
         rxv_names.Call rxv_names.GetZones;
         rxv_names.Out Stdout Plain [Txt "*  AV1"];
         rxv_names.Out Stdout Plain [Txt "*  HDMI1"];
         rxv_names.Out Stdout Plain [Txt "*  HDMI2"]]).
Proof.
  split; [reflexivity |].
  destruct (headed_listings SimNames.receiver SimNames.idle SimNames.idle)
    as (_ & _ & Hzones & _).
  apply (Hzones ["HDMI2"; "AV1"; "HDMI1"]). reflexivity.
Defined.

Section NameValidation.
Import rxv_names.
Context (avr : Receiver).

Lemma input_accepted (first : string) (rest names : list string)
    (r : rxv.reply unit) (d d1 d2 : dev avr) :
  inputs avr d = (rxv.Returns names, d1) ->
  In first names ->
  set_input avr first d1 = (r, d2) ->
  cli_names.input avr (first :: rest) d =
    (Eff.ends r, d2,
     [Call GetInputs;
      Out Stdout Plain [Txt ("Setting receiver input to " +:+ first)];
      Call (SetInput first)]).
Proof.
  intros Hnames Hin Hset. unfold_names.
  rewrite Hnames, (proj2 (in_list_In first names) Hin), Hset.
  destruct r as [[] | e]; reflexivity.
Qed.

Lemma input_refused (first : string) (rest names : list string)
    (d d1 : dev avr) :
  inputs avr d = (rxv.Returns names, d1) ->
  ~ In first names ->
  cli_names.input avr (first :: rest) d =
    (Normal tt, d1,
     [Call GetInputs; Out Stdout Plain [Txt cli_names.invalid_input]]).
Proof.
  intros Hnames Hin. unfold_names.
  rewrite Hnames, (in_list_not_In first names Hin). reflexivity.
Qed.

Lemma sp_accepted (name : string) (names : list string)
    (r : rxv.reply unit) (d d1 d2 : dev avr) :
  str_bool name = true ->
  surround_programs avr d = (rxv.Returns names, d1) ->
  In name names ->
  set_surround_program avr name d1 = (r, d2) ->
  cli_names.sp avr (Some name) d =
    (Eff.ends r, d2,
     [Call GetSurroundPrograms;
      Out Stdout Plain
        [Txt ("Setting receiver surround program to " +:+ name)];
      Call (SetSurroundProgram name)]).
Proof.
  intros Hne Hnames Hin Hset. unfold_names.
  rewrite Hne, Hnames, (proj2 (in_list_In name names) Hin), Hset.
  destruct r as [[] | e]; reflexivity.
Qed.

Lemma sp_refused (name : string) (names : list string) (d d1 : dev avr) :
  str_bool name = true ->
  surround_programs avr d = (rxv.Returns names, d1) ->
  ~ In name names ->
  cli_names.sp avr (Some name) d =
    (Normal tt, d1,
     [Call GetSurroundPrograms;
      Out Stdout Plain [Txt cli_names.invalid_sp]]).
Proof.
  intros Hne Hnames Hin. unfold_names.
  rewrite Hne, Hnames, (in_list_not_In name names Hin). reflexivity.
Qed.

Lemma zone_accepted (name : string) (names : list string)
    (r : rxv.reply unit) (d d1 d2 : dev avr) :
  str_bool name = true ->
  zones avr d = (rxv.Returns names, d1) ->
  In name names ->
  set_zone avr name d1 = (r, d2) ->
  cli_names.zone avr (Some name) d =
    (Eff.ends r, d2,
     [Call GetZones;
      Out Stdout Plain [Txt ("Setting receiver zone to " +:+ name)];
      Call (SetZone name)]).
Proof.
  intros Hne Hnames Hin Hset. unfold_names.
  rewrite Hne, Hnames, (proj2 (in_list_In name names) Hin), Hset.
  destruct r as [[] | e]; reflexivity.
Qed.

Lemma zone_refused (name : string) (names : list string) (d d1 : dev avr) :
  str_bool name = true ->
  zones avr d = (rxv.Returns names, d1) ->
  ~ In name names ->
  cli_names.zone avr (Some name) d =
    (Normal tt, d1,
     [Call GetZones; Out Stdout Plain [Txt cli_names.invalid_zone]]).
Proof.
  intros Hne Hnames Hin. unfold_names.
  rewrite Hne, Hnames, (in_list_not_In name names Hin). reflexivity.
Qed.

Lemma scene_accepted (name : string) (names : list string)
    (r : rxv.reply unit) (d d1 d2 : dev avr) :
  str_bool name = true ->
  scenes avr d = (rxv.Returns names, d1) ->
  In name names ->
  set_scene avr name d1 = (r, d2) ->
  cli_names.scene avr (Some name) d =
    (Eff.ends r, d2,
     [Call GetScenes;
      Out Stdout Plain [Txt ("Setting receiver scene to " +:+ name)];
      Call (SetScene name)]).
Proof.
  intros Hne Hnames Hin Hset. unfold_names.
  rewrite Hne, Hnames, (proj2 (in_list_In name names) Hin), Hset.
  destruct r as [[] | e]; reflexivity.
Qed.

Lemma scene_refused (name : string) (names : list string) (d d1 : dev avr) :
  str_bool name = true ->
  scenes avr d = (rxv.Returns names, d1) ->
  ~ In name names ->
  cli_names.scene avr (Some name) d =
    (Normal tt, d1,
     [Call GetScenes; Out Stdout Plain [Txt cli_names.invalid_scene]]).
Proof.
  intros Hne Hnames Hin. unfold_names.
  rewrite Hne, Hnames, (in_list_not_In name names Hin). reflexivity.
Qed.

End NameValidation.

(** X4. [input] looks at its first argument only.  A first argument that
    is one of the names the receiver reports is announced and then
    written, as it was given, with the one call [avr.input = name]; a
    failure of that write is not caught.  Any other first argument, the
    empty string included, gets the "not a valid input" line and nothing
    is written.  Further arguments change nothing. *)
Theorem input_validation (avr : rxv_names.Receiver) (first : string)
    (rest names : list string) (d d1 : rxv_names.dev avr) :
  rxv_names.inputs avr d = (rxv.Returns names, d1) ->
  (In first names ->
   forall r d2,
     rxv_names.set_input avr first d1 = (r, d2) ->
     cli_names.input avr (first :: rest) d =
       (Eff.ends r, d2,
        [rxv_names.Call rxv_names.GetInputs;
         rxv_names.Out Stdout Plain
           [Txt ("Setting receiver input to " +:+ first)];
         rxv_names.Call (rxv_names.SetInput first)]))
  /\ (~ In first names ->
      cli_names.input avr (first :: rest) d =
        (Normal tt, d1,
         [rxv_names.Call rxv_names.GetInputs;
          rxv_names.Out Stdout Plain [Txt cli_names.invalid_input]]))
  /\ cli_names.input avr (first :: rest) d = cli_names.input avr [first] d.
Proof.
  intros Hnames. split; [| split].
  - intros Hin r d2 Hset.
    apply (input_accepted avr first rest names r d d1 d2 Hnames Hin Hset).
  - apply (input_refused avr first rest names d d1 Hnames).
  - reflexivity.
Qed.

Lemma input_validation_witness :
  rxv_names.inputs SimNames.receiver SimNames.idle
    = (rxv.Returns ["HDMI2"; "AV1"; "HDMI1"], SimNames.idle)
  /\ cli_names.input SimNames.receiver ["AV1"; "now"] SimNames.idle =
       (Normal tt, SimNames.select "AV1" SimNames.idle,
        [rxv_names.Call rxv_names.GetInputs;
         rxv_names.Out Stdout Plain [Txt "Setting receiver input to AV1"];
         rxv_names.Call (rxv_names.SetInput "AV1")])
  /\ cli_names.input SimNames.receiver ["av1"] SimNames.idle =
       (Normal tt, SimNames.idle,
        [rxv_names.Call rxv_names.GetInputs;
         rxv_names.Out Stdout Plain [Txt cli_names.invalid_input]])
  /\ cli_names.input SimNames.receiver [""] SimNames.idle =
       (Normal tt, SimNames.idle,
        [rxv_names.Call rxv_names.GetInputs;
         rxv_names.Out Stdout Plain [Txt cli_names.invalid_input]]).
Proof.
  split; [reflexivity |].
  destruct (input_validation SimNames.receiver "AV1" ["now"]
              ["HDMI2"; "AV1"; "HDMI1"] SimNames.idle SimNames.idle eq_refl)
    as (Hok & _ & _).
  destruct (input_validation SimNames.receiver "av1" []
              ["HDMI2"; "AV1"; "HDMI1"] SimNames.idle SimNames.idle eq_refl)
    as (_ & Hcase & _).
  destruct (input_validation SimNames.receiver "" []
              ["HDMI2"; "AV1"; "HDMI1"] SimNames.idle SimNames.idle eq_refl)
    as (_ & Hempty & _).
  split.
  { apply (Hok ltac:(simpl; tauto) (rxv.Returns tt)
             (SimNames.select "AV1" SimNames.idle)).
    reflexivity. }
  split.
  { apply Hcase. simpl. intros [H | [H | [H | []]]]; discriminate H. }
  apply Hempty. simpl. intros [H | [H | [H | []]]]; discriminate H.
Defined.

(** X5. [sp], [zone] and [scene] with an argument: a name among those
    the receiver reports is announced and written with one call, as it
    was given, and a failure of the write is not caught; any other name
    gets the handler's "not a valid ..." line and nothing is written.
    The comparison is exact: no trimming, no change of case. *)
Theorem setting_validation (avr : rxv_names.Receiver) (name : string)
    (names : list string) (d d1 : rxv_names.dev avr) :
  str_bool name = true ->
  (rxv_names.surround_programs avr d = (rxv.Returns names, d1) ->
   (In name names ->
    forall r d2,
      rxv_names.set_surround_program avr name d1 = (r, d2) ->
      cli_names.sp avr (Some name) d =
        (Eff.ends r, d2,
         [rxv_names.Call rxv_names.GetSurroundPrograms;
          rxv_names.Out Stdout Plain
            [Txt ("Setting receiver surround program to " +:+ name)];
          rxv_names.Call (rxv_names.SetSurroundProgram name)]))
   /\ (~ In name names ->
       cli_names.sp avr (Some name) d =
         (Normal tt, d1,
          [rxv_names.Call rxv_names.GetSurroundPrograms;
           rxv_names.Out Stdout Plain [Txt cli_names.invalid_sp]])))
  /\
  (rxv_names.zones avr d = (rxv.Returns names, d1) ->
   (In name names ->
    forall r d2,
      rxv_names.set_zone avr name d1 = (r, d2) ->
      cli_names.zone avr (Some name) d =
        (Eff.ends r, d2,
         [rxv_names.Call rxv_names.GetZones;
          rxv_names.Out Stdout Plain
            [Txt ("Setting receiver zone to " +:+ name)];
          rxv_names.Call (rxv_names.SetZone name)]))
   /\ (~ In name names ->
       cli_names.zone avr (Some name) d =
         (Normal tt, d1,
          [rxv_names.Call rxv_names.GetZones;
           rxv_names.Out Stdout Plain [Txt cli_names.invalid_zone]])))
  /\
  (rxv_names.scenes avr d = (rxv.Returns names, d1) ->
   (In name names ->
    forall r d2,
      rxv_names.set_scene avr name d1 = (r, d2) ->
      cli_names.scene avr (Some name) d =
        (Eff.ends r, d2,
         [rxv_names.Call rxv_names.GetScenes;
          rxv_names.Out Stdout Plain
            [Txt ("Setting receiver scene to " +:+ name)];
          rxv_names.Call (rxv_names.SetScene name)]))
   /\ (~ In name names ->
       cli_names.scene avr (Some name) d =
         (Normal tt, d1,
          [rxv_names.Call rxv_names.GetScenes;
           rxv_names.Out Stdout Plain [Txt cli_names.invalid_scene]]))).
Proof.
  intros Hne. split; [| split]; intros Hnames; split.
  - intros Hin r d2 Hset.
    apply (sp_accepted avr name names r d d1 d2 Hne Hnames Hin Hset).
  - apply (sp_refused avr name names d d1 Hne Hnames).
  - intros Hin r d2 Hset.
    apply (zone_accepted avr name names r d d1 d2 Hne Hnames Hin Hset).
  - apply (zone_refused avr name names d d1 Hne Hnames).
  - intros Hin r d2 Hset.
    apply (scene_accepted avr name names r d d1 d2 Hne Hnames Hin Hset).
  - apply (scene_refused avr name names d d1 Hne Hnames).
Qed.

Lemma setting_validation_witness :
  (str_bool "HDMI2" = true
   /\ rxv_names.scenes SimNames.receiver SimNames.idle
        = (rxv.Returns ["HDMI2"; "AV1"; "HDMI1"], SimNames.idle))
  /\ cli_names.scene SimNames.receiver (Some "HDMI2") SimNames.idle =
       (Normal tt, SimNames.select "HDMI2" SimNames.idle,
        [rxv_names.Call rxv_names.GetScenes;
         rxv_names.Out Stdout Plain [Txt "Setting receiver scene to HDMI2"];
         rxv_names.Call (rxv_names.SetScene "HDMI2")])
  /\ cli_names.sp SimNames.receiver (Some "HDMI2 ") SimNames.idle =
       (Normal tt, SimNames.idle,
        [rxv_names.Call rxv_names.GetSurroundPrograms;
         rxv_names.Out Stdout Plain [Txt cli_names.invalid_sp]]).
Proof.
  destruct (setting_validation SimNames.receiver "HDMI2"
              ["HDMI2"; "AV1"; "HDMI1"] SimNames.idle SimNames.idle eq_refl)
    as (_ & _ & Hscene).
  destruct (setting_validation SimNames.receiver "HDMI2 "
              ["HDMI2"; "AV1"; "HDMI1"] SimNames.idle SimNames.idle eq_refl)
    as (Hsp & _ & _).
  split; [split; reflexivity |].
  split.
  - destruct (Hscene eq_refl) as [Hok _].
    apply (Hok ltac:(simpl; tauto) (rxv.Returns tt)
             (SimNames.select "HDMI2" SimNames.idle)).
    reflexivity.
  - destruct (Hsp eq_refl) as [_ Hbad]. apply Hbad.
    simpl. intros [H | [H | [H | []]]]; discriminate H.
Defined.

Section NamesAgree.
Import rxv_names.
Context (avr : Receiver).

Lemma In_sorted_names (name : string) (names : list string) :
  In name (sorted_by str_le names) <-> In name names.
Proof.
  rewrite <- !list_elem_of_In. rewrite sorted_by_perm. reflexivity.
Qed.

Lemma inputs_run (names : list string) (d d1 : dev avr) :
  inputs avr d = (rxv.Returns names, d1) ->
  cli_names.inputs avr d =
    (Normal tt, d1,
     Call GetInputs :: cli_names.name_lines (sorted_by str_le names)).
Proof.
  intros Hnames. unfold_names. rewrite Hnames.
  rewrite (for_name_lines avr _ d1). reflexivity.
Qed.

Lemma sps_run (names : list string) (d d1 : dev avr) :
  surround_programs avr d = (rxv.Returns names, d1) ->
  cli_names.sps avr d =
    (Normal tt, d1,
     Out Stdout Plain [Txt "Valid surround programs for this receiver are:"] ::
     Call GetSurroundPrograms ::
     cli_names.name_lines (sorted_by str_le names)).
Proof.
  intros Hnames. unfold_names. rewrite Hnames.
  rewrite (for_name_lines avr _ d1). reflexivity.
Qed.

Lemma zones_run (names : list string) (d d1 : dev avr) :
  zones avr d = (rxv.Returns names, d1) ->
  cli_names.zones avr d =
    (Normal tt, d1,
     Out Stdout Plain [Txt "Configured zones for this receiver are:"] ::
     Call GetZones ::
     cli_names.name_lines (sorted_by str_le names)).
Proof.
  intros Hnames. unfold_names. rewrite Hnames.
  rewrite (for_name_lines avr _ d1). reflexivity.
Qed.

Lemma scenes_run (names : list string) (d d1 : dev avr) :
  scenes avr d = (rxv.Returns names, d1) ->
  cli_names.scenes avr d =
    (Normal tt, d1,
     Out Stdout Plain [Txt "Valid scenes for this receiver are:"] ::
     Call GetScenes ::
     cli_names.name_lines (sorted_by str_le names)).
Proof.
  intros Hnames. unfold_names. rewrite Hnames.
  rewrite (for_name_lines avr _ d1). reflexivity.
Qed.

(** A name is on a "*  name" line after a heading and a call exactly
    when it is among the names. *)
Lemma listed_after_heading (name heading : string) (r : request)
    (names : list string) :
  (forall x, heading <> "* " +:+ " " +:+ x) ->
  In (Out Stdout Plain [Txt ("* " +:+ " " +:+ name)])
     (Out Stdout Plain [Txt heading] :: Call r ::
      cli_names.name_lines (sorted_by str_le names))
  <-> In name names.
Proof.
  intros Hheading. simpl. rewrite name_line_In, In_sorted_names.
  split; [| tauto]. intros [H | [H | H]]; [| discriminate H | exact H].
  exfalso. injection H as H. apply (Hheading name). exact H.
Qed.

End NamesAgree.

(** X6. What [inputs] lists is what [input] takes.  On a receiver in one
    state, a name has its "*  name" line in the output of [inputs]
    exactly when [input] with that name writes it to the receiver; for
    every other name [input] writes nothing. *)
Theorem listed_inputs_are_accepted (avr : rxv_names.Receiver)
    (name : string) (names : list string) (d d1 : rxv_names.dev avr) :
  rxv_names.inputs avr d = (rxv.Returns names, d1) ->
  (In (rxv_names.Out Stdout Plain [Txt ("* " +:+ " " +:+ name)])
      (cli_names.inputs avr d).2
   <-> rxv_names.writes (cli_names.input avr [name] d).2
       = [rxv_names.SetInput name])
  /\ (rxv_names.writes (cli_names.input avr [name] d).2
        = [rxv_names.SetInput name]
      \/ rxv_names.writes (cli_names.input avr [name] d).2 = []).
Proof.
  intros Hnames. rewrite (inputs_run avr names d d1 Hnames).
  assert (Hlisted :
    In (rxv_names.Out Stdout Plain [Txt ("* " +:+ " " +:+ name)])
       (rxv_names.Call rxv_names.GetInputs ::
        cli_names.name_lines (sorted_by str_le names)) <-> In name names).
  { simpl. rewrite name_line_In, In_sorted_names.
    split; [| tauto]. intros [H | H]; [discriminate H | exact H]. }
  simpl snd. rewrite Hlisted.
  destruct (in_list name names) eqn:Hin.
  - apply in_list_In in Hin.
    destruct (rxv_names.set_input avr name d1) as [r d2] eqn:Hset.
    rewrite (input_accepted avr name [] names r d d1 d2 Hnames Hin Hset).
    split; [| left; reflexivity]. split; [reflexivity | intros _; exact Hin].
  - assert (Hnot : ~ In name names).
    { intros H. apply in_list_In in H. congruence. }
    rewrite (input_refused avr name [] names d d1 Hnames Hnot).
    split; [| right; reflexivity].
    split; [intros H; contradiction | intros H; discriminate H].
Qed.

Lemma listed_inputs_are_accepted_witness :
  rxv_names.inputs SimNames.receiver SimNames.idle
    = (rxv.Returns ["HDMI2"; "AV1"; "HDMI1"], SimNames.idle)
  /\ In (rxv_names.Out Stdout Plain [Txt "*  AV1"])
        (cli_names.inputs SimNames.receiver SimNames.idle).2
  /\ rxv_names.writes (cli_names.input SimNames.receiver ["AV1"] SimNames.idle).2
     = [rxv_names.SetInput "AV1"].
Proof.
  destruct (listed_inputs_are_accepted SimNames.receiver "AV1"
              ["HDMI2"; "AV1"; "HDMI1"] SimNames.idle SimNames.idle eq_refl)
    as [Hiff _].
  split; [reflexivity |].
  assert (Hlisted : In (rxv_names.Out Stdout Plain [Txt "*  AV1"])
                      (cli_names.inputs SimNames.receiver SimNames.idle).2).
  { vm_compute. tauto. }
  split; [exact Hlisted |].
  apply Hiff. exact Hlisted.
Defined.

Section SettingsAgree.
Import rxv_names.
Context (avr : Receiver).

Lemma sp_writes (name : string) (names : list string) (d d1 : dev avr) :
  str_bool name = true ->
  surround_programs avr d = (rxv.Returns names, d1) ->
  (In name names <->
   writes (cli_names.sp avr (Some name) d).2 = [SetSurroundProgram name]).
Proof.
  intros Hne Hnames. destruct (in_list name names) eqn:Hin.
  - apply in_list_In in Hin.
    destruct (set_surround_program avr name d1) as [r d2] eqn:Hset.
    rewrite (sp_accepted avr name names r d d1 d2 Hne Hnames Hin Hset).
    split; [reflexivity | intros _; exact Hin].
  - assert (Hnot : ~ In name names).
    { intros H. apply in_list_In in H. congruence. }
    rewrite (sp_refused avr name names d d1 Hne Hnames Hnot).
    split; [intros H; contradiction | intros H; discriminate H].
Qed.

Lemma zone_writes (name : string) (names : list string) (d d1 : dev avr) :
  str_bool name = true ->
  zones avr d = (rxv.Returns names, d1) ->
  (In name names <->
   writes (cli_names.zone avr (Some name) d).2 = [SetZone name]).
Proof.
  intros Hne Hnames. destruct (in_list name names) eqn:Hin.
  - apply in_list_In in Hin.
    destruct (set_zone avr name d1) as [r d2] eqn:Hset.
    rewrite (zone_accepted avr name names r d d1 d2 Hne Hnames Hin Hset).
    split; [reflexivity | intros _; exact Hin].
  - assert (Hnot : ~ In name names).
    { intros H. apply in_list_In in H. congruence. }
    rewrite (zone_refused avr name names d d1 Hne Hnames Hnot).
    split; [intros H; contradiction | intros H; discriminate H].
Qed.

Lemma scene_writes (name : string) (names : list string) (d d1 : dev avr) :
  str_bool name = true ->
  scenes avr d = (rxv.Returns names, d1) ->
  (In name names <->
   writes (cli_names.scene avr (Some name) d).2 = [SetScene name]).
Proof.
  intros Hne Hnames. destruct (in_list name names) eqn:Hin.
  - apply in_list_In in Hin.
    destruct (set_scene avr name d1) as [r d2] eqn:Hset.
    rewrite (scene_accepted avr name names r d d1 d2 Hne Hnames Hin Hset).
    split; [reflexivity | intros _; exact Hin].
  - assert (Hnot : ~ In name names).
    { intros H. apply in_list_In in H. congruence. }
    rewrite (scene_refused avr name names d d1 Hne Hnames Hnot).
    split; [intros H; contradiction | intros H; discriminate H].
Qed.

End SettingsAgree.

(** X7. What [sps], [zones] and [scenes] list is what [sp], [zone] and
    [scene] take: on a receiver in one state, a non-empty name has its
    "*  name" line in the listing exactly when the setting command with
    that name writes it to the receiver. *)
Theorem listed_settings_are_accepted (avr : rxv_names.Receiver)
    (name : string) (names : list string) (d d1 : rxv_names.dev avr) :
  str_bool name = true ->
  (rxv_names.surround_programs avr d = (rxv.Returns names, d1) ->
   (In (rxv_names.Out Stdout Plain [Txt ("* " +:+ " " +:+ name)])
       (cli_names.sps avr d).2
    <-> rxv_names.writes (cli_names.sp avr (Some name) d).2
        = [rxv_names.SetSurroundProgram name]))
  /\ (rxv_names.zones avr d = (rxv.Returns names, d1) ->
      (In (rxv_names.Out Stdout Plain [Txt ("* " +:+ " " +:+ name)])
          (cli_names.zones avr d).2
       <-> rxv_names.writes (cli_names.zone avr (Some name) d).2
           = [rxv_names.SetZone name]))
  /\ (rxv_names.scenes avr d = (rxv.Returns names, d1) ->
      (In (rxv_names.Out Stdout Plain [Txt ("* " +:+ " " +:+ name)])
          (cli_names.scenes avr d).2
       <-> rxv_names.writes (cli_names.scene avr (Some name) d).2
           = [rxv_names.SetScene name])).
Proof.
  intros Hne. split; [| split]; intros Hnames.
  - rewrite (sps_run avr names d d1 Hnames). simpl snd.
    rewrite listed_after_heading by (intros x H; discriminate H).
    apply (sp_writes avr name names d d1 Hne Hnames).
  - rewrite (zones_run avr names d d1 Hnames). simpl snd.
    rewrite listed_after_heading by (intros x H; discriminate H).
    apply (zone_writes avr name names d d1 Hne Hnames).
  - rewrite (scenes_run avr names d d1 Hnames). simpl snd.
    rewrite listed_after_heading by (intros x H; discriminate H).
    apply (scene_writes avr name names d d1 Hne Hnames).
Qed.

Lemma listed_settings_are_accepted_witness :
  (str_bool "HDMI1" = true
   /\ rxv_names.zones SimNames.receiver SimNames.idle
        = (rxv.Returns ["HDMI2"; "AV1"; "HDMI1"], SimNames.idle))
  /\ In (rxv_names.Out Stdout Plain [Txt "*  HDMI1"])
        (cli_names.zones SimNames.receiver SimNames.idle).2
  /\ rxv_names.writes
       (cli_names.zone SimNames.receiver (Some "HDMI1") SimNames.idle).2
     = [rxv_names.SetZone "HDMI1"].
Proof.
  destruct (listed_settings_are_accepted SimNames.receiver "HDMI1"
              ["HDMI2"; "AV1"; "HDMI1"] SimNames.idle SimNames.idle eq_refl)
    as (_ & Hzones & _).
  split; [split; reflexivity |].
  assert (Hlisted : In (rxv_names.Out Stdout Plain [Txt "*  HDMI1"])
                      (cli_names.zones SimNames.receiver SimNames.idle).2).
  { vm_compute. tauto. }
  split; [exact Hlisted |].
  apply (Hzones eq_refl). exact Hlisted.
Defined.

(** X8. Without an argument [input], [sp], [zone] and [scene] read the
    current setting once and print it ([input] after the words "Current
    input is"), and write nothing.  [sp], [zone] and [scene] take an
    empty argument for no argument; [input] does not: its empty first
    argument is checked against the names like any other, refused with
    the fixed line when it is none of them and set when it is one, and
    the current input is not read on either path. *)
Theorem no_argument_reads (avr : rxv_names.Receiver) (current : string)
    (d d1 : rxv_names.dev avr) :
  (rxv_names.get_input avr d = (rxv.Returns current, d1) ->
   cli_names.input avr [] d =
     (Normal tt, d1,
      [rxv_names.Call rxv_names.GetInput;
       rxv_names.Out Stdout Plain
         [Txt ("Current input is" +:+ " " +:+ current)]]))
  /\ (rxv_names.get_surround_program avr d = (rxv.Returns current, d1) ->
      cli_names.sp avr None d =
        (Normal tt, d1,
         [rxv_names.Call rxv_names.GetSurroundProgram;
          rxv_names.Out Stdout Plain [Txt current]]))
  /\ (rxv_names.get_zone avr d = (rxv.Returns current, d1) ->
      cli_names.zone avr None d =
        (Normal tt, d1,
         [rxv_names.Call rxv_names.GetZone;
          rxv_names.Out Stdout Plain [Txt current]]))
  /\ (rxv_names.get_scene avr d = (rxv.Returns current, d1) ->
      cli_names.scene avr None d =
        (Normal tt, d1,
         [rxv_names.Call rxv_names.GetScene;
          rxv_names.Out Stdout Plain [Txt current]]))
  /\ cli_names.sp avr (Some "") d = cli_names.sp avr None d
  /\ cli_names.zone avr (Some "") d = cli_names.zone avr None d
  /\ cli_names.scene avr (Some "") d = cli_names.scene avr None d
  /\ (forall names,
        rxv_names.inputs avr d = (rxv.Returns names, d1) ->
        (~ In "" names ->
         cli_names.input avr [""] d =
           (Normal tt, d1,
            [rxv_names.Call rxv_names.GetInputs;
             rxv_names.Out Stdout Plain
               [Txt ("That's not a valid input. Run `rxvc inputs' to" +:+
                     "get a list of them.")]]))
        /\ (In "" names ->
            forall r d2,
              rxv_names.set_input avr "" d1 = (r, d2) ->
              cli_names.input avr [""] d =
                (Eff.ends r, d2,
                 [rxv_names.Call rxv_names.GetInputs;
                  rxv_names.Out Stdout Plain
                    [Txt "Setting receiver input to "];
                  rxv_names.Call (rxv_names.SetInput "")]))
        /\ ~ In rxv_names.GetInput
               (rxv_names.calls (cli_names.input avr [""] d).2)).
Proof.
  repeat split; try (intros H; unfold_names; unfold cli_names.print2;
                     unfold cli_names.print, Eff.emit;
                     rewrite H; reflexivity).
  - intros Hout. apply (input_refused avr "" [] names d d1 H Hout).
  - intros Hin r d2 Hset.
    apply (input_accepted avr "" [] names r d d1 d2 H Hin Hset).
  - revert H. intros Hnames. unfold_names. rewrite Hnames.
    destruct (in_list "" names); simpl.
    + destruct (rxv_names.set_input avr "" d1) as [[[] | e] d2]; simpl;
        intros [Hc | [Hc | []]]; discriminate Hc.
    + intros [Hc | []]; discriminate Hc.
Qed.

Lemma no_argument_reads_witness :
  rxv_names.get_input SimNames.receiver SimNames.idle
    = (rxv.Returns "HDMI1", SimNames.idle)
  /\ cli_names.input SimNames.receiver [] SimNames.idle =
       (Normal tt, SimNames.idle,
        [rxv_names.Call rxv_names.GetInput;
         rxv_names.Out Stdout Plain [Txt "Current input is HDMI1"]])
  /\ cli_names.scene SimNames.receiver (Some "") SimNames.idle =
       (Normal tt, SimNames.idle,
        [rxv_names.Call rxv_names.GetScene;
         rxv_names.Out Stdout Plain [Txt "HDMI1"]])
  /\ cli_names.input SimNames.receiver [""] SimNames.idle =
       (Normal tt, SimNames.idle,
        [rxv_names.Call rxv_names.GetInputs;
         rxv_names.Out Stdout Plain
           [Txt ("That's not a valid input. Run `rxvc inputs' to" +:+
                 "get a list of them.")]]).
Proof.
  destruct (no_argument_reads SimNames.receiver "HDMI1" SimNames.idle
              SimNames.idle)
    as (Hinput & _ & _ & Hscene & _ & _ & Hempty & Hfirst).
  destruct (Hfirst ["HDMI2"; "AV1"; "HDMI1"] eq_refl) as (Hrefused & _ & _).
  split; [reflexivity |].
  split; [apply Hinput; reflexivity |].
  split; [rewrite Hempty; apply Hscene; reflexivity |].
  apply Hrefused. simpl. intros [H | [H | [H | []]]]; discriminate H.
Defined.

(** *** The command group and the cache *)

Ltac unfold_group :=
  unfold cli_group.cli, cli_group.cache_clear, cli_group.cache_cached_receiver,
    cli_group.cache_find_receiver, cli_group.cache_cache_receiver,
    Eff.bind, Eff.invoke, Eff.emit, Eff.ret.

Section Group.
Context (c : cache.Cache).

Lemma cli_hit (s s1 : cache.store c) (r : cache.receiver c) :
  cache.cached_receiver c s = (rxv.Returns (Some r), s1) ->
  cli_group.cli c false s =
    (Normal r, s1, [cache.Call cache.CachedReceiver]).
Proof. intros Hhit. unfold_group. rewrite Hhit. reflexivity. Qed.

Lemma cli_miss (s s1 s2 s3 : cache.store c) (r : cache.receiver c) :
  cache.cached_receiver c s = (rxv.Returns None, s1) ->
  cache.find_receiver c s1 = (rxv.Returns r, s2) ->
  cache.cache_receiver c r s2 = (rxv.Returns tt, s3) ->
  cli_group.cli c false s =
    (Normal r, s3,
     [cache.Call cache.CachedReceiver; cache.Call cache.FindReceiver;
      cache.Call (cache.CacheReceiver r)]).
Proof.
  intros Hmiss Hfind Hstore. unfold_group.
  rewrite Hmiss, Hfind, Hstore. reflexivity.
Qed.

Lemma cli_clear (s s1 : cache.store c) :
  cache.clear c s = (rxv.Returns tt, s1) ->
  cli_group.cli c true s =
    (let '(r, s2, l) := cli_group.cli c false s1 in
     (r, s2,
      cli_group.clearing c :: cache.Call cache.Clear :: l)).
Proof.
  intros Hclear. unfold_group. rewrite Hclear. simpl.
  destruct (cache.cached_receiver c s1) as [[[r |] | e] s2]; simpl;
    try reflexivity.
  destruct (cache.find_receiver c s2) as [[r | e] s3]; simpl;
    try reflexivity.
  destruct (cache.cache_receiver c r s3) as [[[] | e] s4]; reflexivity.
Qed.

End Group.

(** X9. The receiver of a run comes from the cache when there is one:
    then no discovery is made and nothing is stored.  When the cache has
    none, the receiver is looked for once, what is found is stored in
    the cache, and it is the receiver of the run. *)
Theorem cli_uses_the_cache (c : cache.Cache) (s s1 : cache.store c) :
  (forall r,
     cache.cached_receiver c s = (rxv.Returns (Some r), s1) ->
     cli_group.cli c false s =
       (Normal r, s1, [cache.Call cache.CachedReceiver]))
  /\ (forall r s2 s3,
        cache.cached_receiver c s = (rxv.Returns None, s1) ->
        cache.find_receiver c s1 = (rxv.Returns r, s2) ->
        cache.cache_receiver c r s2 = (rxv.Returns tt, s3) ->
        cli_group.cli c false s =
          (Normal r, s3,
           [cache.Call cache.CachedReceiver; cache.Call cache.FindReceiver;
            cache.Call (cache.CacheReceiver r)])).
Proof.
  split.
  - intros r. apply cli_hit.
  - intros r s2 s3. apply cli_miss.
Qed.

Lemma cli_uses_the_cache_witness :
  cli_group.cli SimCache.cache false (Some 3%nat) =
    (Normal 3%nat, Some 3%nat, [cache.Call cache.CachedReceiver])
  /\ cli_group.cli SimCache.cache false None =
    (Normal 7%nat, Some 7%nat,
     [cache.Call cache.CachedReceiver; cache.Call cache.FindReceiver;
      cache.Call (cache.CacheReceiver 7%nat)]).
Proof.
  destruct (cli_uses_the_cache SimCache.cache (Some 3%nat) (Some 3%nat))
    as [Hhit _].
  destruct (cli_uses_the_cache SimCache.cache None None) as [_ Hmiss].
  split.
  - apply Hhit. reflexivity.
  - apply (Hmiss 7%nat None (Some 7%nat)); reflexivity.
Defined.

(** X10. With [--clear] the run announces the clearing, clears the cache
    and then goes on exactly as a run without the flag on the cleared
    cache.  When clearing fails, nothing else is called. *)
Theorem cli_clear_first (c : cache.Cache) (s s1 : cache.store c) :
  (cache.clear c s = (rxv.Returns tt, s1) ->
   cli_group.cli c true s =
     (let '(r, s2, l) := cli_group.cli c false s1 in
      (r, s2, cli_group.clearing c :: cache.Call cache.Clear :: l)))
  /\ (forall e,
        cache.clear c s = (rxv.Raises e, s1) ->
        cli_group.cli c true s =
          (Raise e, s1, [cli_group.clearing c; cache.Call cache.Clear])).
Proof.
  split.
  - apply cli_clear.
  - intros e Hclear. unfold_group. rewrite Hclear. reflexivity.
Qed.

Lemma cli_clear_first_witness :
  cache.clear SimCache.cache (Some 3%nat) = (rxv.Returns tt, None)
  /\ cli_group.cli SimCache.cache true (Some 3%nat) =
       (Normal 7%nat, Some 7%nat,
        [cache.Out Stdout Plain
           [Txt "Clearing receiver cache as requested..."];
         cache.Call cache.Clear; cache.Call cache.CachedReceiver;
         cache.Call cache.FindReceiver;
         cache.Call (cache.CacheReceiver 7%nat)]).
Proof.
  destruct (cli_clear_first SimCache.cache (Some 3%nat) None) as [Hclear _].
  split; [reflexivity |].
  rewrite (Hclear eq_refl). reflexivity.
Defined.

(** X11. Run after run.  On a cache that gives back what was stored in
    it and that a look-up leaves as it is, a run that ended well is
    followed by runs that make no discovery: the next run without
    [--clear] takes the same receiver from the cache with the one
    look-up, and leaves the cache as it found it. *)
Theorem second_run_skips_discovery (c : cache.Cache) :
  (forall s x s1,
     cache.cached_receiver c s = (rxv.Returns x, s1) ->
     cache.cached_receiver c s1 = (rxv.Returns x, s1)) ->
  (forall r s s1,
     cache.cache_receiver c r s = (rxv.Returns tt, s1) ->
     cache.cached_receiver c s1 = (rxv.Returns (Some r), s1)) ->
  forall (clear : bool) (s s1 : cache.store c) (r : cache.receiver c)
         (l : list (cache.event (cache.receiver c))),
    cli_group.cli c clear s = (Normal r, s1, l) ->
    cli_group.cli c false s1 =
      (Normal r, s1, [cache.Call cache.CachedReceiver]).
Proof.
  intros Hread Hstored clear s s1 r l Hrun.
  apply cli_hit.
  assert (Hplain : forall s0 l0,
            cli_group.cli c false s0 = (Normal r, s1, l0) ->
            cache.cached_receiver c s1 = (rxv.Returns (Some r), s1)).
  { intros s0 l0. unfold_group.
    destruct (cache.cached_receiver c s0) as [[[r0 |] | e] s2] eqn:Hlook;
      simpl.
    - intros H. injection H as -> -> _. apply (Hread s0 _ _ Hlook).
    - destruct (cache.find_receiver c s2) as [[r0 | e] s3]; simpl;
        [| discriminate].
      destruct (cache.cache_receiver c r0 s3) as [[[] | e] s4] eqn:Hst;
        simpl; [| discriminate].
      intros H. injection H as -> -> _. apply (Hstored _ _ _ Hst).
    - discriminate. }
  destruct clear.
  - destruct (cache.clear c s) as [[[] | e] s0] eqn:Hclear.
    + rewrite (cli_clear c s s0 Hclear) in Hrun.
      destruct (cli_group.cli c false s0) as [[r0 s2] l0] eqn:Hnext.
      injection Hrun as -> -> _. apply (Hplain s0 l0 Hnext).
    + exfalso. revert Hrun. unfold_group. rewrite Hclear. discriminate.
  - apply (Hplain s l Hrun).
Qed.

Lemma second_run_skips_discovery_witness :
  cli_group.cli SimCache.cache true (Some 3%nat) =
    (Normal 7%nat, Some 7%nat,
     [cli_group.clearing SimCache.cache; cache.Call cache.Clear;
      cache.Call cache.CachedReceiver; cache.Call cache.FindReceiver;
      cache.Call (cache.CacheReceiver 7%nat)])
  /\ cli_group.cli SimCache.cache false (Some 7%nat) =
    (Normal 7%nat, Some 7%nat, [cache.Call cache.CachedReceiver]).
Proof.
  split; [reflexivity |].
  refine (second_run_skips_discovery SimCache.cache _ _ true (Some 3%nat)
            (Some 7%nat) 7%nat _ eq_refl).
  - intros s x s1 H. simpl in *. injection H as -> ->. reflexivity.
  - intros r s s1 H. simpl in *. injection H as ->. reflexivity.
Defined.

(** *** Playback *)

Section Playback.
Context (avr : rxv.RXV).

Lemma not_playback_operation (command : string) :
  (forall r op, ~ In (command, (r, op)) (Transport.operations avr)) ->
  in_list command ["play"; "stop"; "pause"; "next"; "previous"] = false.
Proof.
  intros Hnot. apply not_true_is_false. intros Hin.
  unfold in_list in Hin. simpl in Hin.
  rewrite !orb_true_iff, !String.eqb_eq in Hin.
  destruct Hin as [-> | [-> | [-> | [-> | [-> | Hf]]]]];
    [ apply (Hnot rxv.Play (rxv.play avr))
    | apply (Hnot rxv.Stop (rxv.stop avr))
    | apply (Hnot rxv.Pause (rxv.pause avr))
    | apply (Hnot rxv.Next (rxv.next avr))
    | apply (Hnot rxv.Previous (rxv.previous avr))
    | discriminate Hf ];
    simpl; tauto.
Qed.

Lemma playback_unrecognized (command : string) (d d1 : rxv.dev avr) :
  rxv.is_playback_supported avr d = (rxv.Returns true, d1) ->
  str_bool command = true ->
  (forall r op, ~ In (command, (r, op)) (Transport.operations avr)) ->
  cli.playback avr (Some command) d =
    (Normal tt, d1,
     [Call rxv.IsPlaybackSupported;
      Out Stdout Plain [Txt Transport.invalid_command]]).
Proof.
  intros Hgate Hne Hnot. apply not_playback_operation in Hnot.
  unfold_run. rewrite Hgate, Hne, Hnot. reflexivity.
Qed.

Lemma playback_recognized (command : string) (r : rxv.request)
    (op : rxv.dev avr -> rxv.reply unit * rxv.dev avr)
    (a : rxv.reply unit) (d d1 d2 : rxv.dev avr) :
  rxv.is_playback_supported avr d = (rxv.Returns true, d1) ->
  In (command, (r, op)) (Transport.operations avr) ->
  op d1 = (a, d2) ->
  cli.playback avr (Some command) d =
    (Eff.ends a, d2,
     [Call rxv.IsPlaybackSupported;
      Out Stdout Plain [Txt ("Sending command " +:+ command +:+ " to receiver")];
      Call r]).
Proof.
  intros Hgate Hin Hop. simpl in Hin.
  destruct Hin as [H | [H | [H | [H | [H | []]]]]];
    injection H as <- <- <-;
    unfold_run; rewrite Hgate; simpl; rewrite Hop;
    destruct a as [[] | e]; reflexivity.
Qed.

End Playback.

(** X12. Playback, the active input supporting it.  A non-empty token
    that is none of [play], [stop], [pause], [next], [previous] gets the
    fixed "not a valid playback control command" line and nothing is
    sent.  A token of the table is announced and leads to its own call
    and no other; a failure of that call is not caught.  The play status
    is not read in either case. *)
Theorem playback_dispatch (avr : rxv.RXV) (command : string)
    (d d1 : rxv.dev avr) :
  rxv.is_playback_supported avr d = (rxv.Returns true, d1) ->
  str_bool command = true ->
  ((forall r op, ~ In (command, (r, op)) (Transport.operations avr)) ->
   cli.playback avr (Some command) d =
     (Normal tt, d1,
      [Call rxv.IsPlaybackSupported;
       Out Stdout Plain [Txt Transport.invalid_command]]))
  /\ (forall r op a d2,
        In (command, (r, op)) (Transport.operations avr) ->
        op d1 = (a, d2) ->
        cli.playback avr (Some command) d =
          (Eff.ends a, d2,
           [Call rxv.IsPlaybackSupported;
            Out Stdout Plain
              [Txt ("Sending command " +:+ command +:+ " to receiver")];
            Call r])).
Proof.
  intros Hgate Hne. split.
  - apply (playback_unrecognized avr command d d1 Hgate Hne).
  - intros r op a d2 Hin Hop.
    apply (playback_recognized avr command r op a d d1 d2 Hgate Hin Hop).
Qed.

Lemma playback_dispatch_witness :
  (rxv.is_playback_supported Sim.receiver Sim.idle
     = (rxv.Returns true, Sim.idle)
   /\ str_bool "next" = true)
  /\ cli.playback Sim.receiver (Some "next") Sim.idle =
       (Normal tt, Sim.idle,
        [Call rxv.IsPlaybackSupported;
         Out Stdout Plain [Txt "Sending command next to receiver"];
         Call rxv.Next])
  /\ cli.playback Sim.receiver (Some "Play") Sim.idle =
       (Normal tt, Sim.idle,
        [Call rxv.IsPlaybackSupported;
         Out Stdout Plain [Txt Transport.invalid_command]]).
Proof.
  destruct (playback_dispatch Sim.receiver "next" Sim.idle Sim.idle
              eq_refl eq_refl) as [_ Hgood].
  destruct (playback_dispatch Sim.receiver "Play" Sim.idle Sim.idle
              eq_refl eq_refl) as [Hbad _].
  split; [split; reflexivity |].
  split.
  - apply (Hgood rxv.Next (rxv.next Sim.receiver) (rxv.Returns tt) Sim.idle);
      [simpl; tauto | reflexivity].
  - apply Hbad. intros r op Hin. simpl in Hin.
    destruct Hin as [H | [H | [H | [H | [H | []]]]]]; discriminate H.
Defined.

(** *** Power with an argument *)

Section Power.
Context (avr : rxv.RXV).

Lemma power_refused (t : string) (d : rxv.dev avr) :
  str_bool t = true ->
  lower t <> "on" -> lower t <> "off" ->
  cli.power avr (Some t) d =
    (Normal tt, d, [Out Stdout Red [Txt "State must be on or off"]]).
Proof.
  intros Hne Hon Hoff. unfold_run.
  rewrite Hne, (not_in_on_off (lower t) Hon Hoff). reflexivity.
Qed.

Lemma power_failed (t : string) (e : exn) (d d1 : rxv.dev avr) :
  lower t = "on" \/ lower t = "off" ->
  rxv.set_on avr (String.eqb (lower t) "on") d = (rxv.Raises e, d1) ->
  cli.power avr (Some t) d =
    (Normal tt, d1,
     [Call (rxv.SetOn (String.eqb (lower t) "on"));
      Out Stdout Red [Txt Transport.standby_hint]]).
Proof.
  intros Ht Hset. unfold_run.
  rewrite (lower_on_off_nonempty t Ht), (proj2 (in_on_off (lower t)) Ht), Hset.
  reflexivity.
Qed.

Lemma power_ends_normally (t : string) (d : rxv.dev avr) :
  str_bool t = true ->
  result (cli.power avr (Some t) d) = Normal tt.
Proof.
  intros Hne. unfold_run. rewrite Hne.
  destruct (in_list (lower t) ["on"; "off"]); [| reflexivity].
  destruct (rxv.set_on avr _ d) as [[[] | e] d1]; reflexivity.
Qed.

End Power.

(** X13. [power] with an argument never fails.  A token that is neither
    [on] nor [off] once lowered gets the red "State must be on or off"
    line and the receiver is not called.  For [on] and [off] the power
    setter is called once, and whatever it raises, a rejection of the
    receiver or any other exception, is caught and answered by the red
    network-standby hint on standard output. *)
Theorem power_with_argument (avr : rxv.RXV) (t : string)
    (d : rxv.dev avr) :
  str_bool t = true ->
  result (cli.power avr (Some t) d) = Normal tt
  /\ (lower t <> "on" -> lower t <> "off" ->
      cli.power avr (Some t) d =
        (Normal tt, d, [Out Stdout Red [Txt "State must be on or off"]]))
  /\ (lower t = "on" \/ lower t = "off" ->
      forall e d1,
        rxv.set_on avr (String.eqb (lower t) "on") d = (rxv.Raises e, d1) ->
        cli.power avr (Some t) d =
          (Normal tt, d1,
           [Call (rxv.SetOn (String.eqb (lower t) "on"));
            Out Stdout Red [Txt Transport.standby_hint]])).
Proof.
  intros Hne. split; [| split].
  - apply (power_ends_normally avr t d Hne).
  - apply (power_refused avr t d Hne).
  - intros Ht e d1. apply (power_failed avr t e d d1 Ht).
Qed.

Lemma power_with_argument_witness :
  str_bool "ON" = true
  /\ cli.power Sim.receiver (Some "ON") SimFaults.unplugged =
       (Normal tt, SimFaults.unplugged,
        [Call (rxv.SetOn true);
         Out Stdout Red [Txt Transport.standby_hint]])
  /\ cli.power Sim.receiver (Some "toggle") SimFaults.unplugged =
       (Normal tt, SimFaults.unplugged,
        [Out Stdout Red [Txt "State must be on or off"]]).
Proof.
  destruct (power_with_argument Sim.receiver "ON" SimFaults.unplugged eq_refl)
    as (_ & _ & Hfail).
  destruct (power_with_argument Sim.receiver "toggle" SimFaults.unplugged eq_refl)
    as (_ & Hbad & _).
  split; [reflexivity |].
  split.
  - apply (Hfail (or_introl eq_refl) (OtherException "Connection refused")
             SimFaults.unplugged).
    reflexivity.
  - apply Hbad; discriminate.
Defined.

(** *** Commands that only ask *)

Section Queries.
Context (avr : rxv.RXV).

Lemma entry_lines_calls (l : list (string * string)) :
  calls (cli.entry_lines l) = [].
Proof. induction l as [| x r IH]; [reflexivity | exact IH]. Qed.

Lemma output_lines_calls (l : list (string * bool)) :
  calls (map (fun output => Out Stdout Plain (cli_read.output_line output)) l)
  = [].
Proof. induction l as [| x r IH]; [reflexivity | exact IH]. Qed.

Lemma status_reads (d : rxv.dev avr) :
  writes (trace (cli_read.status avr d)) = [].
Proof.
  unfold cli_read.status. unfold_run.
  destruct (rxv.basic_status avr d) as [[st | e] d1]; reflexivity.
Qed.

Lemma outputs_reads (d : rxv.dev avr) :
  writes (trace (cli_read.outputs avr d)) = [].
Proof.
  unfold cli_read.outputs, Run.def, Run.bind, cli.avr_outputs, Run.invoke.
  destruct (rxv.outputs avr d) as [[outs | e] d1]; [| reflexivity].
  rewrite for_output_lines. unfold trace, writes. simpl.
  rewrite output_lines_calls. reflexivity.
Qed.

Lemma volume_reads (d : rxv.dev avr) :
  writes (trace (cli.volume_command avr None d)) = [].
Proof.
  unfold_run. destruct (rxv.get_volume avr d) as [[v | e] d1]; reflexivity.
Qed.

Lemma mute_reads (d : rxv.dev avr) :
  writes (trace (cli.mute avr None d)) = [].
Proof.
  unfold_run. destruct (rxv.basic_status avr d) as [[st | e] d1]; reflexivity.
Qed.

Lemma power_reads (d : rxv.dev avr) :
  writes (trace (cli.power avr None d)) = [].
Proof.
  unfold_run. destruct (rxv.get_on avr d) as [[b | e] d1]; reflexivity.
Qed.

Lemma playback_reads (d : rxv.dev avr) :
  writes (trace (cli.playback avr None d)) = [].
Proof.
  unfold_run.
  destruct (rxv.is_playback_supported avr d) as [[[] | e] d1]; simpl;
    try reflexivity.
  destruct (rxv.play_status avr d1) as [[st | e] d2]; reflexivity.
Qed.

Lemma menu_reads (d : rxv.dev avr) :
  writes (trace (cli.menu avr None d)) = [].
Proof.
  unfold cli.menu, cli.if_str, cli.when, Run.def, Run.bind,
    cli.avr_menu_status, Run.invoke, Run.ret, Run.return_.
  destruct (rxv.menu_status avr d) as [[st | e] d1]; [| reflexivity].
  destruct (rxv.ready st); simpl; [| reflexivity].
  destruct (rxv.menu_status avr d1) as [[st2 | e] d2]; [| reflexivity].
  unfold cli.print at 1, Run.write at 1.
  rewrite (for_entries avr _ d2). unfold trace, writes. simpl.
  rewrite entry_lines_calls. reflexivity.
Qed.

End Queries.

(** X14. The commands that only ask never write.  [status], [outputs]
    and, without an argument, [volume], [mute], [power], [playback] and
    [menu] make no call that changes the receiver, whatever the receiver
    answers and whether or not a call fails. *)
Theorem queries_never_write (avr : rxv.RXV) (d : rxv.dev avr) :
  writes (trace (cli_read.status avr d)) = []
  /\ writes (trace (cli_read.outputs avr d)) = []
  /\ writes (trace (cli.volume_command avr None d)) = []
  /\ writes (trace (cli.mute avr None d)) = []
  /\ writes (trace (cli.power avr None d)) = []
  /\ writes (trace (cli.playback avr None d)) = []
  /\ writes (trace (cli.menu avr None d)) = [].
Proof.
  repeat split;
    [ apply status_reads | apply outputs_reads | apply volume_reads
    | apply mute_reads | apply power_reads | apply playback_reads
    | apply menu_reads ].
Qed.

Section NameQueries.
Import rxv_names.
Context (avr : Receiver).

Lemma names_listing_reads (heading : list event) (r : request)
    (l : list string) :
  is_write r = false ->
  (forall e, In e heading -> exists to st line, e = Out to st line) ->
  writes (heading ++ Call r :: cli_names.name_lines l) = [].
Proof.
  intros Hr Hheading. unfold writes, calls.
  rewrite omap_app. simpl.
  fold (calls (cli_names.name_lines l)). rewrite name_lines_calls.
  assert (Hnone : omap (fun e => match e with
                                 | Call r0 => Some r0
                                 | Out _ _ _ => None
                                 end) heading = []).
  { induction heading as [| e h IH]; [reflexivity |].
    destruct (Hheading e (or_introl eq_refl)) as (to & st & line & ->).
    simpl. apply IH. intros e' He'. apply Hheading. right. exact He'. }
  rewrite Hnone. simpl.
  rewrite filter_cons_False by (rewrite Hr; discriminate). reflexivity.
Qed.

End NameQueries.

(** X15. The listings and the questions about the named settings never
    write.  [inputs], [sps], [zones], [scenes], and [input], [sp],
    [zone], [scene] without an argument make no call that changes the
    receiver, whatever the receiver answers. *)
Theorem name_queries_never_write (avr : rxv_names.Receiver)
    (d : rxv_names.dev avr) :
  rxv_names.writes (cli_names.inputs avr d).2 = []
  /\ rxv_names.writes (cli_names.sps avr d).2 = []
  /\ rxv_names.writes (cli_names.zones avr d).2 = []
  /\ rxv_names.writes (cli_names.scenes avr d).2 = []
  /\ rxv_names.writes (cli_names.input avr [] d).2 = []
  /\ rxv_names.writes (cli_names.sp avr None d).2 = []
  /\ rxv_names.writes (cli_names.zone avr None d).2 = []
  /\ rxv_names.writes (cli_names.scene avr None d).2 = [].
Proof.
  repeat split.
  - destruct (rxv_names.inputs avr d) as [[names | e] d1] eqn:H.
    + rewrite (inputs_run avr names d d1 H).
      apply (names_listing_reads [] rxv_names.GetInputs);
        [reflexivity | intros e []].
    + unfold_names. rewrite H. reflexivity.
  - destruct (rxv_names.surround_programs avr d) as [[names | e] d1] eqn:H.
    + rewrite (sps_run avr names d d1 H).
      apply (names_listing_reads [_] rxv_names.GetSurroundPrograms);
        [reflexivity | intros e [<- | []]; eauto].
    + unfold_names. rewrite H. reflexivity.
  - destruct (rxv_names.zones avr d) as [[names | e] d1] eqn:H.
    + rewrite (zones_run avr names d d1 H).
      apply (names_listing_reads [_] rxv_names.GetZones);
        [reflexivity | intros e [<- | []]; eauto].
    + unfold_names. rewrite H. reflexivity.
  - destruct (rxv_names.scenes avr d) as [[names | e] d1] eqn:H.
    + rewrite (scenes_run avr names d d1 H).
      apply (names_listing_reads [_] rxv_names.GetScenes);
        [reflexivity | intros e [<- | []]; eauto].
    + unfold_names. rewrite H. reflexivity.
  - unfold_names. destruct (rxv_names.get_input avr d) as [[x | e] d1];
      reflexivity.
  - unfold_names.
    destruct (rxv_names.get_surround_program avr d) as [[x | e] d1];
      reflexivity.
  - unfold_names. destruct (rxv_names.get_zone avr d) as [[x | e] d1];
      reflexivity.
  - unfold_names. destruct (rxv_names.get_scene avr d) as [[x | e] d1];
      reflexivity.
Qed.

(** *** Upper and lower case *)

(** X16. [power] and [mute] do not tell upper case from lower case: two
    tokens with the same lower-case form run in exactly the same way,
    with the same calls, the same lines and the same end, valid tokens
    or not. *)
Theorem power_mute_ignore_case (avr : rxv.RXV) (t u : string)
    (d : rxv.dev avr) :
  lower t = lower u ->
  cli.power avr (Some t) d = cli.power avr (Some u) d
  /\ cli.mute avr (Some t) d = cli.mute avr (Some u) d.
Proof.
  intros Hcase.
  assert (str_bool t = str_bool u) as Hbool
    by (rewrite <- (lower_str_bool t), <- (lower_str_bool u), Hcase;
        reflexivity).
  split.
  - unfold cli.power, cli.if_str. rewrite Hbool, Hcase. reflexivity.
  - unfold cli.mute, cli.if_str. rewrite Hbool, Hcase. reflexivity.
Qed.

Lemma power_mute_ignore_case_witness :
  lower "oFf" = lower "OFF"
  /\ lower (encode [214; 78]%N) = lower (encode [246; 110]%N)
  /\ cli.power Sim.receiver (Some "oFf") Sim.idle
     = cli.power Sim.receiver (Some "OFF") Sim.idle
  /\ cli.mute Sim.receiver (Some (encode [214; 78]%N)) Sim.idle
     = cli.mute Sim.receiver (Some (encode [246; 110]%N)) Sim.idle.
Proof.
  split; [reflexivity |].
  split; [vm_compute; reflexivity |].
  split.
  - apply (power_mute_ignore_case Sim.receiver "oFf" "OFF" Sim.idle).
    reflexivity.
  - apply (power_mute_ignore_case Sim.receiver (encode [214; 78]%N)
             (encode [246; 110]%N) Sim.idle).
    vm_compute. reflexivity.
Defined.

(** [mute] echoes the lowered token, letters beyond ASCII lowered too:
    for the token that reads capital O with diaeresis, capital N, the
    line written has the small letters. *)
Example mute_echo_beyond_ascii :
  printed (trace (cli.mute Sim.receiver (Some (encode [214; 78]%N)) Sim.idle))
    = [(Stdout, Plain, [Txt (encode [246; 110]%N)])].
Proof. vm_compute. reflexivity. Qed.

(** *** Mute with an argument *)

Section MuteFailures.
Context (avr : rxv.RXV).

Lemma mute_rejected (t text : string) (status : rxv.BasicStatus)
    (d d1 d2 : rxv.dev avr) :
  str_bool t = true ->
  rxv.basic_status avr d = (rxv.Returns status, d1) ->
  rxv.set_mute avr (String.eqb (lower t) "on") d1
    = (rxv.Raises (ResponseException text), d2) ->
  cli.mute avr (Some t) d =
    (Normal tt, d2,
     Call rxv.GetBasicStatus ::
     Call (rxv.SetMute (String.eqb (lower t) "on")) ::
       (if str_in "Mute" text
        then [Out Stderr Red [Txt "Mute command failed."]]
        else [])).
Proof.
  intros Hne Hstatus Hset. unfold_run. rewrite Hstatus, Hne, Hset. simpl.
  destruct (str_in "Mute" text); reflexivity.
Qed.

Lemma mute_failed (t : string) (e : exn) (status : rxv.BasicStatus)
    (d d1 d2 : rxv.dev avr) :
  str_bool t = true ->
  rxv.basic_status avr d = (rxv.Returns status, d1) ->
  (forall text, e <> ResponseException text) ->
  rxv.set_mute avr (String.eqb (lower t) "on") d1 = (rxv.Raises e, d2) ->
  cli.mute avr (Some t) d =
    (Raise e, d2,
     [Call rxv.GetBasicStatus;
      Call (rxv.SetMute (String.eqb (lower t) "on"))]).
Proof.
  intros Hne Hstatus He Hset. unfold_run. rewrite Hstatus, Hne, Hset. simpl.
  destruct e; try reflexivity. contradiction (He text). reflexivity.
Qed.

Lemma mute_status_failed (arg : option string) (e : exn)
    (d d1 : rxv.dev avr) :
  rxv.basic_status avr d = (rxv.Raises e, d1) ->
  cli.mute avr arg d = (Raise e, d1, [Call rxv.GetBasicStatus]).
Proof. intros Hstatus. unfold_run. rewrite Hstatus. reflexivity. Qed.

End MuteFailures.

(** X17. [mute] reads the status before anything else, also when it is
    to write: when that read fails the handler ends with the failure and
    the mute setter is never called.  When the receiver rejects the mute
    write, the handler ends normally, with the line "Mute command
    failed." on standard error exactly when the text of the rejection
    contains "Mute", and with no line at all otherwise.  An exception
    that is no rejection of the receiver is not caught. *)
Theorem mute_failures (avr : rxv.RXV) (t : string) (d d1 : rxv.dev avr) :
  (forall arg e,
     rxv.basic_status avr d = (rxv.Raises e, d1) ->
     cli.mute avr arg d = (Raise e, d1, [Call rxv.GetBasicStatus]))
  /\ (forall status,
        str_bool t = true ->
        rxv.basic_status avr d = (rxv.Returns status, d1) ->
        (forall text d2,
           rxv.set_mute avr (String.eqb (lower t) "on") d1
             = (rxv.Raises (ResponseException text), d2) ->
           cli.mute avr (Some t) d =
             (Normal tt, d2,
              Call rxv.GetBasicStatus ::
              Call (rxv.SetMute (String.eqb (lower t) "on")) ::
                (if str_in "Mute" text
                 then [Out Stderr Red [Txt "Mute command failed."]]
                 else [])))
        /\ (forall e d2,
              (forall text, e <> ResponseException text) ->
              rxv.set_mute avr (String.eqb (lower t) "on") d1
                = (rxv.Raises e, d2) ->
              cli.mute avr (Some t) d =
                (Raise e, d2,
                 [Call rxv.GetBasicStatus;
                  Call (rxv.SetMute (String.eqb (lower t) "on"))]))).
Proof.
  split.
  - intros arg e. apply mute_status_failed.
  - intros status Hne Hstatus. split.
    + intros text d2. apply (mute_rejected avr t text status d d1 d2 Hne Hstatus).
    + intros e d2. apply (mute_failed avr t e status d d1 d2 Hne Hstatus).
Qed.

Lemma mute_failures_witness :
  cli.mute Sim.receiver (Some "on") SimFaults.unplugged =
    (Raise (OtherException "Connection refused"), SimFaults.unplugged,
     [Call rxv.GetBasicStatus])
  /\ cli.mute Sim.receiver (Some "on") (SimFaults.mute_rejecting "Mute is locked") =
    (Normal tt, SimFaults.mute_rejecting "Mute is locked",
     [Call rxv.GetBasicStatus; Call (rxv.SetMute true);
      Out Stderr Red [Txt "Mute command failed."]])
  /\ cli.mute Sim.receiver (Some "on") (SimFaults.mute_rejecting "Busy") =
    (Normal tt, SimFaults.mute_rejecting "Busy",
     [Call rxv.GetBasicStatus; Call (rxv.SetMute true)]).
Proof.
  destruct (mute_failures Sim.receiver "on" SimFaults.unplugged
              SimFaults.unplugged) as [Hread _].
  destruct (mute_failures Sim.receiver "on"
              (SimFaults.mute_rejecting "Mute is locked")
              (SimFaults.mute_rejecting "Mute is locked")) as [_ Hlocked].
  destruct (mute_failures Sim.receiver "on" (SimFaults.mute_rejecting "Busy")
              (SimFaults.mute_rejecting "Busy")) as [_ Hbusy].
  split; [apply Hread; reflexivity |].
  split.
  - destruct (Hlocked (rxv.Build_BasicStatus true "HDMI1" (-20)%float true)
                eq_refl eq_refl) as [Hrej _].
    apply (Hrej "Mute is locked"). reflexivity.
  - destruct (Hbusy (rxv.Build_BasicStatus true "HDMI1" (-20)%float true)
                eq_refl eq_refl) as [Hrej _].
    apply (Hrej "Busy"). reflexivity.
Defined.

(** *** What [volume] prints after a write *)

Section VolumeEcho.
Context (avr : rxv.RXV).

Lemma volume_echoes_report (v v' : float) (d d1 d2 : rxv.dev avr) :
  PrimFloat.ltb v 0 = true ->
  rxv.set_volume avr v d = (rxv.Returns tt, d1) ->
  rxv.get_volume avr d1 = (rxv.Returns v', d2) ->
  cli.volume_command avr (Some v) d =
    (Normal tt, d2,
     [Call (rxv.SetVolume v); Call rxv.GetVolume; Out Stdout Plain [Flt v']]).
Proof.
  intros Hv Hset Hget. unfold_run.
  rewrite (negative_is_truthy v Hv), Hv, Hset. simpl. rewrite Hget.
  reflexivity.
Qed.

Lemma volume_read_back_rejected (v : float) (text : string)
    (d d1 d2 : rxv.dev avr) :
  PrimFloat.ltb v 0 = true ->
  rxv.set_volume avr v d = (rxv.Returns tt, d1) ->
  rxv.get_volume avr d1 = (rxv.Raises (ResponseException text), d2) ->
  cli.volume_command avr (Some v) d =
    (Normal tt, d2,
     Call (rxv.SetVolume v) :: Call rxv.GetVolume ::
       (if str_in "Volume" text then [cli.step_line] else [])).
Proof.
  intros Hv Hset Hget. unfold_run.
  rewrite (negative_is_truthy v Hv), Hv, Hset. simpl. rewrite Hget. simpl.
  destruct (str_in "Volume" text); reflexivity.
Qed.

End VolumeEcho.

(** X18. After an accepted write [volume] reads the volume back and
    prints what the receiver then reports, which need not be the value
    asked for.  The read back is inside the same [try]: when it is the
    read that the receiver rejects, the write has been made and the
    rejection is still answered as a wrong step, by the text of the
    rejection. *)
Theorem volume_prints_the_report (avr : rxv.RXV) (v : float)
    (d d1 : rxv.dev avr) :
  PrimFloat.ltb v 0 = true ->
  rxv.set_volume avr v d = (rxv.Returns tt, d1) ->
  (forall v' d2,
     rxv.get_volume avr d1 = (rxv.Returns v', d2) ->
     cli.volume_command avr (Some v) d =
       (Normal tt, d2,
        [Call (rxv.SetVolume v); Call rxv.GetVolume;
         Out Stdout Plain [Flt v']]))
  /\ (forall text d2,
        rxv.get_volume avr d1 = (rxv.Raises (ResponseException text), d2) ->
        cli.volume_command avr (Some v) d =
          (Normal tt, d2,
           Call (rxv.SetVolume v) :: Call rxv.GetVolume ::
             (if str_in "Volume" text then [cli.step_line] else []))).
Proof.
  intros Hv Hset. split.
  - intros v' d2. apply (volume_echoes_report avr v v' d d1 d2 Hv Hset).
  - intros text d2.
    apply (volume_read_back_rejected avr v text d d1 d2 Hv Hset).
Qed.

Lemma volume_prints_the_report_witness :
  (PrimFloat.ltb (-30.5)%float 0 = true
   /\ rxv.set_volume SimFaults.whole_steps (-30.5)%float (-20)%float
        = (rxv.Returns tt, (-30)%float))
  /\ cli.volume_command SimFaults.whole_steps (Some (-30.5)%float) (-20)%float =
       (Normal tt, (-30)%float,
        [Call (rxv.SetVolume (-30.5)%float); Call rxv.GetVolume;
         Out Stdout Plain [Flt (-30)%float]]).
Proof.
  destruct (volume_prints_the_report SimFaults.whole_steps (-30.5)%float
              (-20)%float (-30)%float eq_refl eq_refl) as [Hecho _].
  split; [split; reflexivity |].
  apply (Hecho (-30)%float (-30)%float). reflexivity.
Defined.

(** *** Volumes that are not below zero *)

Section NotNegative.
Context (avr : rxv.RXV).

Lemma volume_not_negative (v : float) (d : rxv.dev avr) :
  PrimFloat.ltb v 0 = false ->
  PrimFloat.eqb v 0 = false ->
  cli.volume_command avr (Some v) d =
    (Normal tt, d, [Out Stdout Plain [Txt cli.volume_refusal]]).
Proof.
  intros Hlt Heq. unfold_run. unfold float_bool. rewrite Heq, Hlt.
  reflexivity.
Qed.

Lemma fade_not_negative (vol delay : option float) (d : rxv.dev avr) :
  (forall v, vol = Some v -> PrimFloat.ltb v 0 = false) ->
  cli.fade_command avr vol delay d =
    (Normal tt, d, [Out Stdout Plain [Txt cli.fade_refusal]]).
Proof.
  intros Hvol. unfold_run. destruct vol as [v |]; [| reflexivity].
  rewrite (Hvol v eq_refl). destruct (float_bool v); reflexivity.
Qed.

End NotNegative.

(** X19. Only a volume below zero goes anywhere.  [fade] refuses, with
    its fixed line and without calling the receiver, every request whose
    volume is missing or is not below zero: zero, a positive number,
    infinity, and NaN, which is below nothing.  [volume] refuses the same
    values, zero apart, with its own fixed line. *)
Theorem not_negative_refused (avr : rxv.RXV) (d : rxv.dev avr) :
  (forall vol delay,
     (forall v, vol = Some v -> PrimFloat.ltb v 0 = false) ->
     cli.fade_command avr vol delay d =
       (Normal tt, d, [Out Stdout Plain [Txt cli.fade_refusal]]))
  /\ (forall v,
        PrimFloat.ltb v 0 = false ->
        PrimFloat.eqb v 0 = false ->
        cli.volume_command avr (Some v) d =
          (Normal tt, d, [Out Stdout Plain [Txt cli.volume_refusal]])).
Proof.
  split.
  - intros vol delay. apply fade_not_negative.
  - intros v. apply volume_not_negative.
Qed.

Lemma not_negative_refused_witness :
  (PrimFloat.ltb nan 0 = false /\ PrimFloat.eqb nan 0 = false)
  /\ cli.fade_command Sim.receiver (Some nan) (Some 1%float) Sim.idle =
       (Normal tt, Sim.idle, [Out Stdout Plain [Txt cli.fade_refusal]])
  /\ cli.fade_command Sim.receiver None (Some 1%float) Sim.idle =
       (Normal tt, Sim.idle, [Out Stdout Plain [Txt cli.fade_refusal]])
  /\ cli.volume_command Sim.receiver (Some nan) Sim.idle =
       (Normal tt, Sim.idle, [Out Stdout Plain [Txt cli.volume_refusal]]).
Proof.
  destruct (not_negative_refused Sim.receiver Sim.idle) as [Hfade Hvolume].
  split; [split; reflexivity |].
  split.
  { apply Hfade. intros v Hv. injection Hv as <-. reflexivity. }
  split.
  { apply Hfade. intros v Hv. discriminate Hv. }
  apply Hvolume; reflexivity.
Defined.

(** *** [up] and [down] when the write fails or the points are too many *)

(** X20. [up] and [down] make one attempt.  When the receiver rejects
    the new volume, whatever the text of the rejection, the red line
    "New volume must be out of range." is written on standard output and
    the command ends normally: the value is not clamped, nothing is
    written again, and the new value is not printed.  An exception of
    the write that is no rejection of the receiver is not caught, by
    [up] or by [down]: the command ends with it after the one read and
    the one write, nothing printed. *)
Theorem adjust_rejection_reported (avr : rxv.RXV) (points : option Z)
    (v x : float) (d d1 : rxv.dev avr) :
  rxv.get_volume avr d = (rxv.Returns v, d1) ->
  float_of_int (default 2 points) = inr x ->
  (forall text d2,
     rxv.set_volume avr (v + x * 0.5)%float d1
       = (rxv.Raises (ResponseException text), d2) ->
     cli.up_command avr points d =
       (Normal tt, d2,
        [Call rxv.GetVolume; Call (rxv.SetVolume (v + x * 0.5)%float);
         Out Stdout Red [Txt "New volume must be out of range."]]))
  /\ (forall text d2,
        rxv.set_volume avr (v - x * 0.5)%float d1
          = (rxv.Raises (ResponseException text), d2) ->
        cli.down_command avr points d =
          (Normal tt, d2,
           [Call rxv.GetVolume; Call (rxv.SetVolume (v - x * 0.5)%float);
            Out Stdout Red [Txt "New volume must be out of range."]]))
  /\ (forall e d2,
        (forall text, e <> ResponseException text) ->
        rxv.set_volume avr (v + x * 0.5)%float d1 = (rxv.Raises e, d2) ->
        cli.up_command avr points d =
          (Raise e, d2,
           [Call rxv.GetVolume; Call (rxv.SetVolume (v + x * 0.5)%float)]))
  /\ (forall e d2,
        (forall text, e <> ResponseException text) ->
        rxv.set_volume avr (v - x * 0.5)%float d1 = (rxv.Raises e, d2) ->
        cli.down_command avr points d =
          (Raise e, d2,
           [Call rxv.GetVolume; Call (rxv.SetVolume (v - x * 0.5)%float)])).
Proof.
  intros Hget Hx. unfold cli.up_command, cli.down_command.
  split; [| split; [| split]].
  - intros text d2 Hset. rewrite up_unfold.
    apply (adjust_volume_rejected avr _ operator_add v x text d d1 d2
             Hget Hx Hset).
  - intros text d2 Hset. rewrite down_unfold.
    apply (adjust_volume_rejected avr _ operator_sub v x text d d1 d2
             Hget Hx Hset).
  - intros e d2 He Hset. rewrite up_unfold.
    apply (adjust_volume_failed avr _ operator_add v x e d d1 d2
             Hget Hx He Hset).
  - intros e d2 He Hset. rewrite down_unfold.
    apply (adjust_volume_failed avr _ operator_sub v x e d d1 d2
             Hget Hx He Hset).
Qed.

Lemma adjust_rejection_reported_witness :
  (rxv.get_volume Sim.receiver (Sim.rejecting "Busy")
     = (rxv.Returns (-20)%float, Sim.rejecting "Busy")
   /\ float_of_int (default 2 None) = inr 2%float)
  /\ cli.up_command Sim.receiver None (Sim.rejecting "Busy") =
       (Normal tt, Sim.rejecting "Busy",
        [Call rxv.GetVolume; Call (rxv.SetVolume (-19)%float);
         Out Stdout Red [Txt "New volume must be out of range."]]).
Proof.
  destruct (adjust_rejection_reported Sim.receiver None (-20)%float 2%float
              (Sim.rejecting "Busy") (Sim.rejecting "Busy") eq_refl eq_refl)
    as [Hup _].
  split; [split; reflexivity |].
  apply (Hup "Busy" (Sim.rejecting "Busy")). reflexivity.
Defined.

(** X21. Points too many for a float.  When the count of points does not
    convert to a float, [up] and [down] read the current volume and then
    end with Python's [OverflowError]: nothing is written to the
    receiver and nothing is printed. *)
Theorem adjust_points_overflow (avr : rxv.RXV) (n : Z) (v : float)
    (e : exn) (d d1 : rxv.dev avr) :
  rxv.get_volume avr d = (rxv.Returns v, d1) ->
  float_of_int n = inl e ->
  cli.up avr n d = (Raise e, d1, [Call rxv.GetVolume])
  /\ cli.down avr n d = (Raise e, d1, [Call rxv.GetVolume]).
Proof.
  intros Hget Hn. split.
  - rewrite up_unfold.
    apply (adjust_volume_overflow avr n operator_add v e d d1 Hget Hn).
  - rewrite down_unfold.
    apply (adjust_volume_overflow avr n operator_sub v e d d1 Hget Hn).
Qed.

Lemma adjust_points_overflow_witness :
  (rxv.get_volume Sim.receiver Sim.idle = (rxv.Returns (-20)%float, Sim.idle)
   /\ float_of_int (2 ^ 1024)
      = inl (OverflowError "int too large to convert to float"))
  /\ cli.up Sim.receiver (2 ^ 1024) Sim.idle =
       (Raise (OverflowError "int too large to convert to float"), Sim.idle,
        [Call rxv.GetVolume]).
Proof.
  assert (Hbig : float_of_int (2 ^ 1024)
                 = inl (OverflowError "int too large to convert to float")).
  { vm_compute. reflexivity. }
  split; [split; [reflexivity | exact Hbig] |].
  apply (adjust_points_overflow Sim.receiver (2 ^ 1024) (-20)%float
           (OverflowError "int too large to convert to float")
           Sim.idle Sim.idle eq_refl Hbig).
Defined.

(** *** The target of a fade *)

Section FadeTarget.
Context (avr : rxv.RXV).

Lemma negative_target (v : float) (t : Z) :
  PrimFloat.ltb v 0 = true -> int_of_float v = inr t -> t <= 0.
Proof.
  unfold int_of_float. rewrite ltb_spec, Prim2SF_zero. unfold SFltb.
  destruct (Prim2SF v) as [s | s | | s m e]; simpl; try discriminate.
  destruct s; simpl; [| discriminate].
  intros _ H. injection H as <-.
  assert (0 <= Z.shiftl (Z.pos m) e) by (apply Z.shiftl_nonneg; lia).
  lia.
Qed.

Lemma int_of_float_error (v : float) (e : exn) :
  int_of_float v = inl e -> forall text, e <> ResponseException text.
Proof.
  unfold int_of_float.
  destruct (Prim2SF v) as [s | s | | s m x]; intros H text;
    try discriminate H; injection H as <-; discriminate.
Qed.

Lemma fade_target_fails (v : float) (delay : option float) (e : exn)
    (d : rxv.dev avr) :
  PrimFloat.ltb v 0 = true ->
  int_of_float v = inl e ->
  cli.fade_command avr (Some v) delay d =
    (Raise e, d, [Out Stdout Plain (cli.fade_announcement v delay)]).
Proof.
  intros Hv Hint. pose proof (int_of_float_error v e Hint) as He.
  unfold_run. rewrite (negative_is_truthy v Hv), Hv, Hint.
  simpl. destruct e; try reflexivity. contradiction (He text). reflexivity.
Qed.

End FadeTarget.

(** X22. The target of a fade is the volume without its fraction: it is
    never above zero, and it can be zero (-0.5 fades to 0).  A volume
    that has no integer (minus infinity) is announced and then ends the
    command with Python's error for the conversion: the receiver is not
    called. *)
Theorem fade_target (avr : rxv.RXV) (v : float) (d : rxv.dev avr) :
  PrimFloat.ltb v 0 = true ->
  (forall t delay,
     int_of_float v = inr t ->
     t <= 0
     /\ calls (trace (cli.fade_command avr (Some v) (Some delay) d))
        = [rxv.VolumeFade t delay])
  /\ (forall e delay,
        int_of_float v = inl e ->
        cli.fade_command avr (Some v) delay d =
          (Raise e, d, [Out Stdout Plain (cli.fade_announcement v delay)])).
Proof.
  intros Hv. split.
  - intros t delay Hint. split.
    + apply (negative_target v t Hv Hint).
    + apply (fade_negative_with_delay avr v delay t d Hv Hint).
  - intros e delay. apply (fade_target_fails avr v delay e d Hv).
Qed.

Lemma fade_target_witness :
  (PrimFloat.ltb (-0.5)%float 0 = true
   /\ int_of_float (-0.5)%float = inr 0
   /\ PrimFloat.ltb neg_infinity 0 = true)
  /\ calls (trace (cli.fade_command Sim.receiver (Some (-0.5)%float)
                     (Some 1%float) Sim.idle))
     = [rxv.VolumeFade 0 1%float]
  /\ cli.fade_command Sim.receiver (Some neg_infinity) (Some 1%float) Sim.idle =
       (Raise (OverflowError "cannot convert float infinity to integer"),
        Sim.idle,
        [Out Stdout Plain
           (cli.fade_announcement neg_infinity (Some 1%float))]).
Proof.
  destruct (fade_target Sim.receiver (-0.5)%float Sim.idle eq_refl)
    as [Hhalf _].
  destruct (fade_target Sim.receiver neg_infinity Sim.idle eq_refl)
    as [_ Hinf].
  split; [repeat split; reflexivity |].
  split.
  - destruct (Hhalf 0 1%float eq_refl) as [_ Hcalls]. exact Hcalls.
  - apply Hinf. reflexivity.
Defined.
